(** * Mobile mechanic platform: booking ledger and row-level security

    A shallow embedding of
    - [supabase/migrations/20260214133256_create_mechanic_platform_schema.sql]
      (tables, constraints, foreign keys, row-level-security policies, seed),
    - [app/booking/create.tsx] ([loadData], [handleSubmit]),
    - the bookings tab ([loadBookings], the status colours), the home tab
      ([loadServices], the category colours) and [app/auth/sign-up.tsx]
      ([handleSignUp]).

    Every table is a finite map from its primary key ([id uuid PRIMARY KEY]) to
    the remaining columns.  A nullable column is an [option]; a [NOT NULL]
    column is a plain value in a stored row.  The object that the booking
    screen hands to [insert] is a JSON document: each of its keys is absent,
    [null] or a value, the [uuid] columns travel as text and the numbers as
    JSON numbers, and the store converts them to the types of the columns
    before it looks at the policies.  Statements executed against the store
    return either an error of the store or the new state.

    A [string] is a text, held as its bytes in UTF-8. *)

From Stdlib Require Import ZArith QArith Ascii String.
From stdpp Require Import gmap strings fin_maps sorting.

Local Open Scope string_scope.
Local Open Scope Z_scope.

(** ** Column types *)

(** A [uuid] value, written as its canonical text: 32 lower-case hexadecimal
    digits in groups of 8, 4, 4, 4 and 12. *)
Abbreviation uuid := string (only parsing).

(** [timestamptz]: microseconds since the epoch. *)
Abbreviation timestamptz := Z (only parsing).

(** [numeric]: exact decimals, kept as written (49.99 is [4999 # 100]). *)
Abbreviation numeric := Q (only parsing).

(** *** The input function of [uuid]

    An optional opening brace, sixteen bytes of two hexadecimal digits each,
    with an optional hyphen after every second byte but the last, the closing
    brace if there was an opening one, and nothing else; upper-case digits
    are accepted.  The value is the canonical text. *)
Definition is_xdigit (a : ascii) : bool :=
  let n := Z.of_nat (nat_of_ascii a) in
  ((48 <=? n) && (n <=? 57)) || ((97 <=? n) && (n <=? 102))
  || ((65 <=? n) && (n <=? 70)).

Definition to_lower (a : ascii) : ascii :=
  let n := Z.of_nat (nat_of_ascii a) in
  if (65 <=? n) && (n <=? 90) then ascii_of_nat (Z.to_nat (n + 32)) else a.

(** Reads [n] bytes, the first of which has index [i]; returns the digits
    read, in lower case, and the rest of the text. *)
Fixpoint uuid_bytes (n : nat) (i : Z) (s : string) : option (list ascii * string) :=
  match n with
  | O => Some ([], s)
  | S n =>
      match s with
      | String a (String b rest) =>
          if is_xdigit a && is_xdigit b then
            let rest :=
              match rest with
              | String "-"%char rest' => if Z.odd i && (i <? 15) then rest' else rest
              | _ => rest
              end in
            match uuid_bytes n (i + 1) rest with
            | Some (l, s') => Some (to_lower a :: to_lower b :: l, s')
            | None => None
            end
          else None
      | _ => None
      end
  end.

Definition uuid_out (l : list ascii) : uuid :=
  string_of_list_ascii
    (take 8 l ++ "-"%char :: take 4 (drop 8 l) ++ "-"%char :: take 4 (drop 12 l)
     ++ "-"%char :: take 4 (drop 16 l) ++ "-"%char :: drop 20 l).

Definition uuid_in (s : string) : option uuid :=
  let '(braces, s) :=
    match s with
    | String "{"%char s' => (true, s')
    | _ => (false, s)
    end in
  match uuid_bytes 16 0 s with
  | Some (l, rest) =>
      let rest :=
        if braces then
          match rest with
          | String "}"%char rest' => Some rest'
          | _ => None
          end
        else Some rest in
      match rest with
      | Some "" => Some (uuid_out l)
      | _ => None
      end
  | None => None
  end.

(** ** JSON documents *)

(** A key of an object: absent (also when the value is [undefined], which
    [JSON.stringify] leaves out), [null], or a value. *)
Inductive entry (A : Type) :=
  | Absent
  | Null
  | Value (a : A).
Arguments Absent {A}.
Arguments Null {A}.
Arguments Value {A} a.

(** The column value of an entry: an absent key takes the default of the
    column, [null] is null. *)
Definition or_default {A} (dflt : option A) (e : entry A) : option A :=
  match e with
  | Absent => dflt
  | Null => None
  | Value a => Some a
  end.

Definition is_Value {A} (e : entry A) : Prop := ∃ a, e = Value a.

(** A JSON number, as the input functions of the store read its text: an
    integer numeral ([2020]), or a number written with a fraction or an
    exponent ([49.99], [1e+21]), with its value. *)
Inductive json_number :=
  | Numeral (n : Z)
  | Decimal (v : Q).

Definition json_value (j : json_number) : Q :=
  match j with
  | Numeral n => inject_Z n
  | Decimal v => v
  end.

(** ** Rows *)

Module Profile.
Record row := {
  email : string;
  full_name : string;
  phone : option string;
  user_type : string;
  created_at : option timestamptz;
  updated_at : option timestamptz
}.
End Profile.

Module Mechanic.
Record row := {
  user_id : uuid;
  business_name : string;
  certifications : option (list string);
  years_experience : option Z;
  service_radius : option Z;
  rating : option numeric;
  total_jobs : option Z;
  is_available : option bool;
  current_latitude : option numeric;
  current_longitude : option numeric;
  created_at : option timestamptz
}.
End Mechanic.

Module Service.
Record row := {
  name : string;
  description : string;
  category : string;
  base_price : numeric;
  estimated_duration : Z;
  created_at : option timestamptz
}.

Definition set_base_price (p : numeric) (s : row) : row :=
  {| name := name s; description := description s; category := category s;
     base_price := p; estimated_duration := estimated_duration s;
     created_at := created_at s |}.
End Service.

Module Booking.
Record row := {
  customer_id : uuid;
  mechanic_id : option uuid;
  service_id : uuid;
  status : string;
  vehicle_make : string;
  vehicle_model : string;
  vehicle_year : Z;
  location_address : string;
  location_latitude : numeric;
  location_longitude : numeric;
  scheduled_time : timestamptz;
  total_price : numeric;
  notes : option string;
  created_at : option timestamptz;
  updated_at : option timestamptz
}.

(** The object handed to [supabase.from('bookings').insert(...)]. *)
Record payload := {
  p_customer_id : entry string;
  p_mechanic_id : entry string;
  p_service_id : entry string;
  p_status : entry string;
  p_vehicle_make : entry string;
  p_vehicle_model : entry string;
  p_vehicle_year : entry json_number;
  p_location_address : entry string;
  p_location_latitude : entry numeric;
  p_location_longitude : entry numeric;
  p_scheduled_time : entry timestamptz;
  p_total_price : entry numeric;
  p_notes : entry string
}.

Definition set_mechanic_id (m : option uuid) (b : row) : row :=
  {| customer_id := customer_id b; mechanic_id := m; service_id := service_id b;
     status := status b; vehicle_make := vehicle_make b;
     vehicle_model := vehicle_model b; vehicle_year := vehicle_year b;
     location_address := location_address b;
     location_latitude := location_latitude b;
     location_longitude := location_longitude b;
     scheduled_time := scheduled_time b; total_price := total_price b;
     notes := notes b; created_at := created_at b; updated_at := updated_at b |}.

Definition set_status (s : string) (b : row) : row :=
  {| customer_id := customer_id b; mechanic_id := mechanic_id b;
     service_id := service_id b;
     status := s; vehicle_make := vehicle_make b;
     vehicle_model := vehicle_model b; vehicle_year := vehicle_year b;
     location_address := location_address b;
     location_latitude := location_latitude b;
     location_longitude := location_longitude b;
     scheduled_time := scheduled_time b; total_price := total_price b;
     notes := notes b; created_at := created_at b; updated_at := updated_at b |}.

Definition set_notes (n : option string) (b : row) : row :=
  {| customer_id := customer_id b; mechanic_id := mechanic_id b;
     service_id := service_id b;
     status := status b; vehicle_make := vehicle_make b;
     vehicle_model := vehicle_model b; vehicle_year := vehicle_year b;
     location_address := location_address b;
     location_latitude := location_latitude b;
     location_longitude := location_longitude b;
     scheduled_time := scheduled_time b; total_price := total_price b;
     notes := n; created_at := created_at b; updated_at := updated_at b |}.

Definition set_total_price (p : numeric) (b : row) : row :=
  {| customer_id := customer_id b; mechanic_id := mechanic_id b;
     service_id := service_id b;
     status := status b; vehicle_make := vehicle_make b;
     vehicle_model := vehicle_model b; vehicle_year := vehicle_year b;
     location_address := location_address b;
     location_latitude := location_latitude b;
     location_longitude := location_longitude b;
     scheduled_time := scheduled_time b; total_price := p;
     notes := notes b; created_at := created_at b; updated_at := updated_at b |}.
End Booking.

Module Review.
Record row := {
  booking_id : uuid;
  customer_id : uuid;
  mechanic_id : uuid;
  rating : Z;
  comment : option string;
  created_at : option timestamptz
}.
End Review.

(** ** The store *)

Record db := {
  auth_users : gset uuid;
  profiles : gmap uuid Profile.row;
  mechanics : gmap uuid Mechanic.row;
  services : gmap uuid Service.row;
  bookings : gmap uuid Booking.row;
  reviews : gmap uuid Review.row
}.

Definition empty_db : db :=
  {| auth_users := ∅; profiles := ∅; mechanics := ∅; services := ∅;
     bookings := ∅; reviews := ∅ |}.

Definition with_profiles (t : gmap uuid Profile.row) (d : db) : db :=
  {| auth_users := auth_users d; profiles := t; mechanics := mechanics d;
     services := services d; bookings := bookings d; reviews := reviews d |}.

Definition with_mechanics (t : gmap uuid Mechanic.row) (d : db) : db :=
  {| auth_users := auth_users d; profiles := profiles d; mechanics := t;
     services := services d; bookings := bookings d; reviews := reviews d |}.

Definition with_services (t : gmap uuid Service.row) (d : db) : db :=
  {| auth_users := auth_users d; profiles := profiles d; mechanics := mechanics d;
     services := t; bookings := bookings d; reviews := reviews d |}.

Definition with_bookings (t : gmap uuid Booking.row) (d : db) : db :=
  {| auth_users := auth_users d; profiles := profiles d; mechanics := mechanics d;
     services := services d; bookings := t; reviews := reviews d |}.

Definition with_reviews (t : gmap uuid Review.row) (d : db) : db :=
  {| auth_users := auth_users d; profiles := profiles d; mechanics := mechanics d;
     services := services d; bookings := bookings d; reviews := t |}.

(** Errors raised by the store. *)
Inductive pg_error :=
  | RlsViolation (table : string)                (* 42501 *)
  | NotNullViolation (column : string)           (* 23502 *)
  | NumericValueOutOfRange (column : string)     (* 22003 *)
  | InvalidTextRepresentation (column : string)  (* 22P02 *)
  | CheckViolation (constraint : string)         (* 23514 *)
  | UniqueViolation (constraint : string)        (* 23505 *)
  | ForeignKeyViolation (constraint : string).   (* 23503 *)

Inductive result (A : Type) :=
  | Ok (a : A)
  | Err (e : pg_error).
Arguments Ok {A} a.
Arguments Err {A} e.

(** ** The session

    [auth.uid()] of the request: [None] for the [anon] role, [Some u] for the
    [authenticated] role.  Every policy of the migration is declared
    [TO authenticated], so the [anon] role has no policy on any table. *)
Abbreviation principal := (option string) (only parsing).

(** ** Check constraints *)

(** [CONSTRAINT valid_user_type CHECK (user_type IN ('customer', 'mechanic'))] *)
Definition valid_user_type (s : string) : bool :=
  bool_decide (s = "customer") || bool_decide (s = "mechanic").

(** [CONSTRAINT valid_category CHECK (category IN (...))] *)
Definition valid_category (s : string) : bool :=
  bool_decide (s = "repair") || bool_decide (s = "maintenance")
  || bool_decide (s = "inspection") || bool_decide (s = "emergency").

(** [CONSTRAINT valid_status CHECK (status IN (...))] *)
Definition valid_status (s : string) : bool :=
  bool_decide (s = "pending") || bool_decide (s = "accepted")
  || bool_decide (s = "in_progress") || bool_decide (s = "completed")
  || bool_decide (s = "cancelled").

(** [CONSTRAINT valid_rating CHECK (rating >= 1 AND rating <= 5)] *)
Definition valid_rating (r : Z) : bool := (1 <=? r) && (r <=? 5).

(** ** Row-level-security policies *)

(** [SELECT id FROM mechanics WHERE user_id = auth.uid()] *)
Definition mechanics_of (d : db) (u : uuid) : gmap uuid Mechanic.row :=
  filter (λ kv, Mechanic.user_id kv.2 = u) (mechanics d).

(** [mechanic_id IN (SELECT id FROM mechanics WHERE user_id = auth.uid())];
    a null [mechanic_id] is in no set. *)
Definition mechanic_id_owned (d : db) (u : uuid) (m : option uuid) : bool :=
  match m with
  | Some mid => bool_decide (is_Some (mechanics_of d u !! mid))
  | None => false
  end.

(** "Customers can view own bookings": [USING (customer_id = auth.uid())] *)
Definition customers_can_view_own_bookings (u : uuid) (b : Booking.row) : bool :=
  bool_decide (Booking.customer_id b = u).

(** "Mechanics can view assigned bookings" *)
Definition mechanics_can_view_assigned_bookings
    (d : db) (u : uuid) (b : Booking.row) : bool :=
  mechanic_id_owned d u (Booking.mechanic_id b).

(** Permissive policies for one command are combined with OR. *)
Definition bookings_select_policy (d : db) (who : principal) (b : Booking.row) : bool :=
  match who with
  | None => false
  | Some u =>
      customers_can_view_own_bookings u b
      || mechanics_can_view_assigned_bookings d u b
  end.

(** "Customers can create bookings": [WITH CHECK (customer_id = auth.uid())];
    a null [customer_id] does not satisfy the check. *)
Definition bookings_insert_policy (who : principal) (customer : option uuid) : bool :=
  match who, customer with
  | Some u, Some c => bool_decide (c = u)
  | _, _ => false
  end.

(** "Customers can update own bookings" and "Mechanics can update assigned
    bookings": both carry the same expression as [USING] and as [WITH CHECK]. *)
Definition customers_can_update_own_bookings (u : uuid) (b : Booking.row) : bool :=
  bool_decide (Booking.customer_id b = u).

Definition mechanics_can_update_assigned_bookings
    (d : db) (u : uuid) (b : Booking.row) : bool :=
  mechanic_id_owned d u (Booking.mechanic_id b).

Definition bookings_update_using (d : db) (who : principal) (old : Booking.row) : bool :=
  match who with
  | None => false
  | Some u =>
      customers_can_update_own_bookings u old
      || mechanics_can_update_assigned_bookings d u old
  end.

Definition bookings_update_check (d : db) (who : principal) (new : Booking.row) : bool :=
  match who with
  | None => false
  | Some u =>
      customers_can_update_own_bookings u new
      || mechanics_can_update_assigned_bookings d u new
  end.

(** "Anyone can view services", "Anyone can view mechanics", "Anyone can view
    reviews": [TO authenticated USING (true)]. *)
Definition anyone_can_view (who : principal) : bool :=
  match who with Some _ => true | None => false end.

(** "Customers can create reviews for their bookings":
    [WITH CHECK (customer_id = auth.uid())]. *)
Definition reviews_insert_policy (who : principal) (r : Review.row) : bool :=
  match who with
  | Some u => bool_decide (Review.customer_id r = u)
  | None => false
  end.

(** "Mechanics can insert own profile": [WITH CHECK (user_id = auth.uid())]. *)
Definition mechanics_insert_policy (who : principal) (m : Mechanic.row) : bool :=
  match who with
  | Some u => bool_decide (Mechanic.user_id m = u)
  | None => false
  end.

(** "Users can insert own profile": [WITH CHECK (auth.uid() = id)]. *)
Definition profiles_insert_policy (who : principal) (id : uuid) : bool :=
  match who with
  | Some u => bool_decide (u = id)
  | None => false
  end.

(** "Users can view own profile" and "Users can update own profile":
    [USING (auth.uid() = id)], the update with the same [WITH CHECK]. *)
Definition profiles_select_policy (who : principal) (id : uuid) : bool :=
  match who with
  | Some u => bool_decide (u = id)
  | None => false
  end.

(** "Mechanics can update own profile": [USING (user_id = auth.uid()) WITH
    CHECK (user_id = auth.uid())]. *)
Definition mechanics_update_policy (who : principal) (m : Mechanic.row) : bool :=
  match who with
  | Some u => bool_decide (Mechanic.user_id m = u)
  | None => false
  end.

(** ** Statements against the store *)

Global Instance result_ret : MRet result := λ A a, Ok a.
Global Instance result_bind : MBind result := λ A B f r,
  match r with
  | Ok a => f a
  | Err e => Err e
  end.

Global Instance result_fmap : FMap result := λ A B f r,
  match r with
  | Ok a => Ok (f a)
  | Err e => Err e
  end.

Definition guard_or (e : pg_error) (b : bool) : result unit :=
  if b then Ok tt else Err e.

Definition not_null {A} (column : string) (o : option A) : result A :=
  match o with
  | Some a => Ok a
  | None => Err (NotNullViolation column)
  end.

(** A foreign key is satisfied by a key that is present in the referenced
    table. *)
Definition references {A} (t : gmap uuid A) (k : uuid) : bool :=
  bool_decide (is_Some (t !! k)).

Definition references_opt {A} (t : gmap uuid A) (k : option uuid) : bool :=
  match k with
  | Some k => references t k
  | None => true
  end.

(** [SELECT * FROM bookings] as seen by [who]: the rows that pass the
    [SELECT] policies. *)
Definition select_bookings (who : principal) (d : db) : gmap uuid Booking.row :=
  filter (λ kv, bookings_select_policy d who kv.2 = true) (bookings d).

(** [SELECT * FROM services], [SELECT * FROM mechanics] and
    [SELECT * FROM reviews] as seen by [who]. *)
Definition select_services (who : principal) (d : db) : gmap uuid Service.row :=
  if anyone_can_view who then services d else ∅.

Definition select_mechanics (who : principal) (d : db) : gmap uuid Mechanic.row :=
  if anyone_can_view who then mechanics d else ∅.

Definition select_reviews (who : principal) (d : db) : gmap uuid Review.row :=
  if anyone_can_view who then reviews d else ∅.

Definition select_profiles (who : principal) (d : db) : gmap uuid Profile.row :=
  filter (λ kv, profiles_select_policy who kv.1 = true) (profiles d).

(** *** Conversion to the types of the columns

    The values of a statement are converted before any policy or constraint
    is looked at, column after column in the order of the table. *)

(** The [integer] column type. *)
Definition in_int4 (z : Z) : bool := (- 2 ^ 31 <=? z) && (z <? 2 ^ 31).

Definition int4 (column : string) (z : Z) : result Z :=
  if in_int4 z then Ok z else Err (NumericValueOutOfRange column).

Definition int4_opt (column : string) (z : option Z) : result (option Z) :=
  match z with
  | Some z => Some <$> int4 column z
  | None => Ok None
  end.

(** A [uuid] column of a JSON document. *)
Definition uuid_column (column : string) (e : entry string) : result (option uuid) :=
  match e with
  | Value s =>
      match uuid_in s with
      | Some u => Ok (Some u)
      | None => Err (InvalidTextRepresentation column)
      end
  | Absent | Null => Ok None
  end.

(** An [integer] column of a JSON document: the input function reads an
    integer numeral and nothing else. *)
Definition integer_column (column : string) (e : entry json_number)
    : result (option Z) :=
  match e with
  | Value (Numeral n) => Some <$> int4 column n
  | Value (Decimal _) => Err (InvalidTextRepresentation column)
  | Absent | Null => Ok None
  end.

(** The conversion of the object of an insert into [bookings]: its three
    [uuid] columns and its [integer] column, as the values of the columns
    ([None] for null and for an absent key). *)
Definition convert_booking (p : Booking.payload)
    : result (option uuid * option uuid * option uuid * option Z) :=
  c ← uuid_column "customer_id" (Booking.p_customer_id p);
  m ← uuid_column "mechanic_id" (Booking.p_mechanic_id p);
  s ← uuid_column "service_id" (Booking.p_service_id p);
  year ← integer_column "vehicle_year" (Booking.p_vehicle_year p);
  Ok (c, m, s, year).

(** [INSERT INTO bookings].  [new_id] is the value drawn by
    [gen_random_uuid()] and [now] the value of [now()].  The values are
    converted first; then comes the policy check, then the [NOT NULL] and
    [CHECK] constraints, then the primary key, then the foreign keys. *)
Definition insert_booking (who : principal) (new_id : uuid) (now : timestamptz)
    (p : Booking.payload) (d : db) : result db :=
  '(c, m, s, year) ← convert_booking p;
  guard_or (RlsViolation "bookings") (bookings_insert_policy who c) ≫= λ _,
  c ← not_null "customer_id" c;
  s ← not_null "service_id" s;
  st ← not_null "status" (or_default (Some "pending") (Booking.p_status p));
  make ← not_null "vehicle_make" (or_default None (Booking.p_vehicle_make p));
  model ← not_null "vehicle_model" (or_default None (Booking.p_vehicle_model p));
  year ← not_null "vehicle_year" year;
  addr ← not_null "location_address"
           (or_default None (Booking.p_location_address p));
  lat ← not_null "location_latitude"
          (or_default None (Booking.p_location_latitude p));
  lon ← not_null "location_longitude"
          (or_default None (Booking.p_location_longitude p));
  sched ← not_null "scheduled_time"
            (or_default None (Booking.p_scheduled_time p));
  price ← not_null "total_price" (or_default None (Booking.p_total_price p));
  guard_or (CheckViolation "valid_status") (valid_status st) ≫= λ _,
  guard_or (UniqueViolation "bookings_pkey")
    (bool_decide (bookings d !! new_id = None)) ≫= λ _,
  guard_or (ForeignKeyViolation "bookings_customer_id_fkey")
    (references (profiles d) c) ≫= λ _,
  guard_or (ForeignKeyViolation "bookings_mechanic_id_fkey")
    (references_opt (mechanics d) m) ≫= λ _,
  guard_or (ForeignKeyViolation "bookings_service_id_fkey")
    (references (services d) s) ≫= λ _,
  let row :=
    {| Booking.customer_id := c;
       Booking.mechanic_id := m;
       Booking.service_id := s;
       Booking.status := st;
       Booking.vehicle_make := make;
       Booking.vehicle_model := model;
       Booking.vehicle_year := year;
       Booking.location_address := addr;
       Booking.location_latitude := lat;
       Booking.location_longitude := lon;
       Booking.scheduled_time := sched;
       Booking.total_price := price;
       Booking.notes := or_default (Some "") (Booking.p_notes p);
       Booking.created_at := Some now;
       Booking.updated_at := Some now |} in
  Ok (with_bookings (<[new_id := row]> (bookings d)) d).

(** [UPDATE bookings SET ... WHERE id = id AND cond].  [set] computes the new
    tuple from the old one (the primary key is not among the columns it can
    change, and it cannot put a null into a [NOT NULL] column).  A row that
    does not pass [USING] is not a candidate: zero rows are affected and no
    error is raised.  A new [vehicle_year] has to fit the [integer] column,
    which the store finds out before it looks at the policy (the model
    reports it when there is a candidate row; whether the store reports it
    when there is none depends on the plan of the statement); then the new
    tuple must pass [WITH CHECK] and the constraints; a foreign key is
    checked again only when its column changed.  The result carries the
    number of rows affected.  (The [WHERE] clause reads the row, which
    brings in the [SELECT] policies as well; they carry the same two
    expressions as the [UPDATE] policies.) *)
Definition update_booking (who : principal) (id : uuid)
    (cond : Booking.row → bool) (set : Booking.row → Booking.row) (d : db)
    : result (db * nat) :=
  match bookings d !! id with
  | None => Ok (d, 0%nat)
  | Some old =>
      if bookings_update_using d who old && cond old then
        let new := set old in
        guard_or (NumericValueOutOfRange "vehicle_year")
          (bool_decide (Booking.vehicle_year new = Booking.vehicle_year old)
           || in_int4 (Booking.vehicle_year new)) ≫= λ _,
        guard_or (RlsViolation "bookings") (bookings_update_check d who new) ≫= λ _,
        guard_or (CheckViolation "valid_status")
          (valid_status (Booking.status new)) ≫= λ _,
        guard_or (ForeignKeyViolation "bookings_customer_id_fkey")
          (bool_decide (Booking.customer_id new = Booking.customer_id old)
           || references (profiles d) (Booking.customer_id new)) ≫= λ _,
        guard_or (ForeignKeyViolation "bookings_mechanic_id_fkey")
          (bool_decide (Booking.mechanic_id new = Booking.mechanic_id old)
           || references_opt (mechanics d) (Booking.mechanic_id new)) ≫= λ _,
        guard_or (ForeignKeyViolation "bookings_service_id_fkey")
          (bool_decide (Booking.service_id new = Booking.service_id old)
           || references (services d) (Booking.service_id new)) ≫= λ _,
        Ok (with_bookings (<[id := new]> (bookings d)) d, 1%nat)
      else Ok (d, 0%nat)
  end.

(** [UPDATE bookings SET status = s WHERE id = id]. *)
Definition update_booking_status (who : principal) (id : uuid) (s : string)
    (d : db) : result (db * nat) :=
  update_booking who id (λ _, true) (Booking.set_status s) d.

(** The row that [INSERT INTO reviews] stores for [r]: an absent [comment]
    and an absent [created_at] take the defaults of their columns. *)
Definition stored_review (now : timestamptz) (r : Review.row) : Review.row :=
  {| Review.booking_id := Review.booking_id r;
     Review.customer_id := Review.customer_id r;
     Review.mechanic_id := Review.mechanic_id r;
     Review.rating := Review.rating r;
     Review.comment := Some (default "" (Review.comment r));
     Review.created_at := Some (default now (Review.created_at r)) |}.

(** [INSERT INTO reviews]. *)
Definition insert_review (who : principal) (new_id : uuid) (now : timestamptz)
    (r : Review.row) (d : db) : result db :=
  int4 "rating" (Review.rating r) ≫= λ _,
  guard_or (RlsViolation "reviews") (reviews_insert_policy who r) ≫= λ _,
  guard_or (CheckViolation "valid_rating") (valid_rating (Review.rating r)) ≫= λ _,
  guard_or (UniqueViolation "reviews_pkey")
    (bool_decide (reviews d !! new_id = None)) ≫= λ _,
  guard_or (ForeignKeyViolation "reviews_booking_id_fkey")
    (references (bookings d) (Review.booking_id r)) ≫= λ _,
  guard_or (ForeignKeyViolation "reviews_customer_id_fkey")
    (references (profiles d) (Review.customer_id r)) ≫= λ _,
  guard_or (ForeignKeyViolation "reviews_mechanic_id_fkey")
    (references (mechanics d) (Review.mechanic_id r)) ≫= λ _,
  Ok (with_reviews (<[new_id := stored_review now r]> (reviews d)) d).

(** [INSERT INTO mechanics] and [INSERT INTO profiles]. *)
Definition insert_mechanic (who : principal) (new_id : uuid)
    (m : Mechanic.row) (d : db) : result db :=
  int4_opt "years_experience" (Mechanic.years_experience m) ≫= λ _,
  int4_opt "service_radius" (Mechanic.service_radius m) ≫= λ _,
  int4_opt "total_jobs" (Mechanic.total_jobs m) ≫= λ _,
  guard_or (RlsViolation "mechanics") (mechanics_insert_policy who m) ≫= λ _,
  guard_or (UniqueViolation "mechanics_pkey")
    (bool_decide (mechanics d !! new_id = None)) ≫= λ _,
  guard_or (ForeignKeyViolation "mechanics_user_id_fkey")
    (references (profiles d) (Mechanic.user_id m)) ≫= λ _,
  Ok (with_mechanics (<[new_id := m]> (mechanics d)) d).

Definition insert_profile (who : principal) (id : uuid)
    (p : Profile.row) (d : db) : result db :=
  guard_or (RlsViolation "profiles") (profiles_insert_policy who id) ≫= λ _,
  guard_or (CheckViolation "valid_user_type")
    (valid_user_type (Profile.user_type p)) ≫= λ _,
  guard_or (UniqueViolation "profiles_pkey")
    (bool_decide (profiles d !! id = None)) ≫= λ _,
  guard_or (ForeignKeyViolation "profiles_id_fkey")
    (bool_decide (id ∈ auth_users d)) ≫= λ _,
  Ok (with_profiles (<[id := p]> (profiles d)) d).

(** [UPDATE profiles SET ... WHERE id = id]; [set] leaves the primary key
    alone. *)
Definition update_profile (who : principal) (id : uuid)
    (set : Profile.row → Profile.row) (d : db) : result (db * nat) :=
  match profiles d !! id with
  | None => Ok (d, 0%nat)
  | Some old =>
      if profiles_select_policy who id then
        let new := set old in
        guard_or (RlsViolation "profiles") (profiles_select_policy who id) ≫= λ _,
        guard_or (CheckViolation "valid_user_type")
          (valid_user_type (Profile.user_type new)) ≫= λ _,
        Ok (with_profiles (<[id := new]> (profiles d)) d, 1%nat)
      else Ok (d, 0%nat)
  end.

(** A new value of a nullable [integer] column has to fit the type. *)
Definition unchanged_or_int4 (old new : option Z) : bool :=
  bool_decide (new = old) || from_option in_int4 true new.

(** [UPDATE mechanics SET ... WHERE id = id]. *)
Definition update_mechanic (who : principal) (id : uuid)
    (set : Mechanic.row → Mechanic.row) (d : db) : result (db * nat) :=
  match mechanics d !! id with
  | None => Ok (d, 0%nat)
  | Some old =>
      if mechanics_update_policy who old then
        let new := set old in
        guard_or (NumericValueOutOfRange "years_experience")
          (unchanged_or_int4 (Mechanic.years_experience old)
             (Mechanic.years_experience new)) ≫= λ _,
        guard_or (NumericValueOutOfRange "service_radius")
          (unchanged_or_int4 (Mechanic.service_radius old)
             (Mechanic.service_radius new)) ≫= λ _,
        guard_or (NumericValueOutOfRange "total_jobs")
          (unchanged_or_int4 (Mechanic.total_jobs old)
             (Mechanic.total_jobs new)) ≫= λ _,
        guard_or (RlsViolation "mechanics") (mechanics_update_policy who new) ≫= λ _,
        guard_or (ForeignKeyViolation "mechanics_user_id_fkey")
          (bool_decide (Mechanic.user_id new = Mechanic.user_id old)
           || references (profiles d) (Mechanic.user_id new)) ≫= λ _,
        Ok (with_mechanics (<[id := new]> (mechanics d)) d, 1%nat)
      else Ok (d, 0%nat)
  end.

(** *** Statements run by the owner of the schema

    No policy of the migration is declared for [DELETE], and none for any
    write to [services]: these statements are run by a role that is not
    subject to row-level security (the migration itself, the dashboard). *)

(** [INSERT INTO services ... ON CONFLICT DO NOTHING]. *)
Definition insert_service (new_id : uuid) (s : Service.row) (d : db) : result db :=
  int4 "estimated_duration" (Service.estimated_duration s) ≫= λ _,
  guard_or (CheckViolation "valid_category")
    (valid_category (Service.category s)) ≫= λ _,
  match services d !! new_id with
  | Some _ => Ok d
  | None => Ok (with_services (<[new_id := s]> (services d)) d)
  end.

(** [UPDATE services SET base_price = p WHERE id = id]. *)
Definition update_service_base_price (id : uuid) (p : numeric) (d : db) : db :=
  with_services (alter (Service.set_base_price p) id (services d)) d.

(** [ON DELETE SET NULL] of [bookings.mechanic_id]. *)
Definition null_mechanic_id (dead : gset uuid) (b : Booking.row) : Booking.row :=
  match Booking.mechanic_id b with
  | Some m => if bool_decide (m ∈ dead) then Booking.set_mechanic_id None b else b
  | None => b
  end.

(** Removal of a set of reviews, bookings or mechanics, with the referential
    actions of the foreign keys that point at them. *)
Definition delete_reviews (dead : gset uuid) (d : db) : db :=
  with_reviews (filter (λ kv, kv.1 ∉ dead) (reviews d)) d.

Definition delete_bookings (dead : gset uuid) (d : db) : db :=
  let d := with_bookings (filter (λ kv, kv.1 ∉ dead) (bookings d)) d in
  (* reviews.booking_id ... ON DELETE CASCADE *)
  delete_reviews
    (dom (filter (λ kv, Review.booking_id kv.2 ∈ dead) (reviews d))) d.

Definition delete_mechanics (dead : gset uuid) (d : db) : db :=
  let d := with_mechanics (filter (λ kv, kv.1 ∉ dead) (mechanics d)) d in
  (* bookings.mechanic_id ... ON DELETE SET NULL *)
  let d := with_bookings (null_mechanic_id dead <$> bookings d) d in
  (* reviews.mechanic_id ... ON DELETE CASCADE *)
  delete_reviews
    (dom (filter (λ kv, Review.mechanic_id kv.2 ∈ dead) (reviews d))) d.

(** [DELETE FROM mechanics WHERE id = id]. *)
Definition delete_mechanic (id : uuid) (d : db) : db :=
  match mechanics d !! id with
  | Some _ => delete_mechanics {[ id ]} d
  | None => d
  end.

(** [DELETE FROM profiles WHERE id = id]. *)
Definition delete_profile (id : uuid) (d : db) : db :=
  match profiles d !! id with
  | Some _ =>
      let d := with_profiles (delete id (profiles d)) d in
      (* mechanics.user_id ... ON DELETE CASCADE *)
      let d := delete_mechanics (dom (mechanics_of d id)) d in
      (* bookings.customer_id ... ON DELETE CASCADE *)
      let d :=
        delete_bookings
          (dom (filter (λ kv, Booking.customer_id kv.2 = id) (bookings d))) d in
      (* reviews.customer_id ... ON DELETE CASCADE *)
      delete_reviews
        (dom (filter (λ kv, Review.customer_id kv.2 = id) (reviews d))) d
  | None => d
  end.

(** ** Seed of the catalog

    [INSERT INTO services (name, description, category, base_price,
    estimated_duration) VALUES ... ON CONFLICT DO NOTHING]. *)

Definition seed_row (now : timestamptz)
    (name description category : string) (base_price : numeric)
    (estimated_duration : Z) : Service.row :=
  {| Service.name := name; Service.description := description;
     Service.category := category; Service.base_price := base_price;
     Service.estimated_duration := estimated_duration;
     Service.created_at := Some now |}.

Definition sample_services (now : timestamptz) : list Service.row :=
  [ seed_row now "Oil Change" "Complete oil and filter change service"
      "maintenance" (4999 # 100) 30;
    seed_row now "Brake Inspection" "Comprehensive brake system inspection"
      "inspection" (3999 # 100) 45;
    seed_row now "Battery Replacement" "Battery testing and replacement"
      "repair" (12999 # 100) 30;
    seed_row now "Tire Rotation" "Four-wheel tire rotation and balance"
      "maintenance" (5999 # 100) 45;
    seed_row now "Engine Diagnostic" "Full engine diagnostic scan"
      "inspection" (8999 # 100) 60;
    seed_row now "Flat Tire Repair" "Emergency flat tire repair or replacement"
      "emergency" (7999 # 100) 30;
    seed_row now "Jump Start" "Emergency jump start service"
      "emergency" (3999 # 100) 15;
    seed_row now "Brake Pad Replacement" "Replace worn brake pads"
      "repair" (19999 # 100) 90 ].

(** The rows are inserted one after the other, each under the next generated
    id; the statement stops at the first error. *)
Fixpoint insert_services (ids : list uuid) (rows : list Service.row) (d : db)
    : result db :=
  match ids, rows with
  | id :: ids, s :: rows => insert_service id s d ≫= insert_services ids rows
  | _, _ => Ok d
  end.

Definition insert_sample_services (ids : list uuid) (now : timestamptz) (d : db)
    : result db :=
  insert_services ids (sample_services now) d.

(** ** Numbers of the client

    A JavaScript number is a double.  [Finite v] carries the exact value of
    a finite double (the two zeros are not told apart: both are falsy and
    both are written [0]). *)
Inductive number :=
  | NaN
  | Infinity (negative : bool)
  | Finite (v : Q).

(** [m * base ^ e] as a fraction. *)
Definition scaled (base m e : Z) : Q :=
  if 0 <=? e then inject_Z (m * base ^ e) else Qmake m (Z.to_pos (base ^ (- e))).

(** The largest [e] with [base ^ e <= a / b], for [a, b > 0]. *)
Definition pow_le (base e a b : Z) : bool :=
  if 0 <=? e then b * base ^ e <=? a else b <=? a * base ^ (- e).

Definition floor_log2 (a b : Z) : Z :=
  let e := Z.log2 a - Z.log2 b in
  if pow_le 2 e a b then e else e - 1.

Definition floor_log10 (a b : Z) : Z :=
  let est := (Z.log2 a - Z.log2 b) * 1233 / 4096 in
  if pow_le 10 (est + 2) a b then est + 2
  else if pow_le 10 (est + 1) a b then est + 1
  else if pow_le 10 est a b then est
  else if pow_le 10 (est - 1) a b then est - 1
  else est - 2.

(** [a / b] rounded to the nearest integer, ties to even. *)
Definition round_half_even (a b : Z) : Z :=
  let q := a / b in
  match 2 * (a mod b) ?= b with
  | Lt => q
  | Gt => q + 1
  | Eq => if Z.even q then q else q + 1
  end.

(** The double nearest to [a / b], for [a, b > 0], as [m * 2 ^ e] with a
    significand of at most 53 bits and an exponent of at least -1074;
    [None] when the result is beyond the largest double. *)
Definition nearest_double (a b : Z) : option (Z * Z) :=
  let e := Z.max (floor_log2 a b - 52) (- 1074) in
  let m := if 0 <=? e then round_half_even a (b * 2 ^ e)
           else round_half_even (a * 2 ^ (- e)) b in
  if (971 <? e) || ((e =? 971) && (m =? 2 ^ 53)) then None else Some (m, e).

(** The number that a numeral denotes: what [JSON.parse] makes of a number of
    the response, and what [parseInt] makes of the integer it has read. *)
Definition to_number (q : Q) : number :=
  match Qnum q with
  | 0 => Finite 0
  | Zpos a =>
      match nearest_double (Zpos a) (Zpos (Qden q)) with
      | Some (m, e) => Finite (Qred (scaled 2 m e))
      | None => Infinity false
      end
  | Zneg a =>
      match nearest_double (Zpos a) (Zpos (Qden q)) with
      | Some (m, e) => Finite (Qred (scaled 2 (- m) e))
      | None => Infinity true
      end
  end.

(** [!v] is false for a number [v] that is not zero and not [NaN]. *)
Definition truthy (v : number) : bool :=
  match v with
  | NaN => false
  | Infinity _ => true
  | Finite q => negb (Qeq_bool q 0)
  end.

(** *** [JSON.stringify] of a number

    The digits [s] and the exponent [p] of the shortest decimal [s * 10 ^ p]
    that reads back as the double [v > 0]; among the decimals of that length
    the one closest to [v]. *)
Definition reads_as (v : Q) (s p : Z) : bool :=
  let q := scaled 10 s p in
  match nearest_double (Qnum q) (Zpos (Qden q)) with
  | Some (m, e) => Qeq_bool (scaled 2 m e) v
  | None => false
  end.

Fixpoint shortest_digits (fuel : nat) (k : Z) (v : Q) : Z * Z :=
  let a := Qnum v in
  let b := Zpos (Qden v) in
  let p := floor_log10 a b - k + 1 in
  let lo := if 0 <=? p then a / (b * 10 ^ p) else (a * 10 ^ (- p)) / b in
  let hi := lo + 1 in
  let closer :=
    match Qcompare (2 * v) (scaled 10 (2 * lo + 1) p) with
    | Lt => lo
    | Gt => hi
    | Eq => if Z.even lo then lo else hi
    end in
  match fuel with
  | O => (closer, p)
  | S fuel =>
      match reads_as v lo p, reads_as v hi p with
      | true, true => (closer, p)
      | true, false => (lo, p)
      | false, true => (hi, p)
      | false, false => shortest_digits fuel (k + 1) v
      end
  end.

Fixpoint strip_zeros (fuel : nat) (s p : Z) : Z * Z :=
  match fuel with
  | O => (s, p)
  | S fuel =>
      if (s mod 10 =? 0) && negb (s =? 0) then strip_zeros fuel (s / 10) (p + 1)
      else (s, p)
  end.

Definition shortest (v : Q) : Z * Z :=
  let '(s, p) := shortest_digits 17 1 v in strip_zeros 20 s p.

(** The text of a positive double: an integer numeral when its [k] digits
    end at or before the decimal point and the number has at most 21 digits,
    otherwise a numeral with a fraction or an exponent. *)
Definition numeral_of (negative : bool) (v : Q) : json_number :=
  let '(s, p) := shortest v in
  let k := floor_log10 s 1 + 1 in
  let s := if negative then - s else s in
  if (0 <=? p) && (k + p <=? 21) then Numeral (s * 10 ^ p)
  else Decimal (scaled 10 s p).

(** [JSON.stringify(v)]: [None] is [null], which [NaN] and the infinities
    become. *)
Definition stringify (v : number) : option json_number :=
  match v with
  | NaN | Infinity _ => None
  | Finite q =>
      match Qnum q with
      | 0 => Some (Numeral 0)
      | Zpos _ => Some (numeral_of false q)
      | Zneg _ => Some (numeral_of true (Qopp q))
      end
  end.

(** What the store receives when the client writes back a number that it
    has read as the numeral [q]; [None] is [null]. *)
Definition read_back (q : Q) : option Q :=
  json_value <$> stringify (to_number q).

(** ** The booking screen ([app/booking/create.tsx]) *)

Module CreateBookingScreen.

(** The part of the component state that [handleSubmit] reads.  The route
    parameter [serviceId] is a single string or missing; [profile?.id] and
    the id of a mechanic of the list are texts that the store returned. *)
Record state := {
  serviceId : option string;          (* useLocalSearchParams() *)
  profile : option uuid;              (* useAuth().profile?.id *)
  service : option Service.row;       (* useState<Service | null>(null) *)
  mechanics : gmap uuid Mechanic.row; (* useState<Mechanic[]>([]) *)
  selectedMechanic : option string;
  vehicleMake : string;
  vehicleModel : string;
  vehicleYear : string;
  locationAddress : string;
  notes : string
}.

(** [!s] for a string, and for a string or [null]. *)
Definition falsy (s : string) : bool := bool_decide (s = "").

Definition falsy_opt (s : option string) : bool :=
  match s with
  | Some s => falsy s
  | None => true
  end.

(** *** [parseInt] without a radix

    Leading white space, an optional sign, an optional [0x] prefix, then the
    longest run of digits of the radix; without a digit the result is [NaN],
    otherwise the double nearest to the integer read. *)

Definition bytes (l : list nat) : string :=
  string_of_list_ascii (ascii_of_nat <$> l).

(** The white space and line terminator code points, in UTF-8: U+0009 to
    U+000D, U+0020, U+00A0, U+1680, U+2000 to U+200A, U+2028, U+2029,
    U+202F, U+205F, U+3000 and U+FEFF. *)
Definition white_space : list string :=
  bytes <$>
  [ [9]; [10]; [11]; [12]; [13]; [32]; [194; 160]; [225; 154; 128];
    [226; 128; 128]; [226; 128; 129]; [226; 128; 130]; [226; 128; 131];
    [226; 128; 132]; [226; 128; 133]; [226; 128; 134]; [226; 128; 135];
    [226; 128; 136]; [226; 128; 137]; [226; 128; 138]; [226; 128; 168];
    [226; 128; 169]; [226; 128; 175]; [226; 129; 159]; [227; 128; 128];
    [239; 187; 191] ]%nat.

Fixpoint strip_prefix (p s : string) : option string :=
  match p, s with
  | EmptyString, _ => Some s
  | String a p, String b s => if bool_decide (a = b) then strip_prefix p s else None
  | String _ _, EmptyString => None
  end.

(** The text after one white space character at its head, if there is one. *)
Definition strip_space (s : string) : option string :=
  list_find is_Some ((λ w, strip_prefix w s) <$> white_space) ≫= λ r, r.2.

Fixpoint skip_spaces (fuel : nat) (s : string) : string :=
  match fuel with
  | O => s
  | S fuel =>
      match strip_space s with
      | Some s' => skip_spaces fuel s'
      | None => s
      end
  end.

Definition digit_value (a : ascii) : option Z :=
  let n := Z.of_nat (nat_of_ascii a) in
  if (48 <=? n) && (n <=? 57) then Some (n - 48)
  else if (97 <=? n) && (n <=? 122) then Some (n - 97 + 10)
  else if (65 <=? n) && (n <=? 90) then Some (n - 65 + 10)
  else None.

Fixpoint digits (radix : Z) (s : string) (acc : option Z) : option Z :=
  match s with
  | String a s' =>
      match digit_value a with
      | Some v =>
          if v <? radix then digits radix s' (Some (default 0 acc * radix + v))
          else acc
      | None => acc
      end
  | EmptyString => acc
  end.

Definition parseInt (s : string) : number :=
  let s := skip_spaces (String.length s) s in
  let '(sign, s) :=
    match s with
    | String "-" s' => (-1, s')
    | String "+" s' => (1, s')
    | _ => (1, s)
    end in
  let '(radix, s) :=
    match s with
    | String "0" (String "x" s') => (16, s')
    | String "0" (String "X" s') => (16, s')
    | _ => (10, s)
    end in
  match digits radix s None with
  | Some n => to_number (inject_Z (sign * n))
  | None => NaN
  end.

(** [loadData]: the service with the id of the route
    ([.eq('id', serviceId).maybeSingle()]: the text is read as a [uuid], and
    [id] is the primary key, so at most one row matches) and the available
    mechanics ([.eq('is_available', true)]), both as the policies let [who]
    see them.  A failed or empty read leaves the initial value in place. *)
Definition loadData (who : principal) (serviceId : option string) (d : db)
    : option Service.row * gmap uuid Mechanic.row :=
  ((serviceId ≫= uuid_in) ≫= λ k, select_services who d !! k,
   filter (λ kv, Mechanic.is_available kv.2 = Some true)
     (select_mechanics who d)).

(** The screen once [loadData] has run, before the user typed anything. *)
Definition mounted (who : principal) (serviceId : option string)
    (profile : option uuid) (d : db) : state :=
  let '(svc, ms) := loadData who serviceId d in
  {| serviceId := serviceId; profile := profile; service := svc;
     mechanics := ms; selectedMechanic := None;
     vehicleMake := ""; vehicleModel := ""; vehicleYear := "";
     locationAddress := ""; notes := "" |}.

(** [service?.base_price || 0]: the client holds the price of the service it
    has loaded as a number. *)
Definition price_or_zero (service : option Service.row) : number :=
  match service with
  | Some s =>
      let v := to_number (Service.base_price s) in
      if truthy v then v else Finite 0
  | None => Finite 0
  end.

Inductive outcome :=
  | FormError (message : string)  (* setError(...); return *)
  | InsertError (e : pg_error)    (* setError(error.message) *)
  | Navigated (d : db).           (* router.replace('/(tabs)/bookings') *)

Definition required_message : string :=
  "Please fill in all required fields and select a mechanic".

(** The object of the insert; [clock] is [new Date()] on the device. *)
Definition insert_payload (clock : timestamptz) (st : state) : Booking.payload :=
  {| Booking.p_customer_id := from_option Value Absent (profile st);
     Booking.p_mechanic_id := from_option Value Null (selectedMechanic st);
     Booking.p_service_id := from_option Value Absent (serviceId st);
     Booking.p_vehicle_make := Value (vehicleMake st);
     Booking.p_vehicle_model := Value (vehicleModel st);
     Booking.p_vehicle_year :=
       from_option Value Null (stringify (parseInt (vehicleYear st)));
     Booking.p_location_address := Value (locationAddress st);
     Booking.p_location_latitude := Value 0%Q;
     Booking.p_location_longitude := Value 0%Q;
     Booking.p_scheduled_time := Value clock;
     Booking.p_total_price :=
       from_option (λ j, Value (json_value j)) Null
         (stringify (price_or_zero (service st)));
     Booking.p_notes := Value (notes st);
     Booking.p_status := Value "pending" |}.

(** [handleSubmit], for the session [who], against the store [d]; [clock] is
    [new Date()] on the device, [now] the [now()] of the store and [new_id]
    the id the store generates for the row. *)
Definition handleSubmit (who : principal) (new_id : uuid)
    (clock now : timestamptz) (st : state) (d : db) : outcome :=
  if falsy (vehicleMake st) || falsy (vehicleModel st) || falsy (vehicleYear st)
     || falsy (locationAddress st) || falsy_opt (selectedMechanic st)
  then FormError required_message
  else
    match insert_booking who new_id now (insert_payload clock st) d with
    | Err e => InsertError e
    | Ok d' => Navigated d'
    end.

(** The guard at the head of [handleSubmit], as a proposition. *)
Definition form_incomplete (st : state) : Prop :=
  vehicleMake st = "" ∨ vehicleModel st = "" ∨ vehicleYear st = ""
  ∨ locationAddress st = ""
  ∨ selectedMechanic st = None ∨ selectedMechanic st = Some "".

End CreateBookingScreen.

(** ** Histories of the store *)

Inductive statement :=
  | CreateAuthUser (id : uuid)
  | InsertProfile (who : principal) (id : uuid) (p : Profile.row)
  | UpdateProfile (who : principal) (id : uuid) (set : Profile.row → Profile.row)
  | InsertMechanic (who : principal) (new_id : uuid) (m : Mechanic.row)
  | UpdateMechanic (who : principal) (id : uuid)
      (set : Mechanic.row → Mechanic.row)
  | InsertServices (new_ids : list uuid) (rows : list Service.row)
  | UpdateServiceBasePrice (id : uuid) (p : numeric)
  | InsertBooking (who : principal) (new_id : uuid) (now : timestamptz)
      (p : Booking.payload)
  | UpdateBooking (who : principal) (id : uuid) (cond : Booking.row → bool)
      (set : Booking.row → Booking.row)
  | InsertReview (who : principal) (new_id : uuid) (now : timestamptz)
      (r : Review.row)
  | DeleteMechanic (id : uuid)
  | DeleteProfile (id : uuid).

Definition create_auth_user (id : uuid) (d : db) : db :=
  {| auth_users := {[ id ]} ∪ auth_users d; profiles := profiles d;
     mechanics := mechanics d; services := services d;
     bookings := bookings d; reviews := reviews d |}.

Definition exec (s : statement) (d : db) : result db :=
  match s with
  | CreateAuthUser id => Ok (create_auth_user id d)
  | InsertProfile who id p => insert_profile who id p d
  | UpdateProfile who id set => fst <$> update_profile who id set d
  | InsertMechanic who new_id m => insert_mechanic who new_id m d
  | UpdateMechanic who id set => fst <$> update_mechanic who id set d
  | InsertServices new_ids rows => insert_services new_ids rows d
  | UpdateServiceBasePrice id p => Ok (update_service_base_price id p d)
  | InsertBooking who new_id now p => insert_booking who new_id now p d
  | UpdateBooking who id cond set => fst <$> update_booking who id cond set d
  | InsertReview who new_id now r => insert_review who new_id now r d
  | DeleteMechanic id => Ok (delete_mechanic id d)
  | DeleteProfile id => Ok (delete_profile id d)
  end.

(** A failed statement leaves the store as it was. *)
Definition exec_or_keep (s : statement) (d : db) : db :=
  match exec s d with
  | Ok d' => d'
  | Err _ => d
  end.

Definition run (ss : list statement) (d : db) : db :=
  foldl (λ d s, exec_or_keep s d) d ss.

(** The states the store can be in: those a history leads to from the empty
    schema. *)
Definition reachable (d : db) : Prop := ∃ ss, d = run ss empty_db.

(** ** Acceptance of a booking *)

Inductive accept_outcome :=
  | Accepted (d : db)
  | Conflict
  | AcceptError (e : pg_error).

(** Modelled from the spec: the accept operation, which no source file
    contains.  It is the conditional update of the spec's words, "set
    [mechanic_id] and [status] only if [status] is still pending and
    [mechanic_id] is still null", run as one [UPDATE] under the policies of
    the migration; zero rows affected is the [Conflict] outcome. *)
Definition accept_booking (who : principal) (mechanic : uuid) (id : uuid)
    (d : db) : accept_outcome :=
  match
    update_booking who id
      (λ b, bool_decide (Booking.status b = "pending")
            && bool_decide (Booking.mechanic_id b = None))
      (λ b, Booking.set_status "accepted"
              (Booking.set_mechanic_id (Some mechanic) b)) d
  with
  | Ok (d', O) => Conflict
  | Ok (d', S _) => Accepted d'
  | Err e => AcceptError e
  end.

(** Two accept attempts on the same booking.  The store applies the two
    updates of the row one after the other; the second one runs on the state
    the first one left. *)
Definition accept_then (first second : principal * uuid) (id : uuid) (d : db)
    : accept_outcome * accept_outcome :=
  let r1 := accept_booking first.1 first.2 id d in
  let d1 := match r1 with Accepted d1 => d1 | _ => d end in
  (r1, accept_booking second.1 second.2 id d1).

Definition is_accepted (r : accept_outcome) : bool :=
  match r with Accepted _ => true | _ => false end.

(** ** The wording of the specification *)

(** The fields whose absence the specification makes a [ValidationError]:
    "vehicle make/model/year, location address, service reference". *)
Definition spec_required_field_missing (st : CreateBookingScreen.state) : Prop :=
  CreateBookingScreen.vehicleMake st = ""
  ∨ CreateBookingScreen.vehicleModel st = ""
  ∨ CreateBookingScreen.vehicleYear st = ""
  ∨ CreateBookingScreen.locationAddress st = ""
  ∨ CreateBookingScreen.serviceId st = None.

(** "Mutable by customer (before assignment)": the customer passes the update
    policy only on a booking without a mechanic. *)
Definition spec_customer_updates_only_unassigned : Prop :=
  ∀ (d : db) (u id : uuid) (b : Booking.row),
    bookings d !! id = Some b → Booking.customer_id b = u →
    bookings_update_using d (Some u) b = true →
    Booking.mechanic_id b = None.

(** "... and by assigned mechanic (status progression)": an update by the
    assigned mechanic changes nothing but the status. *)
Definition spec_mechanic_updates_only_status : Prop :=
  ∀ (d d' : db) (u id : uuid) (b : Booking.row) (set : Booking.row → Booking.row),
    bookings d !! id = Some b →
    mechanics_can_update_assigned_bookings d u b = true →
    update_booking (Some u) id (λ _, true) set d = Ok (d', 1%nat) →
    bookings d' !! id = Some (Booking.set_status (Booking.status (set b)) b).

(** The five values of [valid_status]. *)
Definition status_domain : list string :=
  ["pending"; "accepted"; "in_progress"; "completed"; "cancelled"].

(** The two check constraints on the ledger and on the review store, as an
    invariant of the store. *)
Definition constraints_hold (d : db) : Prop :=
  map_Forall (λ _ b, valid_status (Booking.status b) = true) (bookings d)
  ∧ map_Forall (λ _ r, valid_rating (Review.rating r) = true) (reviews d).

(** "A booking is created with [total_price] equal to the [base_price] of
    the referenced service at creation time": the price of every booking
    that [handleSubmit] creates is the price that the catalog of the store
    holds for its service when the insert is made. *)
Definition spec_price_at_creation : Prop :=
  ∀ (who : principal) (new_id : uuid) (clock now : timestamptz)
    (st : CreateBookingScreen.state) (d d' : db),
    CreateBookingScreen.handleSubmit who new_id clock now st d
    = CreateBookingScreen.Navigated d' →
    ∃ (b : Booking.row) (s : Service.row),
      bookings d' !! new_id = Some b
      ∧ services d !! Booking.service_id b = Some s
      ∧ (Booking.total_price b == Service.base_price s)%Q.

(** ** Referential integrity

    What the foreign keys of the five tables ask of a state of the store. *)
Definition referential_integrity (d : db) : Prop :=
  (∀ k p, profiles d !! k = Some p → k ∈ auth_users d)
  ∧ (∀ k m, mechanics d !! k = Some m →
            is_Some (profiles d !! Mechanic.user_id m))
  ∧ (∀ k b, bookings d !! k = Some b →
            is_Some (profiles d !! Booking.customer_id b)
            ∧ (∀ m, Booking.mechanic_id b = Some m → is_Some (mechanics d !! m))
            ∧ is_Some (services d !! Booking.service_id b))
  ∧ (∀ k r, reviews d !! k = Some r →
            is_Some (bookings d !! Review.booking_id r)
            ∧ is_Some (profiles d !! Review.customer_id r)
            ∧ is_Some (mechanics d !! Review.mechanic_id r)).

(** The check constraints of [profiles] and [services]. *)
Definition catalog_constraints_hold (d : db) : Prop :=
  map_Forall (λ _ p, valid_user_type (Profile.user_type p) = true) (profiles d)
  ∧ map_Forall (λ _ s, valid_category (Service.category s) = true) (services d).

(** ** Reading a property of an object literal

    [colors[key] || fallback] for an object literal [colors] whose own
    properties are strings.  A key that is not an own property is looked up
    in [Object.prototype]; [object_prototype key] is the value found there
    when there is one and it is truthy (as for ["constructor"]).  An own
    property that is the empty string is falsy. *)
Section object_literal.
Context {V : Type} (object_prototype : string → option V).

Fixpoint own_property (own : list (string * string)) (key : string)
    : option string :=
  match own with
  | [] => None
  | (k, v) :: own => if bool_decide (k = key) then Some v else own_property own key
  end.

Definition index_or (own : list (string * string)) (key fallback : string)
    : string + V :=
  match own_property own key with
  | Some v => if bool_decide (v = "") then inl fallback else inl v
  | None =>
      match object_prototype key with
      | Some v => inr v
      | None => inl fallback
      end
  end.

End object_literal.

(** ** The bookings tab *)

Module BookingsScreen.

(** One element of [data]: the columns of the booking and the two embedded
    rows, [service:services(name, estimated_duration)] and
    [mechanic:mechanics(business_name, rating)]; an embedded row is [null]
    when the referenced row is not there or not visible. *)
Record item := {
  id : uuid;
  row : Booking.row;
  service : option (string * Z);
  mechanic : option (string * option numeric)
}.

(** [ORDER BY created_at DESC]: later first, nulls before everything. *)
Definition newer_first (a b : option timestamptz) : Prop :=
  match a, b with
  | None, _ => True
  | Some _, None => False
  | Some x, Some y => y ≤ x
  end.

Global Instance newer_first_dec (a b : option timestamptz)
  : Decision (newer_first a b).
Proof. destruct a, b; simpl; apply _. Defined.

Definition item_order (x y : item) : Prop :=
  newer_first (Booking.created_at (row x)) (Booking.created_at (row y)).

Global Instance item_order_dec (x y : item) : Decision (item_order x y).
Proof. unfold item_order. apply _. Defined.

Definition to_item (who : principal) (d : db) (kv : uuid * Booking.row) : item :=
  {| id := kv.1;
     row := kv.2;
     service :=
       (λ s, (Service.name s, Service.estimated_duration s))
       <$> select_services who d !! Booking.service_id kv.2;
     mechanic :=
       Booking.mechanic_id kv.2 ≫= λ m,
       (λ r, (Mechanic.business_name r, Mechanic.rating r))
       <$> select_mechanics who d !! m |}.

(** [loadBookings]: the bookings that the policies let [who] see and whose
    [customer_id] is [profile?.id], by [created_at], latest first (rows
    with the same [created_at] come in an order the store is free to
    choose; the sort fixes one).  Without a profile the request fails and
    the list stays empty. *)
Definition loadBookings (who : principal) (profile : option uuid) (d : db)
    : list item :=
  match profile with
  | None => []
  | Some p =>
      merge_sort item_order
        (to_item who d
         <$> map_to_list
               (filter (λ kv, Booking.customer_id kv.2 = p)
                  (select_bookings who d)))
  end.

Section colors.
Context {V : Type} (object_prototype : string → option V).

Definition getStatusColor (status : string) : string + V :=
  index_or object_prototype
    [("pending", "#f59e0b"); ("accepted", "#3b82f6");
     ("in_progress", "#8b5cf6"); ("completed", "#10b981");
     ("cancelled", "#ef4444")]
    status "#6b7280".

Definition getStatusBgColor (status : string) : string + V :=
  index_or object_prototype
    [("pending", "#fef3c7"); ("accepted", "#dbeafe");
     ("in_progress", "#ede9fe"); ("completed", "#d1fae5");
     ("cancelled", "#fee2e2")]
    status "#f3f4f6".

End colors.

End BookingsScreen.

(** ** The home tab *)

Module HomeScreen.

Section list.
(** The order of [text] in the collation of the database. *)
Context (collate : relation string) `{∀ x y, Decision (collate x y)}.

Definition by_category (x y : uuid * Service.row) : Prop :=
  collate (Service.category x.2) (Service.category y.2).

Global Instance by_category_dec x y : Decision (by_category x y).
Proof. unfold by_category. apply _. Defined.

(** [loadServices]: [select('*').order('category', { ascending: true })]. *)
Definition loadServices (who : principal) (d : db) : list (uuid * Service.row) :=
  merge_sort by_category (map_to_list (select_services who d)).

End list.

(** Tapping a card: [router.push(`/booking/create?serviceId=${service.id}`)];
    the booking screen reads the parameter back and runs [loadData]. *)
Definition open_booking_screen (who : principal) (profile : option uuid)
    (card : uuid * Service.row) (d : db) : CreateBookingScreen.state :=
  CreateBookingScreen.mounted who (Some card.1) profile d.

Section colors.
Context {V : Type} (object_prototype : string → option V).

Definition getCategoryColor (category : string) : string + V :=
  index_or object_prototype
    [("maintenance", "#10b981"); ("repair", "#f59e0b");
     ("inspection", "#3b82f6"); ("emergency", "#ef4444")]
    category "#6b7280".

Definition getCategoryBgColor (category : string) : string + V :=
  index_or object_prototype
    [("maintenance", "#d1fae5"); ("repair", "#fef3c7");
     ("inspection", "#dbeafe"); ("emergency", "#fee2e2")]
    category "#f3f4f6".

End colors.

End HomeScreen.

(** ** The sign-up screen ([app/auth/sign-up.tsx]) *)

Module SignUpScreen.

(** The text of a field, as its UTF-16 code units: [length] is what
    [password.length] counts. *)
Abbreviation js_string := (list N) (only parsing).

(** [useState<'customer' | 'mechanic'>('customer')] *)
Inductive userType := customer | mechanic.

Definition userType_text (t : userType) : string :=
  match t with
  | customer => "customer"
  | mechanic => "mechanic"
  end.

Record state := {
  email : js_string;
  password : js_string;
  fullName : js_string;
  type : userType
}.

Inductive outcome :=
  | FormError (message : string)    (* setError(...); return *)
  | SignUpError (message : string)  (* setError(error.message) *)
  | Navigated.                      (* router.replace('/(tabs)') *)

Definition falsy (s : js_string) : bool :=
  match s with [] => true | _ => false end.

Section handleSignUp.
(** [signUp] of the auth context: the message of the error it reports, if
    any. *)
Context (signUp : js_string → js_string → js_string → userType → option string).

Definition handleSignUp (st : state) : outcome :=
  if falsy (email st) || falsy (password st) || falsy (fullName st)
  then FormError "Please fill in all fields"
  else if (length (password st) <? 6)%nat
  then FormError "Password must be at least 6 characters"
  else
    match signUp (email st) (password st) (fullName st) (type st) with
    | Some message => SignUpError message
    | None => Navigated
    end.

End handleSignUp.

End SignUpScreen.

(** The row that [handleSubmit] asks the store to keep. *)
Definition submitted_row (u s m : uuid) (year : Z) (price : numeric)
    (clock now : timestamptz) (st : CreateBookingScreen.state) : Booking.row :=
  {| Booking.customer_id := u;
     Booking.mechanic_id := Some m;
     Booking.service_id := s;
     Booking.status := "pending";
     Booking.vehicle_make := CreateBookingScreen.vehicleMake st;
     Booking.vehicle_model := CreateBookingScreen.vehicleModel st;
     Booking.vehicle_year := year;
     Booking.location_address := CreateBookingScreen.locationAddress st;
     Booking.location_latitude := 0%Q;
     Booking.location_longitude := 0%Q;
     Booking.scheduled_time := clock;
     Booking.total_price := price;
     Booking.notes := Some (CreateBookingScreen.notes st);
     Booking.created_at := Some now;
     Booking.updated_at := Some now |}.

(** ** A small world to run the statements in *)

Module Example.
Import CreateBookingScreen.

Definition alice : uuid := "a11ce000-0000-4000-8000-000000000000".
Definition bob : uuid := "b0b00000-0000-4000-8000-000000000000".
Definition carol : uuid := "ca201000-0000-4000-8000-000000000000".
Definition dave : uuid := "da5e0000-0000-4000-8000-000000000000".
Definition m_carol : uuid := "0000ca20-1000-4000-8000-000000000001".
Definition m_dave : uuid := "0000da5e-0000-4000-8000-000000000001".
Definition s1 : uuid := "5e200000-0000-4000-8000-000000000001".
Definition b1 : uuid := "b0000000-0000-4000-8000-000000000001".
Definition b2 : uuid := "b0000000-0000-4000-8000-000000000002".
Definition b3 : uuid := "b0000000-0000-4000-8000-000000000003".
Definition r1 : uuid := "2e000000-0000-4000-8000-000000000001".
Definition r2 : uuid := "2e000000-0000-4000-8000-000000000002".
Definition r3 : uuid := "2e000000-0000-4000-8000-000000000003".

Definition a_profile (email full_name user_type : string) : Profile.row :=
  {| Profile.email := email; Profile.full_name := full_name;
     Profile.phone := None; Profile.user_type := user_type;
     Profile.created_at := Some 0; Profile.updated_at := Some 0 |}.

Definition a_mechanic (user business : string) : Mechanic.row :=
  {| Mechanic.user_id := user; Mechanic.business_name := business;
     Mechanic.certifications := Some []; Mechanic.years_experience := Some 0;
     Mechanic.service_radius := Some 10; Mechanic.rating := Some 0%Q;
     Mechanic.total_jobs := Some 0; Mechanic.is_available := Some true;
     Mechanic.current_latitude := None; Mechanic.current_longitude := None;
     Mechanic.created_at := Some 0 |}.

Definition service_ids : list uuid :=
  [ s1;
    "5e200000-0000-4000-8000-000000000002";
    "5e200000-0000-4000-8000-000000000003";
    "5e200000-0000-4000-8000-000000000004";
    "5e200000-0000-4000-8000-000000000005";
    "5e200000-0000-4000-8000-000000000006";
    "5e200000-0000-4000-8000-000000000007";
    "5e200000-0000-4000-8000-000000000008" ].

(** Two customers, two mechanics, the seeded catalog. *)
Definition setup : list statement :=
  [ InsertServices service_ids (sample_services 0);
    CreateAuthUser alice; CreateAuthUser bob;
    CreateAuthUser carol; CreateAuthUser dave;
    InsertProfile (Some alice) alice
      (a_profile "alice@example.org" "Alice" "customer");
    InsertProfile (Some bob) bob
      (a_profile "bob@example.org" "Bob" "customer");
    InsertProfile (Some carol) carol
      (a_profile "carol@example.org" "Carol" "mechanic");
    InsertProfile (Some dave) dave
      (a_profile "dave@example.org" "Dave" "mechanic");
    InsertMechanic (Some carol) m_carol (a_mechanic carol "Carol's Garage");
    InsertMechanic (Some dave) m_dave (a_mechanic dave "Dave's Motors") ].

Definition world : db := run setup empty_db.

(** The form that Alice fills in, with the year as a parameter. *)
Definition filled (st : state) (mechanic : option string) (year : string) : state :=
  {| serviceId := serviceId st; profile := profile st; service := service st;
     mechanics := mechanics st; selectedMechanic := mechanic;
     vehicleMake := "Toyota"; vehicleModel := "Camry"; vehicleYear := year;
     locationAddress := "1 Main Street"; notes := "" |}.

(** Alice opens the screen for the oil change and fills the form in. *)
Definition alice_form (mechanic : option string) : state :=
  filled (mounted (Some alice) (Some s1) (Some alice) world) mechanic "2020".

(** The same form on a screen opened without a service id. *)
Definition alice_form_no_service : state :=
  filled (mounted (Some alice) None (Some alice) world) (Some m_carol) "2020".

(** Alice's form with another text in the year field. *)
Definition alice_form_year (year : string) : state :=
  filled (mounted (Some alice) (Some s1) (Some alice) world) (Some m_carol) year.

(** The world after Alice booked Carol for the oil change (the clock of her
    device shows 10 when the clock of the store shows 1) ... *)
Definition booked : db :=
  match handleSubmit (Some alice) b1 10 1 (alice_form (Some m_carol)) world with
  | Navigated d => d
  | _ => world
  end.

(** The row of Alice's booking. *)
Definition alice_booking : Booking.row :=
{| Booking.customer_id := alice; Booking.mechanic_id := Some m_carol;
   Booking.service_id := s1; Booking.status := "pending";
   Booking.vehicle_make := "Toyota"; Booking.vehicle_model := "Camry";
   Booking.vehicle_year := 2020; Booking.location_address := "1 Main Street";
   Booking.location_latitude := 0%Q; Booking.location_longitude := 0%Q;
   Booking.scheduled_time := 10; Booking.total_price := 4999 # 100;
   Booking.notes := Some ""; Booking.created_at := Some 1;
   Booking.updated_at := Some 1 |}.

(** ... and after Bob booked the same service, leaving the mechanic, the
    status and the notes out (an insert made without the screen). *)
Definition bob_payload : Booking.payload :=
  {| Booking.p_customer_id := Value bob; Booking.p_mechanic_id := Absent;
     Booking.p_service_id := Value s1; Booking.p_status := Absent;
     Booking.p_vehicle_make := Value "Honda";
     Booking.p_vehicle_model := Value "Civic";
     Booking.p_vehicle_year := Value (Numeral 2018);
     Booking.p_location_address := Value "2 Side Street";
     Booking.p_location_latitude := Value 0%Q;
     Booking.p_location_longitude := Value 0%Q;
     Booking.p_scheduled_time := Value 2;
     Booking.p_total_price := Value (4999 # 100);
     Booking.p_notes := Absent |}.

Definition booked2 : db :=
  run [InsertBooking (Some bob) b2 2 bob_payload] booked.

(** Bob's insert with a status and a price of his own choosing. *)
Definition bob_payload_completed : Booking.payload :=
  {| Booking.p_customer_id := Value bob; Booking.p_mechanic_id := Absent;
     Booking.p_service_id := Value s1; Booking.p_status := Value "completed";
     Booking.p_vehicle_make := Value "Honda";
     Booking.p_vehicle_model := Value "Civic";
     Booking.p_vehicle_year := Value (Numeral 2018);
     Booking.p_location_address := Value "2 Side Street";
     Booking.p_location_latitude := Value 0%Q;
     Booking.p_location_longitude := Value 0%Q;
     Booking.p_scheduled_time := Value 2;
     Booking.p_total_price := Value (1 # 100);
     Booking.p_notes := Absent |}.

Definition a_review (booking customer mechanic : uuid) (rating : Z) : Review.row :=
  {| Review.booking_id := booking; Review.customer_id := customer;
     Review.mechanic_id := mechanic; Review.rating := rating;
     Review.comment := None; Review.created_at := None |}.

(** Alice reviews her own, still pending, booking twice. *)
Definition reviewed : db :=
  run [ InsertReview (Some alice) r1 3 (a_review b1 alice m_carol 5);
        InsertReview (Some alice) r2 4 (a_review b1 alice m_carol 1) ]
    booked2.

(** The owner of the schema raises the price of the oil change after Alice
    has opened the screen and before she submits the form. *)
Definition repriced : db := update_service_base_price s1 (5999 # 100) world.

Definition booked_at_old_price : db :=
  match handleSubmit (Some alice) b1 10 1 (alice_form (Some m_carol)) repriced with
  | Navigated d => d
  | _ => repriced
  end.

(** Alice books a second time, later, on a screen she opened after the
    first booking. *)
Definition booked_again : db :=
  match
    handleSubmit (Some alice) b3 20 5
      (filled (mounted (Some alice) (Some s1) (Some alice) booked)
         (Some m_dave) "2021") booked
  with
  | Navigated d => d
  | _ => booked
  end.

(** Carol counts one more job on her mechanic row. *)
Definition one_more_job (m : Mechanic.row) : Mechanic.row :=
  {| Mechanic.user_id := Mechanic.user_id m;
     Mechanic.business_name := Mechanic.business_name m;
     Mechanic.certifications := Mechanic.certifications m;
     Mechanic.years_experience := Mechanic.years_experience m;
     Mechanic.service_radius := Mechanic.service_radius m;
     Mechanic.rating := Mechanic.rating m;
     Mechanic.total_jobs := (λ n, n + 1) <$> Mechanic.total_jobs m;
     Mechanic.is_available := Mechanic.is_available m;
     Mechanic.current_latitude := Mechanic.current_latitude m;
     Mechanic.current_longitude := Mechanic.current_longitude m;
     Mechanic.created_at := Mechanic.created_at m |}.

(** A year typed after a no-break space (U+00A0). *)
Definition year_after_a_space : string := bytes [194; 160]%nat +:+ "2020".

(** Alice becomes a mechanic as well. *)
Definition becomes_mechanic (p : Profile.row) : Profile.row :=
  {| Profile.email := Profile.email p; Profile.full_name := Profile.full_name p;
     Profile.phone := Profile.phone p; Profile.user_type := "mechanic";
     Profile.created_at := Profile.created_at p;
     Profile.updated_at := Profile.updated_at p |}.

(** The world after the reviews, after Carol has counted one more job and
    Alice has changed the type of her profile. *)
Definition updated : db :=
  run [ UpdateMechanic (Some carol) m_carol one_more_job;
        UpdateProfile (Some alice) alice becomes_mechanic ] reviewed.

(** The order of the bytes, the "C" collation. *)
Definition collate_C : relation string := λ a b, String.leb a b = true.

Global Instance collate_C_dec (x y : string) : Decision (collate_C x y).
Proof. unfold collate_C. apply _. Defined.

End Example.


(** * Properties *)

(** ** Helper lemmas on the statements *)

Lemma guard_or_Ok (e : pg_error) (b : bool) (u : unit) :
  guard_or e b = Ok u ↔ b = true.
Proof. destruct b, u; simpl; split; intros H; done. Qed.

Lemma bind_Ok {A B} (r : result A) (f : A → result B) (b : B) :
  r ≫= f = Ok b ↔ ∃ a, r = Ok a ∧ f a = Ok b.
Proof.
  destruct r as [a|e]; simpl; split.
  - intros H. by exists a.
  - by intros (a' & [= ->] & H).
  - done.
  - by intros (a' & [=] & _).
Qed.

Lemma not_null_Ok {A} (column : string) (o : option A) (a : A) :
  not_null column o = Ok a ↔ o = Some a.
Proof. destruct o; simpl; split; intros H; by simplify_eq. Qed.

Lemma references_true {A} (t : gmap uuid A) (k : uuid) :
  references t k = true ↔ is_Some (t !! k).
Proof. unfold references. by rewrite bool_decide_eq_true. Qed.

Lemma in_int4_true (z : Z) : in_int4 z = true ↔ - 2 ^ 31 ≤ z < 2 ^ 31.
Proof. unfold in_int4. rewrite andb_true_iff, Z.leb_le, Z.ltb_lt. done. Qed.

Lemma int4_Ok (column : string) (z z' : Z) :
  int4 column z = Ok z' ↔ z' = z ∧ - 2 ^ 31 ≤ z < 2 ^ 31.
Proof.
  unfold int4. rewrite <- in_int4_true. destruct (in_int4 z).
  - split; [by intros [= <-] | by intros [-> _]].
  - split; [done | by intros [_ ?]].
Qed.

Lemma int4_opt_Ok (column : string) (z z' : option Z) :
  int4_opt column z = Ok z' ↔ z' = z ∧ from_option in_int4 true z = true.
Proof.
  destruct z as [z|]; simpl.
  - unfold int4. destruct (in_int4 z); simpl.
    + split; [by intros [= <-] | by intros [-> _]].
    + split; [done | by intros [_ ?]].
  - split; [by intros [= <-] | by intros [-> _]].
Qed.

(** Peels the successful run of a statement into the facts its guards
    established. *)
Ltac peel H :=
  repeat match type of H with
  | _ ≫= _ = Ok _ =>
      let a := fresh "a" in
      let Ha := fresh "Hg" in
      apply bind_Ok in H as (a & Ha & H);
      first [ apply guard_or_Ok in Ha
            | apply not_null_Ok in Ha
            | idtac ]
  end.

Lemma mechanics_of_lookup (d : db) (u m : uuid) (r : Mechanic.row) :
  mechanics_of d u !! m = Some r ↔
  mechanics d !! m = Some r ∧ Mechanic.user_id r = u.
Proof. unfold mechanics_of. by rewrite map_lookup_filter_Some. Qed.

Lemma mechanic_id_owned_true (d : db) (u : uuid) (m : option uuid) :
  mechanic_id_owned d u m = true ↔
  ∃ mid r, m = Some mid ∧ mechanics d !! mid = Some r ∧ Mechanic.user_id r = u.
Proof.
  destruct m as [mid|]; simpl.
  - rewrite bool_decide_eq_true. split.
    + intros [r Hr]. apply mechanics_of_lookup in Hr as [? ?]. eauto.
    + intros (mid' & r & [= <-] & Hm & Hu). exists r.
      by apply mechanics_of_lookup.
  - split; [done | by intros (? & ? & [=] & _)].
Qed.

Lemma bookings_select_policy_true (d : db) (u : uuid) (b : Booking.row) :
  bookings_select_policy d (Some u) b = true ↔
  Booking.customer_id b = u ∨
  ∃ mid r, Booking.mechanic_id b = Some mid ∧ mechanics d !! mid = Some r
           ∧ Mechanic.user_id r = u.
Proof.
  unfold bookings_select_policy, customers_can_view_own_bookings,
    mechanics_can_view_assigned_bookings.
  by rewrite orb_true_iff, bool_decide_eq_true, mechanic_id_owned_true.
Qed.

Lemma bookings_insert_policy_true (who : principal) (c : option uuid) :
  bookings_insert_policy who c = true ↔ ∃ u, who = Some u ∧ c = Some u.
Proof.
  destruct who as [u|], c as [c|]; simpl;
    try (split; [done | by intros (? & [=] & [=])]).
  rewrite bool_decide_eq_true. split.
  - intros ->. eauto.
  - by intros (? & [= ->] & [= ->]).
Qed.

(** The conversion of a [uuid] column that the screen fills from a text it
    holds or leaves out. *)
Lemma uuid_column_from_option (column : string) (o : option string)
    (dflt : entry string) (c : option uuid) :
  dflt = Absent ∨ dflt = Null →
  uuid_column column (from_option Value dflt o) = Ok c ↔
  match o with
  | Some t => is_Some c ∧ uuid_in t = c
  | None => c = None
  end.
Proof.
  intros Hd. destruct o as [t|]; simpl.
  - destruct (uuid_in t) as [u|]; split.
    + intros [= <-]. eauto.
    + by intros [_ <-].
    + done.
    + by intros [[? ?] <-].
  - destruct Hd as [-> | ->]; simpl; split; by intros; simplify_eq.
Qed.

Lemma convert_booking_Ok (p : Booking.payload)
    (c m s : option uuid) (year : option Z) :
  convert_booking p = Ok (c, m, s, year) ↔
  uuid_column "customer_id" (Booking.p_customer_id p) = Ok c
  ∧ uuid_column "mechanic_id" (Booking.p_mechanic_id p) = Ok m
  ∧ uuid_column "service_id" (Booking.p_service_id p) = Ok s
  ∧ integer_column "vehicle_year" (Booking.p_vehicle_year p) = Ok year.
Proof.
  unfold convert_booking. split.
  - intros E. peel E. by simplify_eq.
  - intros (-> & -> & -> & ->). reflexivity.
Qed.

(** What a successful [INSERT INTO bookings] has checked and stored. *)
Lemma insert_booking_Ok (who : principal) (new_id : uuid) (now : timestamptz)
    (p : Booking.payload) (d d' : db) :
  insert_booking who new_id now p d = Ok d' →
  ∃ b : Booking.row,
    d' = with_bookings (<[new_id := b]> (bookings d)) d
    ∧ bookings d !! new_id = None
    ∧ who = Some (Booking.customer_id b)
    ∧ convert_booking p
      = Ok (Some (Booking.customer_id b), Booking.mechanic_id b,
            Some (Booking.service_id b), Some (Booking.vehicle_year b))
    ∧ is_Some (profiles d !! Booking.customer_id b)
    ∧ references_opt (mechanics d) (Booking.mechanic_id b) = true
    ∧ is_Some (services d !! Booking.service_id b)
    ∧ or_default (Some "pending") (Booking.p_status p) = Some (Booking.status b)
    ∧ valid_status (Booking.status b) = true
    ∧ or_default None (Booking.p_total_price p) = Some (Booking.total_price b)
    ∧ or_default None (Booking.p_vehicle_make p) = Some (Booking.vehicle_make b)
    ∧ or_default None (Booking.p_vehicle_model p)
      = Some (Booking.vehicle_model b)
    ∧ or_default None (Booking.p_location_address p)
      = Some (Booking.location_address b)
    ∧ Booking.created_at b = Some now.
Proof.
  intros E. unfold insert_booking in E.
  apply bind_Ok in E as ([[[c m] s] year] & Hconv & E). peel E. simplify_eq.
  eexists. split; [reflexivity|]. simpl.
  repeat match goal with
  | H : references _ _ = true |- _ => apply references_true in H
  | H : bool_decide _ = true |- _ => apply bool_decide_eq_true in H
  | H : bookings_insert_policy _ _ = true |- _ =>
      apply bookings_insert_policy_true in H as (? & -> & ?)
  end.
  simplify_eq. repeat split; done.
Qed.

(** ** Reading the booking list *)

Lemma select_bookings_lookup (d : db) (P id : uuid) (b : Booking.row) :
  select_bookings (Some P) d !! id = Some b ↔
  bookings d !! id = Some b ∧
  (Booking.customer_id b = P ∨
   ∃ mid r, Booking.mechanic_id b = Some mid ∧ mechanics d !! mid = Some r
            ∧ Mechanic.user_id r = P).
Proof.
  unfold select_bookings. rewrite map_lookup_filter_Some. cbn [snd].
  by rewrite bookings_select_policy_true.
Qed.

(** C1. For an authenticated principal [P], the rows that the booking read
    returns are exactly the stored bookings whose [customer_id] is [P] or
    whose [mechanic_id] is the id of a mechanic row with [user_id = P]; in
    particular a principal [A] does not read a booking whose [customer_id] is
    another principal and whose [mechanic_id] is null. *)
Theorem select_bookings_exact (d : db) (P : uuid) :
  (∀ (id : uuid) (b : Booking.row),
     select_bookings (Some P) d !! id = Some b ↔
     bookings d !! id = Some b ∧
     (Booking.customer_id b = P ∨
      ∃ mid r, Booking.mechanic_id b = Some mid ∧ mechanics d !! mid = Some r
               ∧ Mechanic.user_id r = P)) ∧
  (∀ (id : uuid) (b : Booking.row),
     bookings d !! id = Some b → Booking.customer_id b ≠ P →
     Booking.mechanic_id b = None →
     select_bookings (Some P) d !! id = None).
Proof.
  split; [apply select_bookings_lookup|].
  intros id b Hb Hc Hm.
  destruct (select_bookings (Some P) d !! id) as [b'|] eqn:E; [|done].
  apply select_bookings_lookup in E as [Hb' [Hc' | (mid & r & Hm' & _)]];
    simplify_eq.
Qed.

Lemma select_bookings_exact_witness :
  (* Alice reads her booking and not Bob's, which has no mechanic; Carol,
     the assigned mechanic, reads Alice's booking; Dave reads nothing. *)
  dom (select_bookings (Some Example.alice) Example.booked2) = {[ Example.b1 ]}
  ∧ select_bookings (Some Example.alice) Example.booked2 !! Example.b2 = None
  ∧ dom (select_bookings (Some Example.carol) Example.booked2) = {[ Example.b1 ]}
  ∧ dom (select_bookings (Some Example.dave) Example.booked2) = ∅.
Proof.
  split; [vm_compute; reflexivity|]. split; [|split; vm_compute; reflexivity].
  destruct (bookings Example.booked2 !! Example.b2) as [b|] eqn:Hb;
    [|vm_compute in Hb; discriminate Hb].
  apply (proj2 (select_bookings_exact Example.booked2 Example.alice)
           Example.b2 b Hb).
  - revert Hb. vm_compute. intros [= <-] H. discriminate H.
  - revert Hb. vm_compute. intros [= <-]. reflexivity.
Defined.

(** ** Creating a booking *)

Section handleSubmit_facts.
Import CreateBookingScreen.

Lemma falsy_true (s : string) : falsy s = true ↔ s = "".
Proof. unfold falsy. by rewrite bool_decide_eq_true. Qed.

Lemma falsy_opt_true (s : option string) :
  falsy_opt s = true ↔ s = None ∨ s = Some "".
Proof.
  destruct s as [s|]; simpl.
  - rewrite falsy_true. split; [intros ->; by right|].
    by intros [[=]|[= ->]].
  - split; [by left | done].
Qed.

Lemma form_guard_true (st : state) :
  falsy (vehicleMake st) || falsy (vehicleModel st) || falsy (vehicleYear st)
  || falsy (locationAddress st) || falsy_opt (selectedMechanic st) = true
  ↔ form_incomplete st.
Proof.
  unfold form_incomplete.
  rewrite !orb_true_iff, !falsy_true, falsy_opt_true. tauto.
Qed.

Lemma handleSubmit_incomplete who new_id clock now st d :
  form_incomplete st →
  handleSubmit who new_id clock now st d = FormError required_message.
Proof.
  intros H%form_guard_true. unfold handleSubmit. by rewrite H.
Qed.

Lemma handleSubmit_complete who new_id clock now st d :
  ¬ form_incomplete st →
  handleSubmit who new_id clock now st d =
    match insert_booking who new_id now (insert_payload clock st) d with
    | Err e => InsertError e
    | Ok d' => Navigated d'
    end.
Proof.
  intros H. unfold handleSubmit.
  destruct (_ || _) eqn:E; [|done].
  by apply form_guard_true in E.
Qed.

(** What the conversion makes of the object that the screen sends. *)
Lemma convert_insert_payload clock st (c m s : option uuid) (year : option Z) :
  convert_booking (insert_payload clock st) = Ok (c, m, s, year) ↔
  (c = profile st ≫= uuid_in ∧ (is_Some (profile st) → is_Some c))
  ∧ (m = selectedMechanic st ≫= uuid_in
     ∧ (is_Some (selectedMechanic st) → is_Some m))
  ∧ (s = serviceId st ≫= uuid_in ∧ (is_Some (serviceId st) → is_Some s))
  ∧ integer_column "vehicle_year"
      (from_option Value Null (stringify (parseInt (vehicleYear st))))
    = Ok year.
Proof.
  assert (∀ column (o : option string) dflt (x : option uuid),
            dflt = Absent ∨ dflt = Null →
            uuid_column column (from_option Value dflt o) = Ok x
            ↔ x = o ≫= uuid_in ∧ (is_Some o → is_Some x)) as Hcol.
  { intros column o dflt x Hd. rewrite uuid_column_from_option by done.
    destruct o as [t|]; simpl.
    - split; [intros [? <-]; by split | intros [-> Hx]; split; [|done]].
      apply Hx. eauto.
    - split; [intros ->; split; [done|by intros [? ?]] | by intros [-> _]]. }
  rewrite convert_booking_Ok.
  cbn [insert_payload Booking.p_customer_id Booking.p_mechanic_id
       Booking.p_service_id Booking.p_vehicle_year].
  rewrite !Hcol by auto. done.
Qed.

End handleSubmit_facts.

(** A form without a selected mechanic is turned down although none of the
    fields the specification names is missing, and a screen without a
    service reference gets past the form. *)
Lemma mechanic_selection_is_required :
  (¬ spec_required_field_missing (Example.alice_form None)
   ∧ CreateBookingScreen.handleSubmit (Some Example.alice) Example.b1 10 1
       (Example.alice_form None) Example.world
     = CreateBookingScreen.FormError CreateBookingScreen.required_message)
  ∧ (spec_required_field_missing Example.alice_form_no_service
     ∧ CreateBookingScreen.handleSubmit (Some Example.alice) Example.b1 10 1
         Example.alice_form_no_service Example.world
       = CreateBookingScreen.InsertError (NotNullViolation "service_id")).
Proof.
  split; split.
  - unfold spec_required_field_missing. vm_compute.
    by intros [H|[H|[H|[H|H]]]].
  - by vm_compute.
  - unfold spec_required_field_missing. by repeat right.
  - by vm_compute.
Qed.

(** What a successful [handleSubmit] has sent. *)
Lemma handleSubmit_Navigated (who : principal) (new_id : uuid)
    (clock now : timestamptz) (st : CreateBookingScreen.state) (d d' : db) :
  CreateBookingScreen.handleSubmit who new_id clock now st d
  = CreateBookingScreen.Navigated d' →
  ¬ CreateBookingScreen.form_incomplete st
  ∧ insert_booking who new_id now
      (CreateBookingScreen.insert_payload clock st) d = Ok d'.
Proof.
  intros H.
  destruct (decide (CreateBookingScreen.form_incomplete st)) as [Hi|Hn].
  - by rewrite (handleSubmit_incomplete _ _ _ _ _ _ Hi) in H.
  - split; [done|].
    rewrite (handleSubmit_complete _ _ _ _ _ _ Hn) in H.
    destruct (insert_booking _ _ _ _ _); by simplify_eq.
Qed.

(** C2 (amended). The selection of a mechanic is required: [handleSubmit]
    stops with its own message exactly when the make, the model, the year,
    the address or the selected mechanic is empty, and the service reference
    is not looked at.  With a complete form the insert is sent.  When the
    customer identity that it carries is not the authenticated principal, it
    fails: with the policy violation of the store when the values of the form
    convert to the types of the columns, and with the error of the conversion
    otherwise, which the store raises first.  And it creates no booking when
    the service id is not the text of the id of a row of the catalog. *)
Theorem handleSubmit_failures (who : principal) (new_id : uuid)
    (clock now : timestamptz) (st : CreateBookingScreen.state) (d : db) :
  ((∃ message, CreateBookingScreen.handleSubmit who new_id clock now st d
               = CreateBookingScreen.FormError message)
   ↔ CreateBookingScreen.form_incomplete st)
  ∧ (CreateBookingScreen.form_incomplete st →
     CreateBookingScreen.handleSubmit who new_id clock now st d
     = CreateBookingScreen.FormError CreateBookingScreen.required_message)
  ∧ (¬ CreateBookingScreen.form_incomplete st →
     who = None ∨ CreateBookingScreen.profile st ≫= uuid_in ≠ who →
     CreateBookingScreen.handleSubmit who new_id clock now st d
     = CreateBookingScreen.InsertError
         match convert_booking (CreateBookingScreen.insert_payload clock st) with
         | Err e => e
         | Ok _ => RlsViolation "bookings"
         end)
  ∧ ((CreateBookingScreen.serviceId st ≫= uuid_in) ≫= (λ k, services d !! k)
     = None →
     ∀ d', CreateBookingScreen.handleSubmit who new_id clock now st d
           ≠ CreateBookingScreen.Navigated d').
Proof.
  split; [|split; [|split]].
  - split.
    + intros [message H].
      destruct (decide (CreateBookingScreen.form_incomplete st)) as [|Hn].
      * done.
      * rewrite (handleSubmit_complete _ _ _ _ _ _ Hn) in H.
        by destruct (insert_booking _ _ _ _ _).
    + intros H. eexists. by apply handleSubmit_incomplete.
  - apply handleSubmit_incomplete.
  - intros Hn Hw. rewrite (handleSubmit_complete _ _ _ _ _ _ Hn).
    unfold insert_booking.
    destruct (convert_booking (CreateBookingScreen.insert_payload clock st))
      as [[[[c m] s] year]|e] eqn:E; [|done].
    apply convert_insert_payload in E as ([-> _] & _).
    cbn [mbind result_bind].
    assert (bookings_insert_policy who
              (CreateBookingScreen.profile st ≫= uuid_in) = false)
      as ->; [|done].
    destruct (bookings_insert_policy _ _) eqn:Hpol; [|done].
    apply bookings_insert_policy_true in Hpol as (u & -> & Hc).
    destruct Hw as [Hw|Hw]; [done|]. by rewrite Hc in Hw.
  - intros Hs d' H.
    apply handleSubmit_Navigated in H as [_ H].
    apply insert_booking_Ok in H as (b & _ & _ & _ & Hconv & _ & _ & [x Hx] & _).
    apply convert_insert_payload in Hconv as (_ & _ & [Hsid _] & _).
    rewrite <- Hsid in Hs. simpl in Hs. congruence.
Qed.

Lemma handleSubmit_failures_witness :
  (* under Bob's session, Alice's form is refused by the policy, and with a
     year that does not fit the column by the conversion *)
  CreateBookingScreen.handleSubmit (Some Example.bob) Example.b1 10 1
    (Example.alice_form (Some Example.m_carol)) Example.world
  = CreateBookingScreen.InsertError (RlsViolation "bookings")
  ∧ CreateBookingScreen.handleSubmit (Some Example.bob) Example.b1 10 1
      (Example.alice_form_year "99999999999") Example.world
    = CreateBookingScreen.InsertError (NumericValueOutOfRange "vehicle_year").
Proof.
  split.
  - apply (proj1 (proj2 (proj2 (handleSubmit_failures (Some Example.bob)
             Example.b1 10 1 (Example.alice_form (Some Example.m_carol))
             Example.world)))).
    + intros H. vm_compute in H.
      destruct H as [H|[H|[H|[H|[H|H]]]]]; discriminate H.
    + right. vm_compute. intros H. discriminate H.
  - apply (proj1 (proj2 (proj2 (handleSubmit_failures (Some Example.bob)
             Example.b1 10 1 (Example.alice_form_year "99999999999")
             Example.world)))).
    + intros H. vm_compute in H.
      destruct H as [H|[H|[H|[H|[H|H]]]]]; discriminate H.
    + right. vm_compute. intros H. discriminate H.
Defined.

(** What [handleSubmit] has stored when it went through. *)
Lemma handleSubmit_stored (who : principal) (new_id : uuid)
    (clock now : timestamptz) (st : CreateBookingScreen.state) (d d' : db) :
  CreateBookingScreen.handleSubmit who new_id clock now st d
  = CreateBookingScreen.Navigated d' →
  ∃ b : Booking.row,
    d' = with_bookings (<[new_id := b]> (bookings d)) d
    ∧ bookings d !! new_id = None
    ∧ who = Some (Booking.customer_id b)
    ∧ CreateBookingScreen.profile st ≫= uuid_in = Some (Booking.customer_id b)
    ∧ CreateBookingScreen.selectedMechanic st ≫= uuid_in = Booking.mechanic_id b
    ∧ CreateBookingScreen.serviceId st ≫= uuid_in = Some (Booking.service_id b)
    ∧ is_Some (profiles d !! Booking.customer_id b)
    ∧ (∃ m r, Booking.mechanic_id b = Some m ∧ mechanics d !! m = Some r)
    ∧ is_Some (services d !! Booking.service_id b)
    ∧ Booking.status b = "pending"
    ∧ json_value <$> stringify (CreateBookingScreen.price_or_zero
                                  (CreateBookingScreen.service st))
      = Some (Booking.total_price b)
    ∧ Booking.vehicle_make b = CreateBookingScreen.vehicleMake st
    ∧ Booking.vehicle_model b = CreateBookingScreen.vehicleModel st
    ∧ Booking.location_address b = CreateBookingScreen.locationAddress st
    ∧ Booking.created_at b = Some now.
Proof.
  intros [Hn H]%handleSubmit_Navigated.
  apply insert_booking_Ok in H
    as (b & -> & Hfresh & -> & Hconv & Hp & Hm & Hs & Hst & _ & Hprice
        & Hmake & Hmodel & Haddr & Hcreated).
  apply convert_insert_payload in Hconv
    as ([Hc _] & [Hmech Hsel] & [Hsid _] & _).
  cbn [CreateBookingScreen.insert_payload Booking.p_status Booking.p_total_price
       Booking.p_vehicle_make Booking.p_vehicle_model
       Booking.p_location_address or_default] in *.
  exists b. split; [done|]. split; [done|]. split; [done|].
  split; [done|]. split; [done|]. split; [done|]. split; [done|].
  split.
  { destruct Hsel as [m Em].
    - destruct (CreateBookingScreen.selectedMechanic st) eqn:E; [done|].
      exfalso. apply Hn. unfold CreateBookingScreen.form_incomplete.
      rewrite E. tauto.
    - rewrite Em in Hm. cbn in Hm. apply references_true in Hm as [r Hr].
      by exists m, r. }
  split; [done|]. split; [by injection Hst|]. split.
  { destruct (stringify _) as [j|]; cbn in Hprice |- *;
      [exact Hprice | discriminate Hprice]. }
  split; [by injection Hmake|]. split; [by injection Hmodel|].
  split; [by injection Haddr | done].
Qed.

(** The number that [to_number] returns is never [NaN]; so [|| 0] replaces
    a zero by zero and nothing else. *)
Lemma price_or_zero_read_back (s : Service.row) :
  json_value <$> stringify (CreateBookingScreen.price_or_zero (Some s))
  = read_back (Service.base_price s).
Proof.
  unfold CreateBookingScreen.price_or_zero, read_back.
  assert (∀ q, truthy (to_number q) = false →
               stringify (to_number q) = Some (Numeral 0)) as Hzero.
  { intros q. unfold to_number.
    destruct (Qnum q); [done| |];
      destruct (nearest_double _ _) as [[m e]|]; try done;
      cbn [truthy stringify]; intros Ht%negb_false_iff;
      apply Qeq_bool_iff in Ht; unfold Qeq in Ht; cbn [Qnum Qden] in Ht;
      rewrite Z.mul_1_r, Z.mul_0_l in Ht; by rewrite Ht. }
  destruct (truthy (to_number (Service.base_price s))) eqn:Ht; [done|].
  by rewrite (Hzero _ Ht).
Qed.

(** Alice opens the screen when the oil change costs 49.99 and submits the
    form when it costs 59.99: the booking is stored at 49.99. *)
Lemma price_is_the_loaded_one :
  (Booking.total_price <$> bookings Example.booked_at_old_price !! Example.b1)
  = Some (4999 # 100)
  ∧ (Service.base_price <$> services Example.repriced !! Example.s1)
    = Some (5999 # 100)
  ∧ ¬ spec_price_at_creation.
Proof.
  split; [vm_compute; reflexivity|]. split; [vm_compute; reflexivity|].
  intros H.
  destruct (H (Some Example.alice) Example.b1 10 1
              (Example.alice_form (Some Example.m_carol)) Example.repriced
              Example.booked_at_old_price)
    as (b & s & Hb & Hs & Hp); [vm_compute; reflexivity|].
  assert (bookings Example.booked_at_old_price !! Example.b1
          = Some Example.alice_booking) as Hb'
    by (vm_compute; reflexivity).
  rewrite Hb' in Hb. injection Hb as <-.
  assert (services Example.repriced !! Example.s1
          = Some (Service.set_base_price (5999 # 100)
                    (seed_row 0 "Oil Change"
                       "Complete oil and filter change service"
                       "maintenance" (4999 # 100) 30))) as Hs'
    by (vm_compute; reflexivity).
  change (Booking.service_id Example.alice_booking) with Example.s1 in Hs.
  rewrite Hs' in Hs. injection Hs as <-.
  vm_compute in Hp. discriminate Hp.
Qed.

(** C3 (amended). Every booking that [handleSubmit] creates is stored with
    status ['pending'] and with the price that the screen holds: the
    [base_price] of the service as it was loaded when the screen was opened,
    read as a number and written back, or 0 when no service was loaded; the
    catalog is not read again when the form is submitted.  That is the
    [base_price] of the referenced service at creation time when the catalog
    still holds the row that was loaded and the price is a decimal that the
    number gives back, as 49.99 is (see the instance below for the seeded
    'Oil Change'). *)
Theorem created_booking_is_pending_at_loaded_price
    (who : principal) (new_id : uuid) (clock now : timestamptz)
    (st : CreateBookingScreen.state) (d d' : db) :
  CreateBookingScreen.handleSubmit who new_id clock now st d
  = CreateBookingScreen.Navigated d' →
  ∃ b : Booking.row,
    bookings d' !! new_id = Some b
    ∧ CreateBookingScreen.serviceId st ≫= uuid_in = Some (Booking.service_id b)
    ∧ is_Some (services d !! Booking.service_id b)
    ∧ Booking.status b = "pending"
    ∧ (∀ s, CreateBookingScreen.service st = Some s →
            read_back (Service.base_price s) = Some (Booking.total_price b))
    ∧ (CreateBookingScreen.service st = None → Booking.total_price b = 0%Q)
    ∧ (∀ d0, CreateBookingScreen.service st
             = (CreateBookingScreen.loadData who
                  (CreateBookingScreen.serviceId st) d0).1 →
             CreateBookingScreen.service st
             = services d0 !! Booking.service_id b)
    ∧ (∀ s, services d !! Booking.service_id b = Some s →
            CreateBookingScreen.service st = Some s →
            (∃ p, read_back (Service.base_price s) = Some p
                  ∧ (p == Service.base_price s)%Q) →
            (Booking.total_price b == Service.base_price s)%Q).
Proof.
  intros H. apply handleSubmit_stored in H
    as (b & -> & _ & -> & _ & _ & Hsid & _ & _ & Hs & Hst & Hprice & _).
  exists b. cbn [bookings with_bookings]. rewrite lookup_insert_eq.
  split; [done|]. split; [done|]. split; [done|]. split; [done|].
  assert (∀ s, CreateBookingScreen.service st = Some s →
               read_back (Service.base_price s) = Some (Booking.total_price b))
    as Hloaded.
  { intros s Hsvc. rewrite Hsvc in Hprice.
    by rewrite price_or_zero_read_back in Hprice. }
  split; [exact Hloaded|]. split; [|split].
  - intros Hnone. rewrite Hnone in Hprice. cbn in Hprice.
    by injection Hprice as <-.
  - intros d0 ->. unfold CreateBookingScreen.loadData. cbn [fst].
    by rewrite Hsid.
  - intros s _ Hsvc (p & Hp & Heq). rewrite (Hloaded s Hsvc) in Hp.
    by injection Hp as ->.
Qed.

Lemma created_booking_is_pending_at_loaded_price_witness :
  ∃ b : Booking.row,
    bookings Example.booked !! Example.b1 = Some b
    ∧ (Service.name <$> services Example.world !! Booking.service_id b)
      = Some "Oil Change"
    ∧ Booking.status b = "pending"
    ∧ (Booking.total_price b == 4999 # 100)%Q.
Proof.
  destruct (created_booking_is_pending_at_loaded_price (Some Example.alice)
              Example.b1 10 1 (Example.alice_form (Some Example.m_carol))
              Example.world Example.booked)
    as (b & Hb & Hid & _ & Hst & _ & _ & _ & Hp).
  - vm_compute. reflexivity.
  - exists b. split; [exact Hb|].
    assert (CreateBookingScreen.serviceId
              (Example.alice_form (Some Example.m_carol)) ≫= uuid_in
            = Some Example.s1) as Hs1 by (vm_compute; reflexivity).
    rewrite Hs1 in Hid. injection Hid as Hid. rewrite <- Hid in Hp |- *.
    assert (services Example.world !! Example.s1
            = Some (seed_row 0 "Oil Change"
                      "Complete oil and filter change service"
                      "maintenance" (4999 # 100) 30)) as Hoil
      by (vm_compute; reflexivity).
    rewrite Hoil. split; [reflexivity|]. split; [exact Hst|].
    apply (Hp _ Hoil); [vm_compute; reflexivity|].
    exists (4999 # 100). split; [vm_compute; reflexivity | reflexivity].
Defined.

(** ** The check constraints as invariants of the store *)

Lemma valid_status_domain (s : string) :
  valid_status s = true ↔ s ∈ status_domain.
Proof.
  unfold valid_status, status_domain.
  rewrite !orb_true_iff, !bool_decide_eq_true, !elem_of_cons, elem_of_nil.
  tauto.
Qed.

Lemma valid_rating_range (r : Z) : valid_rating r = true ↔ 1 ≤ r ≤ 5.
Proof. unfold valid_rating. rewrite andb_true_iff. lia. Qed.

(** What an [UPDATE bookings] that raised no error has done. *)
Lemma update_booking_Ok (who : principal) (id : uuid) (cond : Booking.row → bool)
    (set : Booking.row → Booking.row) (d d' : db) (n : nat) :
  update_booking who id cond set d = Ok (d', n) →
  (n = 0%nat ∧ d' = d
   ∧ ∀ old, bookings d !! id = Some old →
            bookings_update_using d who old && cond old = false)
  ∨ (n = 1%nat
     ∧ ∃ old, bookings d !! id = Some old
              ∧ bookings_update_using d who old = true
              ∧ cond old = true
              ∧ bookings_update_check d who (set old) = true
              ∧ valid_status (Booking.status (set old)) = true
              ∧ d' = with_bookings (<[id := set old]> (bookings d)) d).
Proof.
  unfold update_booking. intros E.
  destruct (bookings d !! id) as [old|] eqn:Hold.
  - destruct (bookings_update_using d who old && cond old) eqn:Hc.
    + right. peel E. simplify_eq. split; [done|]. exists old.
      apply andb_true_iff in Hc as [? ?]. by repeat split.
    + left. simplify_eq. repeat split; try done. by intros ? [= <-].
  - left. simplify_eq. by repeat split.
Qed.

(** What an [UPDATE profiles] and an [UPDATE mechanics] that raised no error
    have done. *)
Lemma update_profile_Ok (who : principal) (id : uuid)
    (set : Profile.row → Profile.row) (d d' : db) (n : nat) :
  update_profile who id set d = Ok (d', n) →
  (n = 0%nat ∧ d' = d)
  ∨ (n = 1%nat
     ∧ ∃ old, profiles d !! id = Some old
              ∧ valid_user_type (Profile.user_type (set old)) = true
              ∧ d' = with_profiles (<[id := set old]> (profiles d)) d).
Proof.
  unfold update_profile. intros E.
  destruct (profiles d !! id) as [old|] eqn:Hold; [|left; by simplify_eq].
  destruct (profiles_select_policy who id); [|left; by simplify_eq].
  right. peel E. simplify_eq. split; [done|]. by exists old.
Qed.

Lemma update_mechanic_Ok (who : principal) (id : uuid)
    (set : Mechanic.row → Mechanic.row) (d d' : db) (n : nat) :
  update_mechanic who id set d = Ok (d', n) →
  (n = 0%nat ∧ d' = d)
  ∨ (n = 1%nat
     ∧ ∃ old, mechanics d !! id = Some old
              ∧ mechanics_update_policy who old = true
              ∧ mechanics_update_policy who (set old) = true
              ∧ (Mechanic.user_id (set old) = Mechanic.user_id old
                 ∨ is_Some (profiles d !! Mechanic.user_id (set old)))
              ∧ d' = with_mechanics (<[id := set old]> (mechanics d)) d).
Proof.
  unfold update_mechanic. intros E.
  destruct (mechanics d !! id) as [old|] eqn:Hold; [|left; by simplify_eq].
  destruct (mechanics_update_policy who old) eqn:Hu; [|left; by simplify_eq].
  right. peel E. simplify_eq. split; [done|]. exists old.
  split; [done|]. split; [done|]. split; [done|]. split; [|done].
  rewrite <- references_true, <- (bool_decide_eq_true (_ = _)).
  by apply orb_true_iff.
Qed.

Lemma insert_services_frame (ids : list uuid) (rows : list Service.row) (d d' : db) :
  insert_services ids rows d = Ok d' →
  bookings d' = bookings d ∧ reviews d' = reviews d.
Proof.
  revert rows d. induction ids as [|id ids IH]; intros rows d E.
  - simpl in E. by simplify_eq.
  - destruct rows as [|s rows]; simpl in E; [by simplify_eq|].
    apply bind_Ok in E as (d1 & E1 & E).
    apply IH in E as [-> ->].
    unfold insert_service in E1. peel E1.
    destruct (services d !! id); by simplify_eq.
Qed.

Lemma constraints_hold_delete_reviews (dead : gset uuid) (d : db) :
  constraints_hold d → constraints_hold (delete_reviews dead d).
Proof.
  intros [Hb Hr]. split; [done|]. simpl.
  intros k r [Hk _]%map_lookup_filter_Some. by apply (Hr k).
Qed.

Lemma constraints_hold_delete_bookings (dead : gset uuid) (d : db) :
  constraints_hold d → constraints_hold (delete_bookings dead d).
Proof.
  intros [Hb Hr]. unfold delete_bookings.
  apply constraints_hold_delete_reviews. split; [|done]. simpl.
  intros k b [Hk _]%map_lookup_filter_Some. by apply (Hb k).
Qed.

Lemma null_mechanic_id_status (dead : gset uuid) (b : Booking.row) :
  Booking.status (null_mechanic_id dead b) = Booking.status b.
Proof.
  unfold null_mechanic_id.
  destruct (Booking.mechanic_id b); [|done]. by case_bool_decide.
Qed.

Lemma constraints_hold_delete_mechanics (dead : gset uuid) (d : db) :
  constraints_hold d → constraints_hold (delete_mechanics dead d).
Proof.
  intros [Hb Hr]. unfold delete_mechanics.
  apply constraints_hold_delete_reviews. split; [|done].
  cbn [bookings with_bookings with_mechanics].
  intros k b (b0 & <- & Hk)%lookup_fmap_Some.
  rewrite null_mechanic_id_status. by apply (Hb k).
Qed.

Lemma exec_constraints_hold (s : statement) (d d' : db) :
  constraints_hold d → exec s d = Ok d' → constraints_hold d'.
Proof.
  intros Hd E. destruct s; simpl in E.
  - (* a new user of the identity provider *)
    by simplify_eq.
  - (* INSERT INTO profiles *)
    unfold insert_profile in E. peel E. by simplify_eq.
  - (* UPDATE profiles *)
    destruct (update_profile who id set d) as [[d1 n]|e] eqn:U;
      simpl in E; [|done]. simplify_eq.
    by apply update_profile_Ok in U as [(_ & ->) | (_ & old & _ & _ & ->)].
  - (* INSERT INTO mechanics *)
    unfold insert_mechanic in E. peel E. by simplify_eq.
  - (* UPDATE mechanics *)
    destruct (update_mechanic who id set d) as [[d1 n]|e] eqn:U;
      simpl in E; [|done]. simplify_eq.
    by apply update_mechanic_Ok in U
      as [(_ & ->) | (_ & old & _ & _ & _ & _ & ->)].
  - (* INSERT INTO services *)
    apply insert_services_frame in E as [Eb Er].
    destruct Hd as [Hb Hr]. split; [by rewrite Eb | by rewrite Er].
  - (* UPDATE services SET base_price *)
    by simplify_eq.
  - (* INSERT INTO bookings *)
    apply insert_booking_Ok in E
      as (b & -> & _ & _ & _ & _ & _ & _ & _ & Hv & _).
    destruct Hd as [Hb Hr]. split; [|done]. simpl.
    by apply map_Forall_insert_2.
  - (* UPDATE bookings *)
    destruct (update_booking who id cond set d) as [[d1 n]|e] eqn:U;
      simpl in E; [|done]. simplify_eq.
    apply update_booking_Ok in U
      as [(_ & -> & _) | (_ & old & _ & _ & _ & _ & Hv & ->)]; [done|].
    destruct Hd as [Hb Hr]. split; [|done]. simpl.
    by apply map_Forall_insert_2.
  - (* INSERT INTO reviews *)
    unfold insert_review in E. peel E. simplify_eq.
    destruct Hd as [Hb Hr]. split; [done|]. simpl.
    by apply map_Forall_insert_2.
  - (* DELETE FROM mechanics *)
    simplify_eq. unfold delete_mechanic.
    destruct (mechanics d !! id); [|done].
    by apply constraints_hold_delete_mechanics.
  - (* DELETE FROM profiles *)
    simplify_eq. unfold delete_profile.
    destruct (profiles d !! id); [|done].
    apply constraints_hold_delete_reviews, constraints_hold_delete_bookings,
      constraints_hold_delete_mechanics.
    done.
Qed.

Lemma run_constraints_hold (ss : list statement) (d : db) :
  constraints_hold d → constraints_hold (run ss d).
Proof.
  revert d. induction ss as [|s ss IH]; intros d Hd; [done|].
  simpl. apply IH. unfold exec_or_keep.
  destruct (exec s d) eqn:E; [|done]. by eapply exec_constraints_hold.
Qed.

Lemma reachable_constraints_hold (d : db) : reachable d → constraints_hold d.
Proof.
  intros [ss ->]. apply run_constraints_hold.
  split; simpl; apply map_Forall_empty.
Qed.

Lemma reachable_step (s : statement) (d : db) :
  reachable d → reachable (exec_or_keep s d).
Proof.
  intros [ss ->]. exists (ss ++ [s])%list. unfold run. by rewrite foldl_app.
Qed.

(** ** The status of a booking *)

Lemma bookings_update_check_set_status (d : db) (who : principal) (s : string)
    (b : Booking.row) :
  bookings_update_check d who (Booking.set_status s b)
  = bookings_update_using d who b.
Proof. by destruct who. Qed.

Lemma booking_status_of_reachable (d : db) (id : uuid) (b : Booking.row) :
  reachable d → bookings d !! id = Some b → Booking.status b ∈ status_domain.
Proof.
  intros [Hb _]%reachable_constraints_hold Hid.
  apply valid_status_domain. by apply (Hb id).
Qed.

(** C4. In every state the store can reach, the status of every booking is
    one of the five values; and nothing else restricts a write of the status:
    whoever passes the update policy on a booking sets its status, whatever
    it is, to any of the five values in one update. *)
Theorem booking_status_domain :
  (∀ (d : db), reachable d →
     ∀ (id : uuid) (b : Booking.row),
       bookings d !! id = Some b → Booking.status b ∈ status_domain)
  ∧ (∀ (d : db) (who : principal) (id : uuid) (b : Booking.row) (s : string),
       bookings d !! id = Some b →
       bookings_update_using d who b = true →
       s ∈ status_domain →
       ∃ d', update_booking_status who id s d = Ok (d', 1%nat)
             ∧ bookings d' !! id = Some (Booking.set_status s b)).
Proof.
  split.
  - intros d Hd id b. by apply booking_status_of_reachable.
  - intros d who id b s Hid Hu Hs%valid_status_domain.
    eexists. unfold update_booking_status, update_booking.
    rewrite Hid, Hu. cbn [andb].
    rewrite bookings_update_check_set_status, Hu.
    cbn [Booking.status Booking.set_status]. rewrite Hs.
    cbn [Booking.customer_id Booking.mechanic_id Booking.service_id
         Booking.vehicle_year Booking.set_status].
    rewrite !bool_decide_eq_true_2 by done. simpl.
    split; [reflexivity|]. apply lookup_insert_eq.
Qed.

Lemma booked_reachable : reachable Example.booked.
Proof.
  exists (Example.setup
          ++ [InsertBooking (Some Example.alice) Example.b1 1
                (CreateBookingScreen.insert_payload 10
                   (Example.alice_form (Some Example.m_carol)))])%list.
  vm_compute. reflexivity.
Qed.

Lemma booking_status_domain_witness :
  (∀ b, bookings Example.booked !! Example.b1 = Some b →
        Booking.status b ∈ status_domain)
  ∧ ∃ d', update_booking_status (Some Example.alice) Example.b1 "completed"
            Example.booked
          = Ok (d', 1%nat)
          ∧ (Booking.status <$> bookings d' !! Example.b1) = Some "completed"
          ∧ (Booking.status <$> bookings Example.booked !! Example.b1)
            = Some "pending".
Proof.
  destruct booking_status_domain as [Hinv Hset]. split.
  - intros b Hb. exact (Hinv Example.booked booked_reachable Example.b1 b Hb).
  - destruct (bookings Example.booked !! Example.b1) as [b|] eqn:Hb;
      [|vm_compute in Hb; discriminate Hb].
    destruct (Hset Example.booked (Some Example.alice) Example.b1 b
                "completed" Hb)
      as (d' & Hd' & Hnew).
    + revert Hb. vm_compute. intros [= <-]. reflexivity.
    + apply valid_status_domain. vm_compute. reflexivity.
    + exists d'. split; [exact Hd'|]. rewrite Hnew. split; [reflexivity|].
      revert Hb. vm_compute. intros [= <-]. reflexivity.
Defined.

(** ** Reviews *)

(** C9. In every state the store can reach, the rating of every review is
    between 1 and 5; an insert with a rating outside of that range raises an
    error and leaves the store as it was. *)
Theorem review_rating_range :
  (∀ (d : db), reachable d →
     ∀ (id : uuid) (r : Review.row),
       reviews d !! id = Some r → 1 ≤ Review.rating r ≤ 5)
  ∧ (∀ (who : principal) (new_id : uuid) (now : timestamptz) (r : Review.row)
       (d : db),
       ¬ (1 ≤ Review.rating r ≤ 5) →
       (∃ e, insert_review who new_id now r d = Err e)
       ∧ exec_or_keep (InsertReview who new_id now r) d = d).
Proof.
  split.
  - intros d [_ Hr]%reachable_constraints_hold id r Hid.
    apply valid_rating_range. by apply (Hr id).
  - intros who new_id now r d Hn.
    assert (valid_rating (Review.rating r) = false) as Hv.
    { destruct (valid_rating (Review.rating r)) eqn:E; [|done].
      by apply valid_rating_range in E. }
    assert (∃ e, insert_review who new_id now r d = Err e) as [e He].
    { unfold insert_review. rewrite Hv.
      destruct (int4 "rating" (Review.rating r)); simpl; [|eauto].
      destruct (reviews_insert_policy who r); simpl; eauto. }
    split; [eauto|]. unfold exec_or_keep. simpl. by rewrite He.
Qed.

Lemma reviewed_reachable : reachable Example.reviewed.
Proof.
  exists (Example.setup
          ++ [InsertBooking (Some Example.alice) Example.b1 1
                (CreateBookingScreen.insert_payload 10
                   (Example.alice_form (Some Example.m_carol)));
              InsertBooking (Some Example.bob) Example.b2 2 Example.bob_payload;
              InsertReview (Some Example.alice) Example.r1 3
                (Example.a_review Example.b1 Example.alice Example.m_carol 5);
              InsertReview (Some Example.alice) Example.r2 4
                (Example.a_review Example.b1 Example.alice Example.m_carol 1)])%list.
  vm_compute. reflexivity.
Qed.

Lemma review_rating_range_witness :
  (∀ r, reviews Example.reviewed !! Example.r1 = Some r →
        1 ≤ Review.rating r ≤ 5)
  ∧ insert_review (Some Example.alice) Example.r3 5
      (Example.a_review Example.b1 Example.alice Example.m_carol 6)
      Example.reviewed
    = Err (CheckViolation "valid_rating")
  ∧ exec_or_keep
      (InsertReview (Some Example.alice) Example.r3 5
         (Example.a_review Example.b1 Example.alice Example.m_carol 6))
      Example.reviewed
    = Example.reviewed.
Proof.
  destruct review_rating_range as [Hinv Hrej]. split; [|split].
  - intros r Hr.
    exact (Hinv Example.reviewed reviewed_reachable Example.r1 r Hr).
  - vm_compute. reflexivity.
  - apply (Hrej (Some Example.alice) Example.r3 5
             (Example.a_review Example.b1 Example.alice Example.m_carol 6)
             Example.reviewed).
    simpl. lia.
Defined.

(** C10. The insert policy of reviews looks at nothing but the
    [customer_id] of the new row.  An authenticated principal that puts its
    own identity there inserts the review, given only what the constraints
    of the table ask for (a rating from 1 to 5, a fresh id, existing booking,
    profile and mechanic), and the store then holds the submitted review
    under the new id, next to the reviews it held before; neither the status
    of the booking, nor whose booking it is, nor the reviews the booking
    already has play a part.  An insert whose [customer_id] is not the
    authenticated principal is refused with the policy violation, and so is
    every insert without a session. *)
Theorem review_insert_permission :
  (∀ (who : principal) (r : Review.row),
     reviews_insert_policy who r = true ↔ who = Some (Review.customer_id r))
  ∧ (∀ (d : db) (P new_id : uuid) (now : timestamptz) (r : Review.row),
       Review.customer_id r = P →
       1 ≤ Review.rating r ≤ 5 →
       reviews d !! new_id = None →
       is_Some (bookings d !! Review.booking_id r) →
       is_Some (profiles d !! P) →
       is_Some (mechanics d !! Review.mechanic_id r) →
       ∃ d', insert_review (Some P) new_id now r d = Ok d'
             ∧ reviews d' !! new_id = Some (stored_review now r)
             ∧ Review.booking_id (stored_review now r) = Review.booking_id r
             ∧ Review.customer_id (stored_review now r) = P
             ∧ Review.mechanic_id (stored_review now r) = Review.mechanic_id r
             ∧ Review.rating (stored_review now r) = Review.rating r
             ∧ (∀ k, k ≠ new_id → reviews d' !! k = reviews d !! k)
             ∧ bookings d' = bookings d ∧ profiles d' = profiles d
             ∧ mechanics d' = mechanics d ∧ services d' = services d)
  ∧ (∀ (d : db) (who : principal) (new_id : uuid) (now : timestamptz)
       (r : Review.row),
       who ≠ Some (Review.customer_id r) →
       - 2 ^ 31 ≤ Review.rating r < 2 ^ 31 →
       insert_review who new_id now r d = Err (RlsViolation "reviews")
       ∧ exec_or_keep (InsertReview who new_id now r) d = d).
Proof.
  assert (∀ (who : principal) (r : Review.row),
            reviews_insert_policy who r = true
            ↔ who = Some (Review.customer_id r)) as Hpol.
  { intros [u|] r; simpl; [|done].
    rewrite bool_decide_eq_true. split; [by intros <-|by intros [= ->]]. }
  split; [exact Hpol|]. split.
  - intros d P new_id now r <- Hr Hnew Hb Hp Hm.
    assert (int4 "rating" (Review.rating r) = Ok (Review.rating r)) as Hint
      by (apply int4_Ok; split; [done|lia]).
    apply valid_rating_range in Hr.
    eexists. unfold insert_review, reviews_insert_policy.
    rewrite Hint. cbn [mbind result_bind].
    rewrite bool_decide_eq_true_2 by done. rewrite Hr.
    rewrite bool_decide_eq_true_2 by done.
    apply references_true in Hb, Hp, Hm. rewrite Hb, Hp, Hm. simpl.
    split; [reflexivity|]. cbn [reviews with_reviews]. split.
    + by rewrite lookup_insert_eq.
    + repeat split; try done. intros k Hk. by rewrite lookup_insert_ne.
  - intros d who new_id now r Hw Hr.
    assert (insert_review who new_id now r d = Err (RlsViolation "reviews"))
      as He.
    { unfold insert_review.
      assert (int4 "rating" (Review.rating r) = Ok (Review.rating r)) as ->
        by (by apply int4_Ok).
      cbn [mbind result_bind].
      destruct (reviews_insert_policy who r) eqn:E; [|done].
      by apply Hpol in E. }
    split; [exact He|]. unfold exec_or_keep. simpl. by rewrite He.
Qed.

Lemma review_insert_permission_witness :
  (* the booking is pending, it is Bob's, and it is Alice who reviews it,
     after two reviews of hers on another booking; the same review under
     Bob's session is refused *)
  (Booking.status <$> bookings Example.reviewed !! Example.b2) = Some "pending"
  ∧ (Booking.customer_id <$> bookings Example.reviewed !! Example.b2)
    = Some Example.bob
  ∧ size (reviews Example.reviewed) = 2%nat
  ∧ (∃ d', insert_review (Some Example.alice) Example.r3 5
             (Example.a_review Example.b2 Example.alice Example.m_dave 3)
             Example.reviewed = Ok d'
           ∧ reviews d' !! Example.r3
             = Some {| Review.booking_id := Example.b2;
                       Review.customer_id := Example.alice;
                       Review.mechanic_id := Example.m_dave;
                       Review.rating := 3;
                       Review.comment := Some "";
                       Review.created_at := Some 5 |})
  ∧ insert_review (Some Example.bob) Example.r3 5
      (Example.a_review Example.b2 Example.alice Example.m_dave 3)
      Example.reviewed
    = Err (RlsViolation "reviews").
Proof.
  split; [vm_compute; reflexivity|].
  split; [vm_compute; reflexivity|].
  split; [vm_compute; reflexivity|].
  destruct review_insert_permission as (_ & Hyes & Hno). split.
  - destruct (Hyes Example.reviewed Example.alice Example.r3 5
                (Example.a_review Example.b2 Example.alice Example.m_dave 3))
      as (d' & Hd' & Hin & _).
    + reflexivity.
    + simpl. lia.
    + vm_compute. reflexivity.
    + vm_compute. eauto.
    + vm_compute. eauto.
    + vm_compute. eauto.
    + exists d'. split; [exact Hd' | exact Hin].
  - apply (Hno Example.reviewed (Some Example.bob) Example.r3 5
             (Example.a_review Example.b2 Example.alice Example.m_dave 3)).
    + intros H. discriminate H.
    + simpl. lia.
Defined.

(** ** Accepting a booking *)

Lemma accept_booking_Accepted (who : principal) (m id : uuid) (d d1 : db) :
  accept_booking who m id d = Accepted d1 →
  ∃ b, bookings d !! id = Some b
       ∧ Booking.status b = "pending" ∧ Booking.mechanic_id b = None
       ∧ d1 = with_bookings
                (<[id := Booking.set_status "accepted"
                           (Booking.set_mechanic_id (Some m) b)]> (bookings d)) d.
Proof.
  unfold accept_booking. intros H.
  destruct (update_booking _ _ _ _ _) as [[d' n]|e] eqn:U; [|done].
  destruct n as [|n]; [done|]. simplify_eq.
  apply update_booking_Ok in U
    as [([=] & _) | (_ & old & Hold & _ & Hc & _ & _ & ->)].
  apply andb_true_iff in Hc as [Hs%bool_decide_eq_true Hm%bool_decide_eq_true].
  by exists old.
Qed.

Lemma accept_booking_after_accept (who : principal) (m id : uuid) (d : db)
    (b : Booking.row) :
  bookings d !! id = Some b → Booking.status b = "accepted" →
  accept_booking who m id d = Conflict.
Proof.
  intros Hb Hs. unfold accept_booking, update_booking. rewrite Hb, Hs.
  by rewrite andb_false_r.
Qed.

(** C5. Of two accept attempts on the same booking at most one succeeds,
    whichever of the two the store applies first: the attempt is one update
    that sets [mechanic_id] and [status] only on a row that is still pending
    and without a mechanic, so the one that comes second finds no such row,
    reports [Conflict] and changes nothing, and the booking keeps the
    mechanic of the first. *)
Theorem accept_race_at_most_one (d : db) (id : uuid)
    (first second : principal * uuid) :
  let '(r1, r2) := accept_then first second id d in
  (is_accepted r1 && is_accepted r2 = false)
  ∧ ∀ d1, r1 = Accepted d1 →
      r2 = Conflict
      ∧ ∃ b, bookings d !! id = Some b
             ∧ Booking.status b = "pending" ∧ Booking.mechanic_id b = None
             ∧ bookings d1 !! id
               = Some (Booking.set_status "accepted"
                         (Booking.set_mechanic_id (Some first.2) b)).
Proof.
  unfold accept_then.
  destruct (accept_booking first.1 first.2 id d) as [d1| |e] eqn:E1;
    cbn [is_accepted andb]; (split; [|intros d1' [=]]); try done.
  - apply accept_booking_Accepted in E1 as (b & Hb & Hs & Hm & ->).
    erewrite accept_booking_after_accept; [done| |];
      [apply lookup_insert_eq | done].
  - subst d1'.
    apply accept_booking_Accepted in E1 as (b & Hb & Hs & Hm & ->).
    split.
    + eapply accept_booking_after_accept; [apply lookup_insert_eq | done].
    + exists b. repeat split; try done. apply lookup_insert_eq.
Qed.

Lemma accept_race_at_most_one_witness :
  ∃ d1, accept_then (Some Example.bob, Example.m_carol) (Some Example.bob, Example.m_dave) Example.b2
          Example.booked2 = (Accepted d1, Conflict)
        ∧ (Booking.mechanic_id <$> bookings d1 !! Example.b2) = Some (Some Example.m_carol).
Proof.
  pose proof (accept_race_at_most_one Example.booked2 Example.b2
                (Some Example.bob, Example.m_carol) (Some Example.bob, Example.m_dave)) as H.
  destruct (accept_then (Some Example.bob, Example.m_carol) (Some Example.bob, Example.m_dave) Example.b2
              Example.booked2) as [r1 r2] eqn:E.
  destruct H as [_ H].
  destruct r1 as [d1| |e];
    [|vm_compute in E; discriminate E|vm_compute in E; discriminate E].
  destruct (H d1 eq_refl) as (-> & b & _ & _ & _ & Hb).
  exists d1. split; [reflexivity|]. rewrite Hb. reflexivity.
Defined.

(** ** Later changes of the catalog *)

Lemma run_price_changes_bookings (changes : list (uuid * numeric)) (d : db) :
  bookings (run (map (λ c, UpdateServiceBasePrice c.1 c.2) changes) d)
  = bookings d.
Proof.
  revert d. induction changes as [|c changes IH]; intros d; [done|].
  simpl. by rewrite IH.
Qed.

(** C6. Once [handleSubmit] has created a booking, changes of [base_price]
    in the catalog, of the service it references or of any other, leave the
    row of the booking, its [total_price] included, and the whole ledger as
    they are, while the catalog itself shows the new price. *)
Theorem price_change_keeps_booking
    (who : principal) (new_id : uuid) (clock now : timestamptz)
    (st : CreateBookingScreen.state) (d d1 : db)
    (changes : list (uuid * numeric)) :
  CreateBookingScreen.handleSubmit who new_id clock now st d
  = CreateBookingScreen.Navigated d1 →
  let d2 := run (map (λ c, UpdateServiceBasePrice c.1 c.2) changes) d1 in
  (∃ b, bookings d1 !! new_id = Some b ∧ bookings d2 !! new_id = Some b
        ∧ CreateBookingScreen.serviceId st ≫= uuid_in
          = Some (Booking.service_id b))
  ∧ bookings d2 = bookings d1
  ∧ ∀ S p, Service.base_price
             <$> services (update_service_base_price S p d1) !! S
           = (λ _, p) <$> services d1 !! S.
Proof.
  intros H d2. subst d2. rewrite run_price_changes_bookings.
  apply handleSubmit_stored in H as (b & -> & _ & _ & _ & _ & Hs & _).
  split; [|split].
  - exists b. cbn [bookings with_bookings]. by rewrite lookup_insert_eq.
  - done.
  - intros S p. unfold update_service_base_price.
    cbn [services with_services with_bookings]. rewrite lookup_alter_eq.
    by destruct (services d !! S).
Qed.

Lemma price_change_keeps_booking_witness :
  let d2 := run [UpdateServiceBasePrice Example.s1 (5999 # 100)] Example.booked in
  (Service.base_price <$> services d2 !! Example.s1) = Some (5999 # 100)
  ∧ ∃ b, bookings d2 !! Example.b1 = Some b ∧ Booking.service_id b = Example.s1
         ∧ Booking.total_price b = 4999 # 100.
Proof.
  destruct (price_change_keeps_booking (Some Example.alice) Example.b1 10 1
              (Example.alice_form (Some Example.m_carol)) Example.world Example.booked
              [(Example.s1, 5999 # 100)])
    as ((b & Hb1 & Hb2 & Hs) & _ & _).
  - vm_compute. reflexivity.
  - split; [vm_compute; reflexivity|].
    exists b. split; [exact Hb2|].
    revert Hb1. vm_compute. intros [= <-]. split; reflexivity.
Defined.

(** ** Deleting a mechanic, deleting a profile *)


Lemma delete_profile_Some (p : uuid) (d : db) :
  is_Some (profiles d !! p) →
  profiles (delete_profile p d) = delete p (profiles d)
  ∧ mechanics (delete_profile p d)
    = filter (λ kv, kv.1 ∉ dom (mechanics_of d p)) (mechanics d)
  ∧ bookings (delete_profile p d)
    = filter (λ kv, Booking.customer_id kv.2 ≠ p)
        (null_mechanic_id (dom (mechanics_of d p)) <$> bookings d)
  ∧ ∀ k r, reviews (delete_profile p d) !! k = Some r →
           reviews d !! k = Some r ∧ Review.customer_id r ≠ p.
Proof.
  intros [x Hx]. unfold delete_profile. rewrite Hx.
  change (mechanics_of (with_profiles (delete p (profiles d)) d) p)
    with (mechanics_of d p).
  split; [done|]. split; [done|]. split.
  - cbn [bookings delete_reviews delete_bookings delete_mechanics
         with_reviews with_bookings with_mechanics with_profiles].
    apply map_filter_ext. intros k b Hb. cbn [fst snd].
    rewrite not_elem_of_dom, map_lookup_filter_None. cbn [snd].
    split.
    + intros [Hn|Hn] Hc; [congruence|]. by apply (Hn b).
    + intros Hc. right. intros b' Hb' Hc'. rewrite Hb in Hb'. by simplify_eq.
  - intros k r.
    cbn [reviews delete_reviews delete_bookings delete_mechanics
         with_reviews with_bookings with_mechanics with_profiles].
    intros [Hr Hn]%map_lookup_filter_Some. cbn [fst] in Hn. split.
    + apply map_lookup_filter_Some in Hr as [Hr _].
      by apply map_lookup_filter_Some in Hr as [Hr _].
    + intros Hc. apply Hn, elem_of_dom. exists r.
      by apply map_lookup_filter_Some.
Qed.

Lemma delete_mechanic_Some (m : uuid) (d : db) :
  is_Some (mechanics d !! m) →
  mechanics (delete_mechanic m d) = delete m (mechanics d)
  ∧ bookings (delete_mechanic m d) = null_mechanic_id {[ m ]} <$> bookings d
  ∧ profiles (delete_mechanic m d) = profiles d
  ∧ services (delete_mechanic m d) = services d.
Proof.
  intros [x Hx]. unfold delete_mechanic. rewrite Hx.
  repeat split; try done.
  cbn [mechanics delete_reviews delete_mechanics with_reviews with_bookings
       with_mechanics].
  apply map_eq. intros k.
  destruct (decide (k = m)) as [->|Hk].
  - rewrite lookup_delete_eq. apply map_lookup_filter_None. right.
    intros ? _. cbn [fst]. set_solver.
  - rewrite lookup_delete_ne by done.
    destruct (mechanics d !! k) as [y|] eqn:Hy.
    + apply map_lookup_filter_Some. split; [done|]. cbn [fst]. set_solver.
    + apply map_lookup_filter_None. by left.
Qed.




(** ** Who may change a booking *)

Lemma bookings_update_using_true (d : db) (u : uuid) (b : Booking.row) :
  bookings_update_using d (Some u) b = true ↔
  Booking.customer_id b = u ∨ mechanic_id_owned d u (Booking.mechanic_id b) = true.
Proof.
  unfold bookings_update_using, customers_can_update_own_bookings,
    mechanics_can_update_assigned_bookings.
  by rewrite orb_true_iff, bool_decide_eq_true.
Qed.

(** An update that passes the policy before and after, and that leaves the
    keys and the status domain alone, changes the row. *)
Lemma update_booking_permitted (d : db) (u id : uuid) (b : Booking.row)
    (set : Booking.row → Booking.row) :
  bookings d !! id = Some b →
  bookings_update_using d (Some u) b = true →
  Booking.customer_id (set b) = Booking.customer_id b →
  Booking.mechanic_id (set b) = Booking.mechanic_id b →
  Booking.service_id (set b) = Booking.service_id b →
  valid_status (Booking.status (set b)) = true →
  Booking.vehicle_year (set b) = Booking.vehicle_year b
  ∨ - 2 ^ 31 ≤ Booking.vehicle_year (set b) < 2 ^ 31 →
  ∃ d', update_booking (Some u) id (λ _, true) set d = Ok (d', 1%nat)
        ∧ bookings d' !! id = Some (set b).
Proof.
  intros Hb Hu Hc Hm Hs Hst Hy.
  assert (bool_decide (Booking.vehicle_year (set b) = Booking.vehicle_year b)
          || in_int4 (Booking.vehicle_year (set b)) = true) as Hyear.
  { apply orb_true_iff. rewrite bool_decide_eq_true, in_int4_true. exact Hy. }
  assert (bookings_update_check d (Some u) (set b) = true) as Hk.
  { unfold bookings_update_check, customers_can_update_own_bookings,
      mechanics_can_update_assigned_bookings.
    rewrite Hc, Hm. exact Hu. }
  eexists. unfold update_booking. rewrite Hb, Hu. cbn [andb]. cbv zeta.
  rewrite Hyear, Hk, Hst, Hc, Hm, Hs.
  rewrite !bool_decide_eq_true_2 by done. simpl.
  split; [reflexivity|]. apply lookup_insert_eq.
Qed.

(** With Carol assigned to her booking, Alice still passes the update policy
    on it; and Carol changes its price, a column that is not the status. *)
Lemma customer_updates_after_assignment :
  ¬ spec_customer_updates_only_unassigned
  ∧ ¬ spec_mechanic_updates_only_status.
Proof.
  assert (bookings Example.booked !! Example.b1 = Some Example.alice_booking) as Hb
    by (vm_compute; reflexivity).
  split; intros H.
  - specialize (H Example.booked Example.alice Example.b1 Example.alice_booking Hb).
    discriminate H; [reflexivity | vm_compute; reflexivity].
  - destruct (update_booking_permitted Example.booked Example.carol Example.b1
                Example.alice_booking (Booking.set_total_price (1 # 1)) Hb)
      as (d' & Hd' & Hnew); try (vm_compute; reflexivity);
      [left; reflexivity|].
    assert (mechanics_can_update_assigned_bookings Example.booked Example.carol
              Example.alice_booking = true) as Hm
      by (vm_compute; reflexivity).
    pose proof (H Example.booked d' Example.carol Example.b1 Example.alice_booking
                  (Booking.set_total_price (1 # 1)) Hb Hm Hd') as Hx.
    rewrite Hnew in Hx. apply (inj Some) in Hx.
    apply (f_equal Booking.total_price) in Hx. discriminate Hx.
Qed.

(** C8 (amended). A booking is mutable by its customer, whether a mechanic
    is assigned or not, and by the user of the assigned mechanic, and by
    nobody else.  Of an update that, where it changes [vehicle_year], sets it
    to a number that fits the [integer] column: for either of the two it
    goes through when it leaves [customer_id], [mechanic_id] and
    [service_id] as they are and keeps the status among the five values,
    whatever other columns it changes and whatever values it gives them; for
    anybody else it affects no row. *)
Theorem booking_update_permission (d : db) (u id : uuid) (b : Booking.row)
    (set : Booking.row → Booking.row) :
  bookings d !! id = Some b →
  Booking.vehicle_year (set b) = Booking.vehicle_year b
  ∨ - 2 ^ 31 ≤ Booking.vehicle_year (set b) < 2 ^ 31 →
  (Booking.customer_id b = u
   ∨ mechanic_id_owned d u (Booking.mechanic_id b) = true →
   Booking.customer_id (set b) = Booking.customer_id b →
   Booking.mechanic_id (set b) = Booking.mechanic_id b →
   Booking.service_id (set b) = Booking.service_id b →
   Booking.status (set b) ∈ status_domain →
   ∃ d', update_booking (Some u) id (λ _, true) set d = Ok (d', 1%nat)
         ∧ bookings d' !! id = Some (set b))
  ∧ (Booking.customer_id b ≠ u →
     mechanic_id_owned d u (Booking.mechanic_id b) = false →
     update_booking (Some u) id (λ _, true) set d = Ok (d, 0%nat)).
Proof.
  intros Hb Hy. split.
  - intros Hown%bookings_update_using_true Hc Hm Hs Hst%valid_status_domain.
    by apply update_booking_permitted.
  - intros Hc Hm. unfold update_booking. rewrite Hb.
    destruct (bookings_update_using d (Some u) b) eqn:Hu; [|done].
    apply bookings_update_using_true in Hu as [Hu|Hu]; congruence.
Qed.

Lemma booking_update_permission_witness :
  (∃ d', update_booking (Some Example.alice) Example.b1 (λ _, true)
           (Booking.set_notes (Some "ring the bell")) Example.booked
         = Ok (d', 1%nat)
         ∧ (Booking.notes <$> bookings d' !! Example.b1)
           = Some (Some "ring the bell"))
  ∧ (∃ d', update_booking (Some Example.carol) Example.b1 (λ _, true)
             (Booking.set_total_price (1 # 1)) Example.booked
           = Ok (d', 1%nat)
           ∧ (Booking.total_price <$> bookings d' !! Example.b1) = Some (1 # 1))
  ∧ update_booking (Some Example.bob) Example.b1 (λ _, true)
      (Booking.set_notes (Some "mine")) Example.booked
    = Ok (Example.booked, 0%nat).
Proof.
  assert (bookings Example.booked !! Example.b1 = Some Example.alice_booking)
    as Hb by (vm_compute; reflexivity).
  split; [|split].
  - destruct (proj1 (booking_update_permission Example.booked Example.alice
                       Example.b1 Example.alice_booking
                       (Booking.set_notes (Some "ring the bell")) Hb
                       (or_introl eq_refl)))
      as (d' & Hd' & Hnew); try reflexivity.
    + left. reflexivity.
    + apply valid_status_domain. vm_compute. reflexivity.
    + exists d'. split; [exact Hd'|]. rewrite Hnew. reflexivity.
  - destruct (proj1 (booking_update_permission Example.booked Example.carol
                       Example.b1 Example.alice_booking
                       (Booking.set_total_price (1 # 1)) Hb
                       (or_introl eq_refl)))
      as (d' & Hd' & Hnew); try reflexivity.
    + right. vm_compute. reflexivity.
    + apply valid_status_domain. vm_compute. reflexivity.
    + exists d'. split; [exact Hd'|]. rewrite Hnew. reflexivity.
  - apply (booking_update_permission Example.booked Example.bob Example.b1
             Example.alice_booking (Booking.set_notes (Some "mine")) Hb
             (or_introl eq_refl)).
    + intros H. discriminate H.
    + vm_compute. reflexivity.
Defined.

(** * Further properties *)

(** ** Referential integrity and the catalog constraints *)

Lemma insert_services_services (ids : list uuid) (rows : list Service.row)
    (d d' : db) :
  insert_services ids rows d = Ok d' →
  auth_users d' = auth_users d ∧ profiles d' = profiles d
  ∧ mechanics d' = mechanics d
  ∧ (∀ k s, services d !! k = Some s → services d' !! k = Some s)
  ∧ (∀ k s, services d' !! k = Some s →
            services d !! k = Some s
            ∨ (k ∈ ids ∧ s ∈ rows ∧ valid_category (Service.category s) = true)).
Proof.
  revert rows d. induction ids as [|id ids IH]; intros rows d E.
  - simpl in E. simplify_eq. repeat split; try done. intros; by left.
  - destruct rows as [|s rows]; simpl in E.
    { simplify_eq. repeat split; try done. intros; by left. }
    apply bind_Ok in E as (d1 & E1 & E).
    apply IH in E as (-> & -> & -> & Hkeep & Hnew).
    unfold insert_service in E1. apply bind_Ok in E1 as (z & _ & E1).
    apply bind_Ok in E1 as ([] & Hc & E1). apply guard_or_Ok in Hc.
    destruct (services d !! id) as [s0|] eqn:Hid; simplify_eq.
    + repeat split; try done.
      intros k s' Hk. destruct (Hnew k s' Hk) as [?|(? & ? & ?)]; [by left|].
      right. repeat split; [by apply list_elem_of_further | by apply list_elem_of_further | done].
    + repeat split; try done.
      * intros k s' Hk. apply Hkeep. cbn [services with_services].
        rewrite lookup_insert_ne; [done|]. intros ->. congruence.
      * intros k s' Hk. destruct (Hnew k s' Hk) as [Hold|(? & ? & ?)].
        -- cbn [services with_services] in Hold.
           apply lookup_insert_Some in Hold as [[<- <-]|[? ?]].
           ++ right. repeat split; [apply list_elem_of_here | apply list_elem_of_here | done].
           ++ by left.
        -- right. repeat split; [by apply list_elem_of_further | by apply list_elem_of_further | done].
Qed.

Lemma delete_profile_reviews (p : uuid) (d : db) :
  is_Some (profiles d !! p) →
  ∀ k r, reviews (delete_profile p d) !! k = Some r →
         reviews d !! k = Some r
         ∧ Review.customer_id r ≠ p
         ∧ mechanics_of d p !! Review.mechanic_id r = None
         ∧ (∀ b, bookings d !! Review.booking_id r = Some b →
                 Booking.customer_id b ≠ p).
Proof.
  intros [x Hx] k r. unfold delete_profile. rewrite Hx.
  change (mechanics_of (with_profiles (delete p (profiles d)) d) p)
    with (mechanics_of d p).
  cbn [reviews bookings delete_reviews delete_bookings delete_mechanics
       with_reviews with_bookings with_mechanics with_profiles].
  intros [Hr Hc]%map_lookup_filter_Some. cbn [fst] in Hc.
  assert (Review.customer_id r ≠ p) as Hcust.
  { intros Heq. apply Hc, elem_of_dom. exists r.
    by apply map_lookup_filter_Some. }
  apply map_lookup_filter_Some in Hr as [Hr Hb]. cbn [fst] in Hb.
  assert (Review.booking_id r
          ∉ dom (filter (λ kv : uuid * Booking.row, Booking.customer_id kv.2 = p)
                   (null_mechanic_id (dom (mechanics_of d p)) <$> bookings d)))
    as Hbook.
  { intros Hin. apply Hb, elem_of_dom. exists r.
    by apply map_lookup_filter_Some. }
  apply map_lookup_filter_Some in Hr as [Hr Hm]. cbn [fst] in Hm.
  repeat split; try done.
  - apply not_elem_of_dom. intros Hin. apply Hm, elem_of_dom. exists r.
    by apply map_lookup_filter_Some.
  - intros b Hbk Heq. apply Hbook, elem_of_dom.
    exists (null_mechanic_id (dom (mechanics_of d p)) b).
    apply map_lookup_filter_Some. rewrite lookup_fmap, Hbk. split; [done|].
    cbn [snd]. unfold null_mechanic_id.
    destruct (Booking.mechanic_id b); [|done]. by case_bool_decide.
Qed.

Lemma null_mechanic_id_fields (dead : gset uuid) (b : Booking.row) :
  Booking.customer_id (null_mechanic_id dead b) = Booking.customer_id b
  ∧ Booking.service_id (null_mechanic_id dead b) = Booking.service_id b
  ∧ (∀ m, Booking.mechanic_id (null_mechanic_id dead b) = Some m →
          Booking.mechanic_id b = Some m ∧ m ∉ dead).
Proof.
  unfold null_mechanic_id. destruct (Booking.mechanic_id b) as [m'|] eqn:E.
  - case_bool_decide as Hin.
    + split; [done|]. split; [done|]. intros m0 Hm0. done.
    + split; [done|]. split; [done|]. intros m0 Hm0.
      rewrite E in Hm0. by simplify_eq.
  - split; [done|]. split; [done|]. intros m0 Hm0. by rewrite E in Hm0.
Qed.

Lemma delete_mechanic_reviews (m : uuid) (d : db) :
  is_Some (mechanics d !! m) →
  ∀ k r, reviews (delete_mechanic m d) !! k = Some r
         ↔ reviews d !! k = Some r ∧ Review.mechanic_id r ≠ m.
Proof.
  intros [x Hx] k r. unfold delete_mechanic. rewrite Hx.
  cbn [reviews delete_reviews delete_mechanics with_reviews with_bookings
       with_mechanics].
  rewrite map_lookup_filter_Some. cbn [fst]. rewrite not_elem_of_dom.
  rewrite map_lookup_filter_None. cbn [snd]. split.
  - intros [Hr [Hn|Hn]]; [congruence|]. split; [done|].
    intros Heq. apply (Hn r Hr). set_solver.
  - intros [Hr Hne]. split; [done|]. right. intros r' Hr'. set_solver.
Qed.

Lemma is_Some_insert_mono {A} (t : gmap uuid A) (k k' : uuid) (v : A) :
  is_Some (t !! k') → is_Some (<[k:=v]> t !! k').
Proof.
  intros Hk. rewrite lookup_insert_is_Some. destruct (decide (k = k')); auto.
Qed.

Lemma exec_referential_integrity (s : statement) (d d' : db) :
  referential_integrity d → exec s d = Ok d' → referential_integrity d'.
Proof.
  intros (Hp & Hm & Hb & Hr) E. destruct s; simpl in E.
  - (* a new user of the identity provider *)
    simplify_eq. repeat split; try done.
    + intros k p Hk. cbn. apply elem_of_union_r. by apply (Hp k p).
    + by apply (Hb k b).
    + by apply (Hb k b).
    + by apply (Hb k b).
    + by apply (Hr k r).
    + by apply (Hr k r).
    + by apply (Hr k r).
  - (* INSERT INTO profiles *)
    unfold insert_profile in E. peel E. simplify_eq.
    apply bool_decide_eq_true in Hg2.
    repeat split; cbn [profiles mechanics bookings reviews services auth_users
                       with_profiles] in *.
    + intros k p' [[<- <-]|[? Hk]]%lookup_insert_Some; [done|by apply (Hp k p')].
    + intros k m Hk. by apply is_Some_insert_mono, (Hm k m).
    + by apply is_Some_insert_mono, (Hb k b).
    + by apply (Hb k b).
    + by apply (Hb k b).
    + by apply (Hr k r).
    + by apply is_Some_insert_mono, (Hr k r).
    + by apply (Hr k r).
  - (* UPDATE profiles *)
    destruct (update_profile who id set d) as [[d1 n]|e] eqn:U;
      simpl in E; [|done]. simplify_eq.
    apply update_profile_Ok in U as [(_ & ->) | (_ & old & Hold & _ & ->)];
      [done|].
    repeat split; cbn [profiles mechanics bookings reviews services auth_users
                       with_profiles] in *.
    + intros k p' [[<- <-]|[? Hk]]%lookup_insert_Some;
        [by apply (Hp id old) | by apply (Hp k p')].
    + intros k m Hk. by apply is_Some_insert_mono, (Hm k m).
    + by apply is_Some_insert_mono, (Hb k b).
    + by apply (Hb k b).
    + by apply (Hb k b).
    + by apply (Hr k r).
    + by apply is_Some_insert_mono, (Hr k r).
    + by apply (Hr k r).
  - (* INSERT INTO mechanics *)
    unfold insert_mechanic in E. peel E. simplify_eq.
    repeat match goal with
    | H : references _ _ = true |- _ => apply references_true in H
    end.
    repeat split; cbn [profiles mechanics bookings reviews services auth_users
                       with_mechanics] in *.
    + done.
    + intros k m' [[<- <-]|[? Hk]]%lookup_insert_Some; [done|by apply (Hm k m')].
    + by apply (Hb k b).
    + intros m' Hm'. by apply is_Some_insert_mono, (Hb k b).
    + by apply (Hb k b).
    + by apply (Hr k r).
    + by apply (Hr k r).
    + by apply is_Some_insert_mono, (Hr k r).
  - (* UPDATE mechanics *)
    destruct (update_mechanic who id set d) as [[d1 n]|e] eqn:U;
      simpl in E; [|done]. simplify_eq.
    apply update_mechanic_Ok in U
      as [(_ & ->) | (_ & old & Hold & _ & _ & Hfk & ->)]; [done|].
    repeat split; cbn [profiles mechanics bookings reviews services auth_users
                       with_mechanics] in *.
    + done.
    + intros k m' [[<- <-]|[? Hk]]%lookup_insert_Some; [|by apply (Hm k m')].
      destruct Hfk as [-> | ?]; [by apply (Hm id old) | done].
    + by apply (Hb k b).
    + intros m' Hm'. by apply is_Some_insert_mono, (Hb k b).
    + by apply (Hb k b).
    + by apply (Hr k r).
    + by apply (Hr k r).
    + by apply is_Some_insert_mono, (Hr k r).
  - (* INSERT INTO services *)
    apply insert_services_frame in E as Ef. destruct Ef as [Eb Er].
    apply insert_services_services in E as (Ea & Ep & Em & Hkeep & _).
    repeat split; rewrite ?Ea, ?Ep, ?Em, ?Eb, ?Er in *.
    + done.
    + done.
    + by apply (Hb k b).
    + by apply (Hb k b).
    + destruct (Hb k b) as (_ & _ & [s Hs]); [done|]. exists s. by apply Hkeep.
    + by apply (Hr k r).
    + by apply (Hr k r).
    + by apply (Hr k r).
  - (* UPDATE services SET base_price *)
    simplify_eq. repeat split; try done;
      cbn [profiles mechanics bookings reviews services auth_users
           update_service_base_price with_services].
    + by apply (Hb k b).
    + by apply (Hb k b).
    + destruct (Hb k b) as (_ & _ & [s Hs]); [done|].
      destruct (decide (id = Booking.service_id b)) as [->|Hne].
      * rewrite lookup_alter_eq, Hs. by eexists.
      * rewrite lookup_alter_ne by done. by eexists.
    + by apply (Hr k r).
    + by apply (Hr k r).
    + by apply (Hr k r).
  - (* INSERT INTO bookings *)
    apply insert_booking_Ok in E
      as (b0 & -> & _ & _ & _ & Hpc & Hpm & Hps & _).
    repeat split; cbn [profiles mechanics bookings reviews services auth_users
                       with_bookings] in *; try done.
    + apply lookup_insert_Some in H as [[<- <-]|[? Hk]]; [done|by apply (Hb k b)].
    + apply lookup_insert_Some in H as [[<- <-]|[? Hk]].
      * intros m Hm'. rewrite Hm' in Hpm. by apply references_true in Hpm.
      * by apply (Hb k b).
    + apply lookup_insert_Some in H as [[<- <-]|[? Hk]]; [done|by apply (Hb k b)].
    + by apply is_Some_insert_mono, (Hr k r).
    + by apply (Hr k r).
    + by apply (Hr k r).
  - (* UPDATE bookings *)
    destruct (update_booking who id cond set d) as [[d1 n]|e] eqn:U;
      simpl in E; [|done]. simplify_eq.
    unfold update_booking in U.
    destruct (bookings d !! id) as [old|] eqn:Hold; [|by simplify_eq].
    destruct (bookings_update_using d who old && cond old); [|by simplify_eq].
    cbv zeta in U. peel U. simplify_eq.
    destruct (Hb id old Hold) as (Hoc & Hom & Hos).
    split; [done|]. split; [done|]. split.
    + cbn [profiles mechanics bookings reviews services with_bookings].
      intros k b [[<- <-]|[? Hk]]%lookup_insert_Some; [|by apply (Hb k b)].
      split; [|split].
      * apply orb_true_iff in Hg2 as [->%bool_decide_eq_true|?%references_true];
          done.
      * intros m0 Hm0.
        apply orb_true_iff in Hg3 as [Heq%bool_decide_eq_true|Href].
        -- apply Hom. congruence.
        -- rewrite Hm0 in Href. by apply references_true in Href.
      * apply orb_true_iff in Hg4 as [->%bool_decide_eq_true|?%references_true];
          done.
    + cbn [profiles mechanics bookings reviews services with_bookings].
      intros k r Hk. destruct (Hr k r Hk) as (? & ? & ?).
      split; [by apply is_Some_insert_mono | done].
  - (* INSERT INTO reviews *)
    unfold insert_review in E. peel E. simplify_eq.
    repeat match goal with
    | H : references _ _ = true |- _ => apply references_true in H
    end.
    split; [done|]. split; [done|]. split; [done|].
    cbn [profiles mechanics bookings reviews services with_reviews].
    intros k r' [[<- <-]|[? Hk]]%lookup_insert_Some; [done|by apply (Hr k r')].
  - (* DELETE FROM mechanics *)
    simplify_eq.
    destruct (mechanics d !! id) as [x|] eqn:Hx;
      [|unfold delete_mechanic; by rewrite Hx].
    pose proof (delete_mechanic_Some id d (mk_is_Some _ _ Hx))
      as (Em & Eb & Ep & Es).
    pose proof (delete_mechanic_reviews id d (mk_is_Some _ _ Hx)) as Er.
    assert (auth_users (delete_mechanic id d) = auth_users d) as Ea
      by (unfold delete_mechanic; by rewrite Hx).
    split; [|split; [|split]].
    + intros k p. rewrite Ep, Ea. apply Hp.
    + intros k m. rewrite Em, Ep.
      intros [? Hk]%lookup_delete_Some. by apply (Hm k m).
    + intros k b. rewrite Eb, Em, Ep, Es.
      intros (b0 & <- & Hk)%lookup_fmap_Some.
      destruct (Hb k b0 Hk) as (Hc & Hmech & Hs).
      destruct (null_mechanic_id_fields {[id]} b0) as (-> & -> & Hnull).
      split; [done|]. split; [|done].
      intros m0 [Hm0 Hne]%Hnull. rewrite lookup_delete_ne by set_solver. auto.
    + intros k r [Hk Hne]%Er. rewrite Eb, Em, Ep.
      destruct (Hr k r Hk) as ([b Hbk] & Hc & Hmech).
      split; [|split; [done|]].
      * rewrite lookup_fmap, Hbk. by eexists.
      * by rewrite lookup_delete_ne.
  - (* DELETE FROM profiles *)
    simplify_eq.
    destruct (profiles d !! id) as [x|] eqn:Hx;
      [|unfold delete_profile; by rewrite Hx].
    pose proof (delete_profile_Some id d (mk_is_Some _ _ Hx))
      as (Ep & Em & Eb & _).
    pose proof (delete_profile_reviews id d (mk_is_Some _ _ Hx)) as Er.
    assert (auth_users (delete_profile id d) = auth_users d
            ∧ services (delete_profile id d) = services d) as [Ea Es]
      by (unfold delete_profile; by rewrite Hx).
    assert (∀ k, mechanics_of d id !! k = None → is_Some (mechanics d !! k) →
                 is_Some (filter (λ kv : uuid * Mechanic.row,
                                    kv.1 ∉ dom (mechanics_of d id))
                            (mechanics d) !! k)) as Hmech_kept.
    { intros k Hn [m Hk]. exists m. apply map_lookup_filter_Some.
      split; [done|]. cbn [fst]. by apply not_elem_of_dom. }
    split; [|split; [|split]].
    + intros k p. rewrite Ep, Ea.
      intros [? Hk]%lookup_delete_Some. by apply (Hp k p).
    + intros k m. rewrite Em, Ep.
      intros [Hk Hn]%map_lookup_filter_Some. cbn [fst] in Hn.
      rewrite lookup_delete_ne; [by apply (Hm k m)|].
      intros ->. apply Hn, elem_of_dom. exists m. by apply mechanics_of_lookup.
    + intros k b. rewrite Eb, Em, Ep, Es.
      intros [(b0 & <- & Hk)%lookup_fmap_Some Hc]%map_lookup_filter_Some.
      cbn [snd] in Hc.
      destruct (Hb k b0 Hk) as (Hcust & Hmech & Hs).
      destruct (null_mechanic_id_fields (dom (mechanics_of d id)) b0)
        as (Ec & -> & Hnull).
      rewrite Ec in Hc |- *.
      split; [by rewrite lookup_delete_ne|]. split; [|done].
      intros m0 [Hm0 Hne]%Hnull. apply Hmech_kept; [|by auto].
      by apply not_elem_of_dom.
    + intros k r (Hk & Hc & Hmo & Hbo)%Er. rewrite Eb, Em, Ep.
      destruct (Hr k r Hk) as ([b Hbk] & Hcust & Hmech).
      split; [|split].
      * exists (null_mechanic_id (dom (mechanics_of d id)) b).
        apply map_lookup_filter_Some. rewrite lookup_fmap, Hbk.
        split; [done|]. cbn [snd].
        destruct (null_mechanic_id_fields (dom (mechanics_of d id)) b)
          as (-> & _). by apply Hbo.
      * by rewrite lookup_delete_ne.
      * by apply Hmech_kept.
Qed.

Lemma reachable_referential_integrity_aux (ss : list statement) (d : db) :
  referential_integrity d → referential_integrity (run ss d).
Proof.
  revert d. induction ss as [|s ss IH]; intros d Hd; [done|].
  simpl. apply IH. unfold exec_or_keep.
  destruct (exec s d) eqn:E; [|done]. by eapply exec_referential_integrity.
Qed.

Lemma referential_integrity_of_reachable (d : db) :
  reachable d → referential_integrity d.
Proof.
  intros [ss ->]. apply reachable_referential_integrity_aux.
  unfold referential_integrity. cbn [empty_db profiles mechanics bookings reviews].
  split_and!; intros k x Hk; by rewrite lookup_empty in Hk.
Qed.

(** X1. In every state the store can reach, by inserts into the five
    tables, updates of profiles, mechanic rows, bookings and prices, and the
    two deletes, every foreign key points at a row: a profile has its user,
    a mechanic row its profile, a booking its customer, its service and,
    unless [mechanic_id] is null, its mechanic, and a review its booking,
    customer and mechanic.  An update cannot point a row at a missing one,
    and the cascades of the two deletes leave no dangling reference. *)
Theorem reachable_referential_integrity (d : db) :
  reachable d → referential_integrity d.
Proof. apply referential_integrity_of_reachable. Qed.

Lemma reachable_delete_profile (p : uuid) (d : db) :
  reachable d → reachable (delete_profile p d).
Proof. apply (reachable_step (DeleteProfile p)). Qed.

Lemma updated_reachable : reachable Example.updated.
Proof.
  apply (reachable_step
           (UpdateProfile (Some Example.alice) Example.alice
              Example.becomes_mechanic)
           (exec_or_keep
              (UpdateMechanic (Some Example.carol) Example.m_carol
                 Example.one_more_job) Example.reviewed)),
        (reachable_step
           (UpdateMechanic (Some Example.carol) Example.m_carol
              Example.one_more_job)),
        reviewed_reachable.
Qed.

Lemma reachable_referential_integrity_witness :
  (* after the two updates, and after Alice's profile is deleted then *)
  (Mechanic.total_jobs <$> mechanics Example.updated !! Example.m_carol)
  = Some (Some 1)
  ∧ referential_integrity Example.updated
  ∧ referential_integrity (delete_profile Example.alice Example.updated).
Proof.
  split; [vm_compute; reflexivity|]. split.
  - apply reachable_referential_integrity, updated_reachable.
  - apply reachable_referential_integrity, reachable_delete_profile,
      updated_reachable.
Defined.

Lemma exec_catalog_constraints_hold (s : statement) (d d' : db) :
  catalog_constraints_hold d → exec s d = Ok d' → catalog_constraints_hold d'.
Proof.
  intros [Hp Hs] E. destruct s; simpl in E.
  - by simplify_eq.
  - unfold insert_profile in E. peel E. simplify_eq. split; [|done].
    cbn [profiles with_profiles]. by apply map_Forall_insert_2.
  - destruct (update_profile who id set d) as [[d1 n]|e] eqn:U;
      simpl in E; [|done]. simplify_eq.
    apply update_profile_Ok in U as [(_ & ->) | (_ & old & _ & Hv & ->)];
      [done|].
    split; [|done]. cbn [profiles with_profiles]. by apply map_Forall_insert_2.
  - unfold insert_mechanic in E. peel E. by simplify_eq.
  - destruct (update_mechanic who id set d) as [[d1 n]|e] eqn:U;
      simpl in E; [|done]. simplify_eq.
    by apply update_mechanic_Ok in U
      as [(_ & ->) | (_ & old & _ & _ & _ & _ & ->)].
  - apply insert_services_services in E as (_ & Ep & _ & _ & Hnew).
    split; [by rewrite Ep|]. intros k s Hk.
    destruct (Hnew k s Hk) as [Hold|(_ & _ & Hv)]; [by apply (Hs k)|done].
  - simplify_eq. split; [done|].
    cbn [services update_service_base_price with_services].
    intros k s Hk. apply lookup_alter_Some in Hk as [(-> & s0 & Hk & ->)|[_ Hk]].
    + by apply (Hs k s0).
    + by apply (Hs k s).
  - apply insert_booking_Ok in E as (b & -> & _). done.
  - destruct (update_booking who id cond set d) as [[d1 n]|e] eqn:U;
      simpl in E; [|done]. simplify_eq.
    by apply update_booking_Ok in U as [(_ & -> & _) | (_ & old & _ & _ & _ & _ & _ & ->)].
  - unfold insert_review in E. peel E. by simplify_eq.
  - simplify_eq.
    destruct (mechanics d !! id) as [x|] eqn:Hx;
      [|unfold delete_mechanic; by rewrite Hx].
    destruct (delete_mechanic_Some id d (mk_is_Some _ _ Hx)) as (_ & _ & Ep & Es).
    split; [by rewrite Ep | by rewrite Es].
  - simplify_eq.
    destruct (profiles d !! id) as [x|] eqn:Hx;
      [|unfold delete_profile; by rewrite Hx].
    destruct (delete_profile_Some id d (mk_is_Some _ _ Hx)) as (Ep & _).
    split.
    + rewrite Ep. by apply map_Forall_delete.
    + unfold delete_profile. by rewrite Hx.
Qed.

Lemma run_catalog_constraints_hold (ss : list statement) (d : db) :
  catalog_constraints_hold d → catalog_constraints_hold (run ss d).
Proof.
  revert d. induction ss as [|s ss IH]; intros d Hd; [done|].
  simpl. apply IH. unfold exec_or_keep.
  destruct (exec s d) eqn:E; [|done]. by eapply exec_catalog_constraints_hold.
Qed.

Lemma catalog_constraints_of_reachable (d : db) :
  reachable d →
  (∀ k p, profiles d !! k = Some p →
          Profile.user_type p = "customer" ∨ Profile.user_type p = "mechanic")
  ∧ (∀ k s, services d !! k = Some s →
            Service.category s ∈ ["repair"; "maintenance"; "inspection"; "emergency"]).
Proof.
  intros [ss ->].
  destruct (run_catalog_constraints_hold ss empty_db) as [Hp Hs].
  { split; apply map_Forall_empty. }
  split.
  - intros k p Hk. specialize (Hp k p Hk). cbn in Hp.
    unfold valid_user_type in Hp.
    by rewrite orb_true_iff, !bool_decide_eq_true in Hp.
  - intros k s Hk. specialize (Hs k s Hk). cbn in Hs.
    unfold valid_category in Hs.
    rewrite !orb_true_iff, !bool_decide_eq_true in Hs.
    rewrite !elem_of_cons, elem_of_nil. tauto.
Qed.

(** X2. In every state the store can reach, also by updates of profiles,
    the one statement that changes a [user_type] after the profile was
    created, the [user_type] of every profile is 'customer' or 'mechanic'
    and the [category] of every service is one of repair, maintenance,
    inspection, emergency. *)
Theorem reachable_catalog_constraints (d : db) :
  reachable d →
  (∀ k p, profiles d !! k = Some p →
          Profile.user_type p = "customer" ∨ Profile.user_type p = "mechanic")
  ∧ (∀ k s, services d !! k = Some s →
            Service.category s ∈ ["repair"; "maintenance"; "inspection"; "emergency"]).
Proof. apply catalog_constraints_of_reachable. Qed.

(** ** More on [handleSubmit] *)

Lemma integer_column_from_option (column : string) (o : option json_number)
    (year : Z) :
  integer_column column (from_option Value Null o) = Ok (Some year)
  ↔ o = Some (Numeral year) ∧ - 2 ^ 31 ≤ year < 2 ^ 31.
Proof.
  destruct o as [[n|v]|]; simpl.
  - unfold int4. rewrite <- in_int4_true. destruct (in_int4 n) eqn:E; simpl.
    + split; [intros [= <-]; by split | by intros [[= ->] _]].
    + split; [done | intros [[= ->] ?]; congruence].
  - split; [done | by intros [[=] _]].
  - split; [done | by intros [[=] _]].
Qed.

Lemma handleSubmit_Navigated_iff (who : principal) (new_id : uuid)
    (clock now : timestamptz) (st : CreateBookingScreen.state) (d d' : db) :
  CreateBookingScreen.handleSubmit who new_id clock now st d
  = CreateBookingScreen.Navigated d'
  ↔ ∃ u s m year price,
      ¬ CreateBookingScreen.form_incomplete st
      ∧ who = Some u
      ∧ CreateBookingScreen.profile st ≫= uuid_in = Some u
      ∧ CreateBookingScreen.serviceId st ≫= uuid_in = Some s
      ∧ CreateBookingScreen.selectedMechanic st ≫= uuid_in = Some m
      ∧ stringify (CreateBookingScreen.parseInt
                     (CreateBookingScreen.vehicleYear st))
        = Some (Numeral year)
      ∧ - 2 ^ 31 ≤ year < 2 ^ 31
      ∧ json_value <$> stringify (CreateBookingScreen.price_or_zero
                                    (CreateBookingScreen.service st))
        = Some price
      ∧ bookings d !! new_id = None
      ∧ is_Some (profiles d !! u)
      ∧ is_Some (mechanics d !! m)
      ∧ is_Some (services d !! s)
      ∧ d' = with_bookings
               (<[new_id := submitted_row u s m year price clock now st]>
                  (bookings d)) d.
Proof.
  split.
  - intros [Hn E]%handleSubmit_Navigated.
    unfold insert_booking in E.
    apply bind_Ok in E as ([[[c m] s] year] & Hconv & E).
    apply convert_insert_payload in Hconv
      as ([Hc _] & [Hm Hsel] & [Hs _] & Hy).
    peel E.
    cbn [CreateBookingScreen.insert_payload Booking.p_status
         Booking.p_vehicle_make Booking.p_vehicle_model
         Booking.p_location_address Booking.p_location_latitude
         Booking.p_location_longitude Booking.p_scheduled_time
         Booking.p_total_price Booking.p_notes or_default] in *.
    apply bookings_insert_policy_true in Hg as (u & -> & Ecu).
    assert (a0 = u) as -> by congruence.
    destruct m as [m|].
    2:{ destruct (CreateBookingScreen.selectedMechanic st) eqn:Esel.
        - by destruct Hsel as [? [=]].
        - exfalso. apply Hn. unfold CreateBookingScreen.form_incomplete.
          rewrite Esel. tauto. }
    apply bool_decide_eq_true in Hg12.
    apply references_true in Hg13, Hg15.
    cbn [references_opt] in Hg14. apply references_true in Hg14.
    subst year. apply integer_column_from_option in Hy as [Hy Hrange].
    destruct (stringify (CreateBookingScreen.price_or_zero _)) as [j|] eqn:Ej;
      cbn in Hg10; [|done].
    injection Hg2 as <-. injection Hg3 as <-. injection Hg4 as <-.
    injection Hg6 as <-. injection Hg7 as <-. injection Hg8 as <-.
    injection Hg9 as <-. injection Hg10 as <-. injection E as <-.
    exists u, a1, m, a5, (json_value j).
    split; [exact Hn|]. split; [reflexivity|]. split; [congruence|].
    split; [congruence|]. split; [congruence|]. split; [exact Hy|].
    split; [exact Hrange|]. by repeat split.
  - intros (u & s & m & year & price & Hn & -> & Hp & Hs & Hm & Hy & Hr & Hprice
            & Hf & Hpu & Hmm & Hss & ->).
    rewrite (handleSubmit_complete _ _ _ _ _ _ Hn).
    unfold insert_booking.
    assert (convert_booking (CreateBookingScreen.insert_payload clock st)
            = Ok (Some u, Some m, Some s, Some year)) as ->.
    { apply convert_insert_payload. rewrite Hp, Hm, Hs.
      split; [by split; eauto|]. split; [by split; eauto|].
      split; [by split; eauto|]. by apply integer_column_from_option. }
    cbn [mbind result_bind bookings_insert_policy].
    rewrite bool_decide_eq_true_2 by done.
    cbn [CreateBookingScreen.insert_payload Booking.p_status
         Booking.p_vehicle_make Booking.p_vehicle_model
         Booking.p_location_address Booking.p_location_latitude
         Booking.p_location_longitude Booking.p_scheduled_time
         Booking.p_total_price Booking.p_notes or_default
         not_null mbind result_bind guard_or].
    destruct (stringify (CreateBookingScreen.price_or_zero _)) as [j|];
      [|done]. cbn in Hprice. injection Hprice as <-.
    cbn [from_option or_default not_null mbind result_bind].
    assert (valid_status "pending" = true) as -> by reflexivity.
    apply references_true in Hpu, Hmm, Hss.
    cbn [references_opt guard_or mbind result_bind].
    rewrite Hpu, Hmm, Hss.
    rewrite bool_decide_eq_true_2 by done.
    reflexivity.
Qed.

(** X3. [handleSubmit] creates the booking exactly when the form is
    complete, the profile on the screen is that of the session, the route
    parameter is the text of the id of a service of the catalog, the selected
    mechanic exists, the year is read by [parseInt] as a number that is
    written as an integer numeral and fits the [integer] column, the price is
    a finite number, the generated id is free and the profile exists; the
    store is then the old one with the one submitted row added under the new
    id: the values of the form, the price that the screen holds, the time of
    the device as [scheduled_time] and the time of the store as
    [created_at]. *)
Theorem handleSubmit_succeeds_iff (who : principal) (new_id : uuid)
    (clock now : timestamptz) (st : CreateBookingScreen.state) (d d' : db) :
  CreateBookingScreen.handleSubmit who new_id clock now st d
  = CreateBookingScreen.Navigated d'
  ↔ ∃ u s m year price,
      ¬ CreateBookingScreen.form_incomplete st
      ∧ who = Some u
      ∧ CreateBookingScreen.profile st ≫= uuid_in = Some u
      ∧ CreateBookingScreen.serviceId st ≫= uuid_in = Some s
      ∧ CreateBookingScreen.selectedMechanic st ≫= uuid_in = Some m
      ∧ stringify (CreateBookingScreen.parseInt
                     (CreateBookingScreen.vehicleYear st))
        = Some (Numeral year)
      ∧ - 2 ^ 31 ≤ year < 2 ^ 31
      ∧ json_value <$> stringify (CreateBookingScreen.price_or_zero
                                    (CreateBookingScreen.service st))
        = Some price
      ∧ bookings d !! new_id = None
      ∧ is_Some (profiles d !! u)
      ∧ is_Some (mechanics d !! m)
      ∧ is_Some (services d !! s)
      ∧ d' = with_bookings
               (<[new_id := submitted_row u s m year price clock now st]>
                  (bookings d)) d.
Proof. apply handleSubmit_Navigated_iff. Qed.

Lemma handleSubmit_succeeds_iff_witness :
  (* a year typed after a no-break space is read as the year *)
  CreateBookingScreen.handleSubmit (Some Example.alice) Example.b1 10 1
    (Example.alice_form_year Example.year_after_a_space) Example.world
  = CreateBookingScreen.Navigated
      (with_bookings
         (<[Example.b1 :=
              submitted_row Example.alice Example.s1 Example.m_carol 2020
                (4999 # 100) 10 1
                (Example.alice_form_year Example.year_after_a_space)]>
            (bookings Example.world)) Example.world)
  ∧ ∃ u s m year price,
      Example.booked
      = with_bookings
          (<[Example.b1 := submitted_row u s m year price 10 1
                             (Example.alice_form (Some Example.m_carol))]>
             (bookings Example.world)) Example.world.
Proof.
  split.
  - apply (proj2 (handleSubmit_succeeds_iff (Some Example.alice) Example.b1
                    10 1 (Example.alice_form_year Example.year_after_a_space)
                    Example.world _)).
    exists Example.alice, Example.s1, Example.m_carol, 2020, (4999 # 100).
    split.
    { intros H. vm_compute in H.
      destruct H as [H|[H|[H|[H|[H|H]]]]]; discriminate H. }
    split; [reflexivity|]. split; [vm_compute; reflexivity|].
    split; [vm_compute; reflexivity|]. split; [vm_compute; reflexivity|].
    split; [vm_compute; reflexivity|]. split; [simpl; lia|].
    split; [vm_compute; reflexivity|]. split; [vm_compute; reflexivity|].
    split; [vm_compute; eauto|]. split; [vm_compute; eauto|].
    split; [vm_compute; eauto|]. reflexivity.
  - destruct (proj1 (handleSubmit_succeeds_iff (Some Example.alice) Example.b1
                       10 1 (Example.alice_form (Some Example.m_carol))
                       Example.world Example.booked))
      as (u & s & m & year & price & H).
    + vm_compute. reflexivity.
    + exists u, s, m, year, price. apply H.
Defined.

(** X4. A booking that [handleSubmit] created is read back, under the
    select policies, by its customer and by the user who owns the row of the
    selected mechanic, and by nobody else. *)
Theorem created_booking_readers (who : principal) (new_id : uuid)
    (clock now : timestamptz) (st : CreateBookingScreen.state) (d d' : db) :
  CreateBookingScreen.handleSubmit who new_id clock now st d
  = CreateBookingScreen.Navigated d' →
  ∃ b m r,
    bookings d' !! new_id = Some b
    ∧ who = Some (Booking.customer_id b)
    ∧ Booking.mechanic_id b = Some m
    ∧ mechanics d' !! m = Some r
    ∧ ∀ P, is_Some (select_bookings (Some P) d' !! new_id)
           ↔ P = Booking.customer_id b ∨ P = Mechanic.user_id r.
Proof.
  intros (b & -> & _ & -> & _ & _ & _ & _ & (m & r & Hm & Hr) & _)
    %handleSubmit_stored.
  exists b, m, r.
  cbn [bookings mechanics with_bookings]. rewrite lookup_insert_eq.
  split; [done|]. split; [done|]. split; [done|]. split; [done|].
  intros P. split.
  - intros [b' Hb'].
    apply select_bookings_lookup in Hb'
      as [Hb' [Hc|(mid & r' & Hm' & Hr' & Hu)]];
      cbn [bookings mechanics with_bookings] in Hb';
      rewrite lookup_insert_eq in Hb'; injection Hb' as <-.
    + by left.
    + right. cbn [mechanics with_bookings] in Hr'. congruence.
  - intros HP. exists b.
    apply select_bookings_lookup. cbn [bookings mechanics with_bookings].
    rewrite lookup_insert_eq. split; [done|].
    destruct HP as [->| ->]; [by left|]. right. by exists m, r.
Qed.

Lemma uuid_column_of_valid (column : string) (o : option string)
    (dflt : entry string) :
  dflt = Absent ∨ dflt = Null →
  (∀ t, o = Some t → is_Some (uuid_in t)) →
  uuid_column column (from_option Value dflt o) = Ok (o ≫= uuid_in).
Proof.
  intros Hd Hv. destruct o as [t|]; simpl.
  - by destruct (Hv t eq_refl) as [u ->].
  - by destruct Hd as [-> | ->].
Qed.

(** X5. The form guard does not look at what the year field holds, and the
    store answers for it.  With a complete form whose ids are texts of
    [uuid]s: a year that is read as a number outside of the range of
    [integer] comes back as the out-of-range error, and a year so large that
    the number is written with an exponent as the error of the input syntax,
    whatever the session is, for the store converts before it looks at the
    policy; a year without a digit, or one beyond all doubles, is sent as
    [null] and comes back, under the session of the profile and with a
    service reference, as the not-null violation of [vehicle_year].  No
    booking is created. *)
Theorem handleSubmit_year_not_validated (who : principal) (new_id : uuid)
    (clock now : timestamptz) (st : CreateBookingScreen.state) (d : db) :
  ¬ CreateBookingScreen.form_incomplete st →
  (∀ t, CreateBookingScreen.profile st = Some t → is_Some (uuid_in t)) →
  (∀ t, CreateBookingScreen.selectedMechanic st = Some t → is_Some (uuid_in t)) →
  (∀ t, CreateBookingScreen.serviceId st = Some t → is_Some (uuid_in t)) →
  (∀ year,
     stringify (CreateBookingScreen.parseInt (CreateBookingScreen.vehicleYear st))
     = Some (Numeral year) →
     ¬ (- 2 ^ 31 ≤ year < 2 ^ 31) →
     CreateBookingScreen.handleSubmit who new_id clock now st d
     = CreateBookingScreen.InsertError (NumericValueOutOfRange "vehicle_year"))
  ∧ (∀ v,
       stringify (CreateBookingScreen.parseInt
                    (CreateBookingScreen.vehicleYear st))
       = Some (Decimal v) →
       CreateBookingScreen.handleSubmit who new_id clock now st d
       = CreateBookingScreen.InsertError
           (InvalidTextRepresentation "vehicle_year"))
  ∧ (stringify (CreateBookingScreen.parseInt
                  (CreateBookingScreen.vehicleYear st)) = None →
     ∀ u, who = Some u →
          CreateBookingScreen.profile st ≫= uuid_in = Some u →
          is_Some (CreateBookingScreen.serviceId st) →
          CreateBookingScreen.handleSubmit who new_id clock now st d
          = CreateBookingScreen.InsertError (NotNullViolation "vehicle_year")).
Proof.
  intros Hn Hvp Hvm Hvs. rewrite (handleSubmit_complete _ _ _ _ _ _ Hn).
  unfold insert_booking, convert_booking.
  cbn [CreateBookingScreen.insert_payload Booking.p_customer_id
       Booking.p_mechanic_id Booking.p_service_id Booking.p_status
       Booking.p_vehicle_make Booking.p_vehicle_model Booking.p_vehicle_year
       Booking.p_location_address Booking.p_location_latitude
       Booking.p_location_longitude Booking.p_scheduled_time
       Booking.p_total_price Booking.p_notes].
  rewrite (uuid_column_of_valid "customer_id") by auto.
  rewrite (uuid_column_of_valid "mechanic_id") by auto.
  rewrite (uuid_column_of_valid "service_id") by auto.
  cbn [mbind result_bind].
  split; [|split].
  - intros year -> Hr. cbn [from_option integer_column].
    unfold int4.
    destruct (in_int4 year) eqn:E; [by apply in_int4_true in E|done].
  - by intros v ->.
  - intros -> u -> Hp [t Ht]. cbn [from_option integer_column mbind result_bind].
    rewrite Hp. cbn [bookings_insert_policy].
    rewrite (bool_decide_eq_true_2 (u = u)) by done.
    destruct (Hvs t Ht) as [s Hs]. rewrite Ht. cbn [mbind option_bind].
    rewrite Hs. reflexivity.
Qed.

Lemma handleSubmit_year_not_validated_witness :
  CreateBookingScreen.handleSubmit (Some Example.bob) Example.b2 10 1
    (Example.alice_form_year "99999999999") Example.world
  = CreateBookingScreen.InsertError (NumericValueOutOfRange "vehicle_year")
  ∧ CreateBookingScreen.handleSubmit (Some Example.alice) Example.b2 10 1
      (Example.alice_form_year "1000000000000000000000") Example.world
    = CreateBookingScreen.InsertError (InvalidTextRepresentation "vehicle_year")
  ∧ CreateBookingScreen.handleSubmit (Some Example.alice) Example.b2 10 1
      (Example.alice_form_year "twenty") Example.world
    = CreateBookingScreen.InsertError (NotNullViolation "vehicle_year").
Proof.
  assert (∀ year, year ≠ "" →
            ¬ CreateBookingScreen.form_incomplete
                (Example.alice_form_year year)) as Hcomplete.
  { intros year Hy H. vm_compute in H.
    destruct H as [H|[H|[H|[H|[H|H]]]]]; try discriminate H. exact (Hy H). }
  assert (∀ year t,
            CreateBookingScreen.profile (Example.alice_form_year year) = Some t
            → is_Some (uuid_in t)) as Hvp.
  { intros year t [= <-]. vm_compute. eauto. }
  assert (∀ year t,
            CreateBookingScreen.selectedMechanic (Example.alice_form_year year)
            = Some t → is_Some (uuid_in t)) as Hvm.
  { intros year t [= <-]. vm_compute. eauto. }
  assert (∀ year t,
            CreateBookingScreen.serviceId (Example.alice_form_year year)
            = Some t → is_Some (uuid_in t)) as Hvs.
  { intros year t [= <-]. vm_compute. eauto. }
  split; [|split].
  - apply (proj1 (handleSubmit_year_not_validated (Some Example.bob)
                    Example.b2 10 1 (Example.alice_form_year "99999999999")
                    Example.world (Hcomplete "99999999999" ltac:(discriminate)) (Hvp _) (Hvm _)
                    (Hvs _)) 99999999999).
    + vm_compute. reflexivity.
    + vm_compute. intros [_ Hlt]. discriminate Hlt.
  - apply (proj1 (proj2 (handleSubmit_year_not_validated (Some Example.alice)
                    Example.b2 10 1
                    (Example.alice_form_year "1000000000000000000000")
                    Example.world (Hcomplete "1000000000000000000000" ltac:(discriminate)) (Hvp _) (Hvm _)
                    (Hvs _))) (1000000000000000000000 # 1)%Q).
    vm_compute. reflexivity.
  - apply (proj2 (proj2 (handleSubmit_year_not_validated (Some Example.alice)
                    Example.b2 10 1 (Example.alice_form_year "twenty")
                    Example.world (Hcomplete "twenty" ltac:(discriminate)) (Hvp _) (Hvm _)
                    (Hvs _))) eq_refl Example.alice eq_refl).
    + vm_compute. reflexivity.
    + vm_compute. eauto.
Defined.

(** ** The bookings tab *)

Global Instance newer_first_total : Total BookingsScreen.newer_first.
Proof. intros [x|] [y|]; simpl; auto. lia. Qed.

Global Instance newer_first_trans : Transitive BookingsScreen.newer_first.
Proof. intros [x|] [y|] [z|]; simpl; try done. lia. Qed.

Global Instance item_order_total : Total BookingsScreen.item_order.
Proof. intros x y. apply newer_first_total. Qed.

Global Instance item_order_trans : Transitive BookingsScreen.item_order.
Proof. intros x y z. apply newer_first_trans. Qed.

Lemma loadBookings_elem_of (who : principal) (p : uuid) (d : db)
    (it : BookingsScreen.item) :
  it ∈ BookingsScreen.loadBookings who (Some p) d
  ↔ ∃ k b, it = BookingsScreen.to_item who d (k, b)
           ∧ bookings d !! k = Some b
           ∧ Booking.customer_id b = p
           ∧ bookings_select_policy d who b = true.
Proof.
  unfold BookingsScreen.loadBookings.
  rewrite merge_sort_Permutation, list_elem_of_fmap. split.
  - intros ([k b] & -> & Hin). exists k, b.
    apply elem_of_map_to_list in Hin.
    apply map_lookup_filter_Some in Hin as [Hin Hc]. cbn [snd] in Hc.
    unfold select_bookings in Hin.
    apply map_lookup_filter_Some in Hin as [Hin Hpol]. by cbn [snd] in Hpol.
  - intros (k & b & -> & Hb & Hc & Hpol). exists (k, b). split; [done|].
    apply elem_of_map_to_list, map_lookup_filter_Some. split; [|done].
    unfold select_bookings. by apply map_lookup_filter_Some.
Qed.

(** X6. For the signed-in user [u], [loadBookings] lists exactly the
    bookings whose [customer_id] is [u], each once: a booking of another
    customer is never listed, not even when [u] may read it as the user of
    its assigned mechanic. *)
Theorem loadBookings_own_bookings (u : uuid) (d : db) :
  (∀ it, it ∈ BookingsScreen.loadBookings (Some u) (Some u) d
         ↔ ∃ k b, bookings d !! k = Some b ∧ Booking.customer_id b = u
                  ∧ it = BookingsScreen.to_item (Some u) d (k, b))
  ∧ NoDup (BookingsScreen.id <$> BookingsScreen.loadBookings (Some u) (Some u) d)
  ∧ (∀ k b, bookings d !! k = Some b → Booking.customer_id b ≠ u →
            k ∉ BookingsScreen.id
                <$> BookingsScreen.loadBookings (Some u) (Some u) d).
Proof.
  split; [|split].
  - intros it. rewrite loadBookings_elem_of. split.
    + intros (k & b & -> & Hb & Hc & _). by exists k, b.
    + intros (k & b & Hb & Hc & ->). exists k, b. repeat split; try done.
      apply bookings_select_policy_true. by left.
  - unfold BookingsScreen.loadBookings.
    rewrite merge_sort_Permutation, <- list_fmap_compose.
    apply NoDup_fst_map_to_list.
  - intros k b Hb Hc (it & -> & Hin)%list_elem_of_fmap.
    apply loadBookings_elem_of in Hin as (k' & b' & -> & Hb' & Hc' & _).
    cbn in Hb. rewrite Hb' in Hb. by simplify_eq.
Qed.

Lemma loadBookings_sorted (who : principal) (profile : option uuid)
    (d : db) :
  StronglySorted
    (λ x y, BookingsScreen.newer_first
              (Booking.created_at (BookingsScreen.row x))
              (Booking.created_at (BookingsScreen.row y)))
    (BookingsScreen.loadBookings who profile d).
Proof.
  destruct profile as [p|]; [|constructor].
  apply (StronglySorted_merge_sort BookingsScreen.item_order).
Qed.

(** X8. In every state the store can reach, each booking that
    [loadBookings] lists carries its embedded service (the name and duration
    of the service it references), and its embedded mechanic is null exactly
    when [mechanic_id] is null. *)
Theorem loadBookings_embedded_rows (u : uuid) (d : db) (it : BookingsScreen.item) :
  reachable d →
  it ∈ BookingsScreen.loadBookings (Some u) (Some u) d →
  (∃ s, services d !! Booking.service_id (BookingsScreen.row it) = Some s
        ∧ BookingsScreen.service it
          = Some (Service.name s, Service.estimated_duration s))
  ∧ (BookingsScreen.mechanic it = None
     ↔ Booking.mechanic_id (BookingsScreen.row it) = None).
Proof.
  intros (_ & _ & Hb & _)%referential_integrity_of_reachable
         (k & b & -> & Hk & _)%loadBookings_elem_of.
  destruct (Hb k b Hk) as (_ & Hm & [s Hs]).
  cbn [BookingsScreen.to_item BookingsScreen.row BookingsScreen.service
       BookingsScreen.mechanic fst snd select_services select_mechanics
       anyone_can_view].
  split.
  - exists s. by rewrite Hs.
  - destruct (Booking.mechanic_id b) as [m|]; [|done].
    destruct (Hm m eq_refl) as [r Hr]. cbn. rewrite Hr. cbn. by split.
Qed.

(** X9. When the earlier bookings of [u] all have a [created_at] before the
    [now()] of the insert, the booking that [handleSubmit] creates is the
    first element of what [loadBookings] lists for [u] afterwards, stored as
    pending with the make, model and address that were typed and with the
    time of the store as [created_at], whatever the clock of the device
    shows; the earlier bookings of [u] follow it. *)
Theorem created_booking_heads_the_list (u new_id : uuid)
    (clock now : timestamptz) (st : CreateBookingScreen.state) (d d' : db) :
  CreateBookingScreen.handleSubmit (Some u) new_id clock now st d
  = CreateBookingScreen.Navigated d' →
  (∀ k b, bookings d !! k = Some b → Booking.customer_id b = u →
          ∃ t, Booking.created_at b = Some t ∧ t < now) →
  ∃ it rest,
    BookingsScreen.loadBookings (Some u) (Some u) d' = it :: rest
    ∧ BookingsScreen.id it = new_id
    ∧ bookings d' !! new_id = Some (BookingsScreen.row it)
    ∧ Booking.status (BookingsScreen.row it) = "pending"
    ∧ Booking.vehicle_make (BookingsScreen.row it)
      = CreateBookingScreen.vehicleMake st
    ∧ Booking.vehicle_model (BookingsScreen.row it)
      = CreateBookingScreen.vehicleModel st
    ∧ Booking.location_address (BookingsScreen.row it)
      = CreateBookingScreen.locationAddress st
    ∧ Booking.created_at (BookingsScreen.row it) = Some now
    ∧ (∀ k b, bookings d !! k = Some b → Booking.customer_id b = u →
              k ∈ BookingsScreen.id <$> rest).
Proof.
  intros (b0 & -> & Hfresh & [= Hu] & _ & _ & _ & _ & _ & _ & Hst & _ & Hmake
          & Hmodel & Haddr & Hcreated)%handleSubmit_stored Hold.
  set (d' := with_bookings (<[new_id:=b0]> (bookings d)) d).
  set (new := BookingsScreen.to_item (Some u) d' (new_id, b0)).
  assert (new ∈ BookingsScreen.loadBookings (Some u) (Some u) d') as Hin.
  { apply loadBookings_elem_of. exists new_id, b0.
    split; [done|]. split; [apply lookup_insert_eq|]. split; [done|].
    apply bookings_select_policy_true. by left. }
  pose proof (loadBookings_sorted (Some u) (Some u) d') as Hsorted.
  assert (∀ k b, bookings d !! k = Some b → Booking.customer_id b = u →
                 BookingsScreen.to_item (Some u) d' (k, b)
                 ∈ BookingsScreen.loadBookings (Some u) (Some u) d') as Hearlier.
  { intros k b Hb Hc. apply loadBookings_elem_of. exists k, b.
    split; [done|]. split.
    - change (<[new_id:=b0]> (bookings d) !! k = Some b).
      rewrite lookup_insert_ne; [done|]. intros <-. congruence.
    - split; [done|]. apply bookings_select_policy_true. by left. }
  destruct (BookingsScreen.loadBookings (Some u) (Some u) d')
    as [|it rest] eqn:Hl; [by apply elem_of_nil in Hin|].
  assert (it = new) as ->.
  2:{ exists new, rest. split; [done|]. split; [done|].
      split; [apply lookup_insert_eq|]. split; [done|]. split; [done|].
      split; [done|]. split; [done|]. split; [done|].
      intros k b Hb Hc. specialize (Hearlier k b Hb Hc).
      apply elem_of_cons in Hearlier as [Heq|Hrest].
      - exfalso. apply (f_equal BookingsScreen.id) in Heq. cbn in Heq.
        subst k. congruence.
      - apply list_elem_of_fmap. by eexists; split; [|exact Hrest]. }
  apply elem_of_cons in Hin as [Hin|Hin]; [done|].
  apply StronglySorted_cons in Hsorted as [Hall _].
  rewrite Forall_forall in Hall. specialize (Hall new Hin).
  assert (it ∈ BookingsScreen.loadBookings (Some u) (Some u) d') as Hit
    by (rewrite Hl; apply list_elem_of_here).
  apply loadBookings_elem_of in Hit as (k & b & -> & Hb & Hc & _).
  subst d'. cbn [bookings with_bookings] in Hb.
  apply lookup_insert_Some in Hb as [[<- <-]|[Hne Hb]]; [done|].
  destruct (Hold k b Hb Hc) as (t & Ht & Hlt).
  cbn in Hall. rewrite Ht, Hcreated in Hall. cbn in Hall. lia.
Qed.

Lemma created_booking_heads_the_list_witness :
  (* Alice's second booking comes before her first one *)
  ∃ it rest,
    BookingsScreen.loadBookings (Some Example.alice) (Some Example.alice)
      Example.booked_again
    = it :: rest
    ∧ BookingsScreen.id it = Example.b3
    ∧ Example.b1 ∈ BookingsScreen.id <$> rest.
Proof.
  destruct (created_booking_heads_the_list Example.alice Example.b3 20 5
              (Example.filled
                 (CreateBookingScreen.mounted (Some Example.alice)
                    (Some Example.s1) (Some Example.alice) Example.booked)
                 (Some Example.m_dave) "2021")
              Example.booked Example.booked_again)
    as (it & rest & Hl & Hid & _ & _ & _ & _ & _ & _ & Hrest).
  - vm_compute. reflexivity.
  - assert (bookings Example.booked = {[ Example.b1 := Example.alice_booking ]})
      as -> by (vm_compute; reflexivity).
    intros k b [<- <-]%lookup_singleton_Some _. exists 1.
    split; [reflexivity | lia].
  - exists it, rest. split; [exact Hl|]. split; [exact Hid|].
    apply (Hrest Example.b1 Example.alice_booking); [|reflexivity].
    vm_compute. reflexivity.
Defined.

(** ** Badge colours *)

(** ** Badge colours *)

Lemma elem_of_status_domain (s : string) :
  s ∈ status_domain →
  s = "pending" ∨ s = "accepted" ∨ s = "in_progress" ∨ s = "completed"
  ∨ s = "cancelled".
Proof.
  unfold status_domain. rewrite !elem_of_cons, elem_of_nil. tauto.
Qed.

(** X10. For every booking of a state the store can reach,
    [getStatusColor] and [getStatusBgColor] return a colour of their table,
    never the fallback grey and never something inherited from
    [Object.prototype]; and two stored bookings get the same text colour
    only when they have the same status. *)
Theorem status_colors_of_stored_bookings {V : Type}
    (object_prototype : string → option V) (d : db) :
  reachable d →
  (∀ k b, bookings d !! k = Some b →
     ∃ color background,
       BookingsScreen.getStatusColor object_prototype (Booking.status b)
       = inl color
       ∧ BookingsScreen.getStatusBgColor object_prototype (Booking.status b)
         = inl background
       ∧ color ≠ "#6b7280" ∧ background ≠ "#f3f4f6")
  ∧ (∀ k1 b1 k2 b2,
       bookings d !! k1 = Some b1 → bookings d !! k2 = Some b2 →
       BookingsScreen.getStatusColor object_prototype (Booking.status b1)
       = BookingsScreen.getStatusColor object_prototype (Booking.status b2) →
       Booking.status b1 = Booking.status b2).
Proof.
  intros Hd.
  assert (∀ id b, bookings d !! id = Some b → Booking.status b ∈ status_domain)
    as Hdom by (intros id b; by apply booking_status_of_reachable).
  split.
  - intros k b Hb. apply Hdom in Hb. apply elem_of_status_domain in Hb.
    destruct Hb as [->|[->|[->|[->| ->]]]]; do 2 eexists;
      (split; [reflexivity|]); (split; [reflexivity|]); by split.
  - intros k1 b1 k2 b2 Hb1 Hb2.
    apply Hdom in Hb1. apply elem_of_status_domain in Hb1.
    apply Hdom in Hb2. apply elem_of_status_domain in Hb2.
    destruct Hb1 as [->|[->|[->|[->| ->]]]];
      destruct Hb2 as [->|[->|[->|[->| ->]]]];
      try reflexivity; intros H; discriminate H.
Qed.

(** X11. For every service of a state the store can reach,
    [getCategoryColor] and [getCategoryBgColor] return a colour of their
    table, never the fallback. *)
Theorem category_colors_of_catalog {V : Type}
    (object_prototype : string → option V) (d : db) :
  reachable d →
  ∀ k s, services d !! k = Some s →
    ∃ color background,
      HomeScreen.getCategoryColor object_prototype (Service.category s)
      = inl color
      ∧ HomeScreen.getCategoryBgColor object_prototype (Service.category s)
        = inl background
      ∧ color ≠ "#6b7280" ∧ background ≠ "#f3f4f6".
Proof.
  intros [_ Hs]%catalog_constraints_of_reachable k s Hk.
  specialize (Hs k s Hk). rewrite !elem_of_cons, elem_of_nil in Hs.
  destruct Hs as [E|[E|[E|[E|[]]]]]; rewrite E; do 2 eexists;
    (split; [reflexivity|]); (split; [reflexivity|]); by split.
Qed.

(** ** Sign-up *)

(** X12. [handleSignUp] goes on to the tabs exactly when the email and the
    name are not empty, the password has at least six code units and
    [signUp] reports no error; an empty field gives the fill-in message, also
    when the password is the empty one, a shorter password the
    six-characters message; and the user type it passes on is one that the
    check constraint of [profiles] accepts. *)
Theorem handleSignUp_reaches_provider
    (signUp : list N → list N → list N → SignUpScreen.userType → option string)
    (st : SignUpScreen.state) :
  (SignUpScreen.handleSignUp signUp st = SignUpScreen.Navigated
   ↔ SignUpScreen.email st ≠ [] ∧ SignUpScreen.fullName st ≠ []
     ∧ (6 ≤ length (SignUpScreen.password st))%nat
     ∧ signUp (SignUpScreen.email st) (SignUpScreen.password st)
         (SignUpScreen.fullName st) (SignUpScreen.type st) = None)
  ∧ (SignUpScreen.email st = [] ∨ SignUpScreen.password st = []
     ∨ SignUpScreen.fullName st = [] →
     SignUpScreen.handleSignUp signUp st
     = SignUpScreen.FormError "Please fill in all fields")
  ∧ (SignUpScreen.email st ≠ [] → SignUpScreen.fullName st ≠ [] →
     (0 < length (SignUpScreen.password st) < 6)%nat →
     SignUpScreen.handleSignUp signUp st
     = SignUpScreen.FormError "Password must be at least 6 characters")
  ∧ valid_user_type (SignUpScreen.userType_text (SignUpScreen.type st)) = true.
Proof.
  assert (∀ l : list N, SignUpScreen.falsy l = true ↔ l = []) as Hf
    by (intros []; split; done).
  unfold SignUpScreen.handleSignUp.
  destruct (SignUpScreen.falsy (SignUpScreen.email st)
            || SignUpScreen.falsy (SignUpScreen.password st)
            || SignUpScreen.falsy (SignUpScreen.fullName st)) eqn:Hfalsy.
  - rewrite !orb_true_iff, !Hf in Hfalsy. split; [|split; [|split]].
    + split; [done|]. intros (He & Hn & Hp & _).
      destruct Hfalsy as [[?|Hp']|?]; [done| |done].
      rewrite Hp' in Hp. simpl in Hp. lia.
    + done.
    + intros He Hn [Hp _]. destruct Hfalsy as [[?|Hp']|?]; [done| |done].
      rewrite Hp' in Hp. simpl in Hp. lia.
    + by destruct (SignUpScreen.type st).
  - rewrite !orb_false_iff in Hfalsy. destruct Hfalsy as [[He Hp] Hn].
    assert (SignUpScreen.email st ≠ []) as He'
      by (intros E%Hf; congruence).
    assert (SignUpScreen.password st ≠ []) as Hp'
      by (intros E%Hf; congruence).
    assert (SignUpScreen.fullName st ≠ []) as Hn'
      by (intros E%Hf; congruence).
    split; [|split; [|split]].
    + destruct (length (SignUpScreen.password st) <? 6)%nat eqn:E.
      * apply Nat.ltb_lt in E. split; [done|]. intros (_ & _ & ? & _). lia.
      * apply Nat.ltb_ge in E.
        destruct (signUp _ _ _ _) eqn:Es.
        -- split; [done|]. by intros (_ & _ & _ & ?).
        -- split; [|done]. intros _. by repeat split.
    + by intros [?|[?|?]].
    + intros _ _ [_ Hlt]. apply Nat.ltb_lt in Hlt. by rewrite Hlt.
    + by destruct (SignUpScreen.type st).
Qed.

(** ** Updates of the ledger *)

(** X13. An update of a booking never moves the row out of the sight of
    who made it: after an update that affected the row, the select policies
    still show the new row to the same principal; an update whose new row
    the principal could not read (the assigned mechanic handing the booking
    to somebody else's mechanic row, or un-assigning itself, on a booking of
    another customer) is refused with the policy violation, when the
    [vehicle_year] it sets, if any, fits the [integer] column; and when it
    does not fit, the update is refused for that, before the policy is
    looked at. *)
Theorem update_booking_keeps_row_in_sight (who : principal) (id : uuid)
    (cond : Booking.row → bool) (set : Booking.row → Booking.row) (d : db) :
  (∀ d' n, update_booking who id cond set d = Ok (d', S n) →
           ∃ old, bookings d !! id = Some old
                  ∧ select_bookings who d' !! id = Some (set old))
  ∧ (∀ old, bookings d !! id = Some old →
            bookings_update_using d who old = true → cond old = true →
            Booking.vehicle_year (set old) = Booking.vehicle_year old
            ∨ - 2 ^ 31 ≤ Booking.vehicle_year (set old) < 2 ^ 31 →
            bookings_select_policy d who (set old) = false →
            update_booking who id cond set d = Err (RlsViolation "bookings"))
  ∧ (∀ old, bookings d !! id = Some old →
            bookings_update_using d who old = true → cond old = true →
            Booking.vehicle_year (set old) ≠ Booking.vehicle_year old →
            ¬ (- 2 ^ 31 ≤ Booking.vehicle_year (set old) < 2 ^ 31) →
            update_booking who id cond set d
            = Err (NumericValueOutOfRange "vehicle_year")).
Proof.
  split; [|split].
  - intros d' n U.
    apply update_booking_Ok in U
      as [([=] & _) | (_ & old & Hold & _ & _ & Hck & _ & ->)].
    exists old. split; [done|]. unfold select_bookings.
    apply map_lookup_filter_Some. cbn [bookings with_bookings snd].
    split; [apply lookup_insert_eq|].
    destruct who; exact Hck.
  - intros old Hold Hu Hc Hy Hpol. unfold update_booking.
    rewrite Hold, Hu, Hc. cbn [andb]. cbv zeta.
    assert (bool_decide (Booking.vehicle_year (set old) = Booking.vehicle_year old)
            || in_int4 (Booking.vehicle_year (set old)) = true) as ->.
    { apply orb_true_iff. by rewrite bool_decide_eq_true, in_int4_true. }
    assert (bookings_update_check d who (set old) = false) as ->; [|done].
    destruct who; exact Hpol.
  - intros old Hold Hu Hc Hne Hr. unfold update_booking.
    rewrite Hold, Hu, Hc. cbn [andb]. cbv zeta.
    rewrite (bool_decide_eq_false_2 _ Hne).
    destruct (in_int4 (Booking.vehicle_year (set old))) eqn:E;
      [by apply in_int4_true in E | done].
Qed.

Lemma update_booking_keeps_row_in_sight_witness :
  (* Carol cannot hand Alice's booking to Dave's mechanic row *)
  update_booking (Some Example.carol) Example.b1 (λ _, true)
    (Booking.set_mechanic_id (Some Example.m_dave)) Example.booked
  = Err (RlsViolation "bookings").
Proof.
  apply (proj1 (proj2 (update_booking_keeps_row_in_sight (Some Example.carol)
                         Example.b1 (λ _, true)
                         (Booking.set_mechanic_id (Some Example.m_dave))
                         Example.booked)) Example.alice_booking).
  - vm_compute. reflexivity.
  - vm_compute. reflexivity.
  - reflexivity.
  - left. reflexivity.
  - vm_compute. reflexivity.
Defined.

(** ** Deleting a mechanic *)

(** X15. Deleting a mechanic deletes exactly the reviews that reference
    it ([reviews.mechanic_id ... ON DELETE CASCADE]); the other mechanic
    rows, the set of bookings, the profiles and the catalog stay. *)
Theorem delete_mechanic_reviews_cascade (m : uuid) (d : db) :
  is_Some (mechanics d !! m) →
  (∀ k r, reviews (delete_mechanic m d) !! k = Some r
          ↔ reviews d !! k = Some r ∧ Review.mechanic_id r ≠ m)
  ∧ (∀ k, k ≠ m → mechanics (delete_mechanic m d) !! k = mechanics d !! k)
  ∧ dom (bookings (delete_mechanic m d)) = dom (bookings d)
  ∧ profiles (delete_mechanic m d) = profiles d
  ∧ services (delete_mechanic m d) = services d.
Proof.
  intros Hm. split; [by apply delete_mechanic_reviews|].
  destruct (delete_mechanic_Some m d Hm) as (-> & -> & -> & ->).
  split; [|split; [|done]].
  - intros k Hk. by rewrite lookup_delete_ne.
  - apply dom_fmap_L.
Qed.

(** ** Profiles and the mechanic directory *)

(** X16. A user reads its own profile and no other; an update of another
    user's profile affects no row; an update of its own profile goes through
    when the new [user_type] is 'customer' or 'mechanic' (the role itself may
    change) and is refused by [valid_user_type] otherwise. *)
Theorem profiles_own_row_only (u : uuid) (d : db) :
  (∀ k p, select_profiles (Some u) d !! k = Some p
          ↔ k = u ∧ profiles d !! u = Some p)
  ∧ (∀ k set, k ≠ u → update_profile (Some u) k set d = Ok (d, 0%nat))
  ∧ (∀ p set, profiles d !! u = Some p →
       update_profile (Some u) u set d
       = if valid_user_type (Profile.user_type (set p))
         then Ok (with_profiles (<[u := set p]> (profiles d)) d, 1%nat)
         else Err (CheckViolation "valid_user_type")).
Proof.
  split; [|split].
  - intros k p. unfold select_profiles. rewrite map_lookup_filter_Some.
    cbn [fst profiles_select_policy]. rewrite bool_decide_eq_true. split.
    + by intros [Hk <-].
    + by intros [-> Hk].
  - intros k set Hk. unfold update_profile.
    destruct (profiles d !! k); [|done].
    cbn [profiles_select_policy]. by rewrite bool_decide_eq_false_2.
  - intros p set Hp. unfold update_profile. rewrite Hp.
    cbn [profiles_select_policy]. rewrite bool_decide_eq_true_2 by done.
    cbn. by destruct (valid_user_type _).
Qed.

(** X17. Of an update of a mechanic row whose new [years_experience],
    [service_radius] and [total_jobs], where it changes them, fit the
    [integer] column: by a user who does not own the row it affects no row;
    the owner cannot hand the row to another user (policy violation); and
    any update of the owner that keeps [user_id] goes through and stores the
    new row.  A new [total_jobs] that does not fit is refused for that. *)
Theorem mechanics_own_row_only (u id : uuid) (m : Mechanic.row)
    (set : Mechanic.row → Mechanic.row) (d : db) :
  mechanics d !! id = Some m →
  (unchanged_or_int4 (Mechanic.years_experience m)
     (Mechanic.years_experience (set m)) = true
   ∧ unchanged_or_int4 (Mechanic.service_radius m)
       (Mechanic.service_radius (set m)) = true →
   (unchanged_or_int4 (Mechanic.total_jobs m) (Mechanic.total_jobs (set m))
    = true →
    (Mechanic.user_id m ≠ u →
     update_mechanic (Some u) id set d = Ok (d, 0%nat))
    ∧ (Mechanic.user_id m = u → Mechanic.user_id (set m) ≠ u →
       update_mechanic (Some u) id set d = Err (RlsViolation "mechanics"))
    ∧ (Mechanic.user_id m = u → Mechanic.user_id (set m) = u →
       update_mechanic (Some u) id set d
       = Ok (with_mechanics (<[id := set m]> (mechanics d)) d, 1%nat)))
   ∧ (unchanged_or_int4 (Mechanic.total_jobs m) (Mechanic.total_jobs (set m))
      = false →
      Mechanic.user_id m = u →
      update_mechanic (Some u) id set d
      = Err (NumericValueOutOfRange "total_jobs"))).
Proof.
  intros Hm [Hy Hr]. unfold update_mechanic. rewrite Hm.
  cbn [mechanics_update_policy]. cbv zeta. rewrite Hy, Hr. split.
  - intros ->. split; [|split].
    + intros Hne. by rewrite bool_decide_eq_false_2.
    + intros He Hne. rewrite bool_decide_eq_true_2 by done.
      cbn [guard_or mbind result_bind].
      rewrite (bool_decide_eq_false_2 (Mechanic.user_id (set m) = u)) by done.
      reflexivity.
    + intros He He'. rewrite !bool_decide_eq_true_2 by congruence. reflexivity.
  - intros -> He. rewrite bool_decide_eq_true_2 by done. reflexivity.
Qed.

Lemma mechanics_own_row_only_witness :
  (* Carol counts one more job; Dave cannot do it for her *)
  (∃ m, mechanics Example.world !! Example.m_carol = Some m
        ∧ update_mechanic (Some Example.carol) Example.m_carol
            Example.one_more_job Example.world
          = Ok (with_mechanics
                  (<[Example.m_carol := Example.one_more_job m]>
                     (mechanics Example.world)) Example.world, 1%nat)
        ∧ Mechanic.total_jobs (Example.one_more_job m) = Some 1)
  ∧ update_mechanic (Some Example.dave) Example.m_carol Example.one_more_job
      Example.world
    = Ok (Example.world, 0%nat).
Proof.
  assert (mechanics Example.world !! Example.m_carol
          = Some (Example.a_mechanic Example.carol "Carol's Garage")) as Hm
    by (vm_compute; reflexivity).
  split.
  - exists (Example.a_mechanic Example.carol "Carol's Garage").
    split; [exact Hm|]. split; [|reflexivity].
    apply (mechanics_own_row_only Example.carol Example.m_carol _
             Example.one_more_job Example.world Hm);
      [split; reflexivity | reflexivity | reflexivity | reflexivity].
  - apply (mechanics_own_row_only Example.dave Example.m_carol _
             Example.one_more_job Example.world Hm);
      [split; reflexivity | reflexivity |].
    intros H. discriminate H.
Defined.

(** ** The seed *)

Lemma insert_services_Ok (ids : list uuid) (rows : list Service.row) (d : db) :
  Forall (λ s, in_int4 (Service.estimated_duration s) = true
               ∧ valid_category (Service.category s) = true) rows →
  ∃ d', insert_services ids rows d = Ok d'.
Proof.
  intros Hrows. revert ids d.
  induction Hrows as [|s rows [Hi Hs] Hrows IH]; intros [|id ids] d; simpl; eauto.
  unfold insert_service, int4. rewrite Hi, Hs. cbn.
  destruct (services d !! id); apply IH.
Qed.

Lemma insert_services_lookup (ids : list uuid) (rows : list Service.row)
    (d d' : db) :
  insert_services ids rows d = Ok d' →
  NoDup ids → (∀ id, id ∈ ids → services d !! id = None) →
  ∀ i id s, ids !! i = Some id → rows !! i = Some s →
            services d' !! id = Some s.
Proof.
  revert rows d. induction ids as [|id0 ids IH]; intros rows d E Hnd Hfresh i id s Hi Hs.
  - done.
  - destruct rows as [|s0 rows]; [done|]. simpl in E.
    apply bind_Ok in E as (d1 & E1 & E).
    apply NoDup_cons in Hnd as [Hnotin Hnd].
    unfold insert_service in E1. apply bind_Ok in E1 as (z & _ & E1).
    apply bind_Ok in E1 as ([] & _ & E1).
    rewrite (Hfresh id0) in E1 by apply list_elem_of_here. simplify_eq.
    destruct i as [|i]; simpl in Hi, Hs; simplify_eq.
    + apply insert_services_services in E as (_ & _ & _ & Hkeep & _).
      apply Hkeep. cbn [services with_services]. apply lookup_insert_eq.
    + eapply (IH rows _ E Hnd); [|done|done].
      intros id' Hid'. cbn [services with_services].
      rewrite lookup_insert_ne; [apply Hfresh; by apply list_elem_of_further|].
      intros ->. done.
Qed.

(** X18. The seed insert never fails, whatever the store holds and
    whatever ids are generated: it touches the catalog only, keeps the
    services that were there, and with fresh, distinct ids the i-th
    generated id holds the i-th sample service. *)
Theorem seed_always_succeeds (ids : list uuid) (now : timestamptz) (d : db) :
  ∃ d', insert_sample_services ids now d = Ok d'
        ∧ profiles d' = profiles d ∧ mechanics d' = mechanics d
        ∧ bookings d' = bookings d ∧ reviews d' = reviews d
        ∧ (∀ k s, services d !! k = Some s → services d' !! k = Some s)
        ∧ (NoDup ids → (∀ id, id ∈ ids → services d !! id = None) →
           ∀ i id s, ids !! i = Some id → sample_services now !! i = Some s →
                     services d' !! id = Some s).
Proof.
  destruct (insert_services_Ok ids (sample_services now) d) as [d' E].
  { unfold sample_services. repeat constructor. }
  exists d'. split; [exact E|].
  pose proof (insert_services_frame _ _ _ _ E) as [Eb Er].
  pose proof (insert_services_services _ _ _ _ E) as (_ & Ep & Em & Hkeep & _).
  repeat split; try done.
  intros Hnd Hfresh. by eapply insert_services_lookup.
Qed.

(** ** Requests without a session *)

Lemma exec_or_keep_Err (s : statement) (d : db) (e : pg_error) :
  exec s d = Err e → exec_or_keep s d = d.
Proof. intros H. unfold exec_or_keep. by rewrite H. Qed.

(** X19. Without a session nothing is read and nothing is written: every
    select is empty, the bookings tab stays empty and the booking screen
    loads neither the service nor a mechanic; every insert raises an error,
    which is the policy violation of its table when the values convert to
    the types of the columns; and no insert and no update changes the
    store. *)
Theorem anon_is_denied (d : db) :
  (select_profiles None d = ∅ ∧ select_mechanics None d = ∅
   ∧ select_services None d = ∅ ∧ select_bookings None d = ∅
   ∧ select_reviews None d = ∅
   ∧ (∀ p, BookingsScreen.loadBookings None p d = [])
   ∧ (∀ serviceId, CreateBookingScreen.loadData None serviceId d = (None, ∅)))
  ∧ ((∀ id p, insert_profile None id p d = Err (RlsViolation "profiles"))
     ∧ (∀ id m, ∃ e, insert_mechanic None id m d = Err e
                     ∧ (from_option in_int4 true (Mechanic.years_experience m)
                        && from_option in_int4 true (Mechanic.service_radius m)
                        && from_option in_int4 true (Mechanic.total_jobs m)
                        = true →
                        e = RlsViolation "mechanics"))
     ∧ (∀ id now p, ∃ e, insert_booking None id now p d = Err e
                         ∧ (∀ c, convert_booking p = Ok c →
                                 e = RlsViolation "bookings"))
     ∧ (∀ id now r, ∃ e, insert_review None id now r d = Err e
                         ∧ (in_int4 (Review.rating r) = true →
                            e = RlsViolation "reviews")))
  ∧ ((∀ id p, exec_or_keep (InsertProfile None id p) d = d)
     ∧ (∀ id set, exec_or_keep (UpdateProfile None id set) d = d)
     ∧ (∀ id m, exec_or_keep (InsertMechanic None id m) d = d)
     ∧ (∀ id set, exec_or_keep (UpdateMechanic None id set) d = d)
     ∧ (∀ id now p, exec_or_keep (InsertBooking None id now p) d = d)
     ∧ (∀ id cond set, exec_or_keep (UpdateBooking None id cond set) d = d)
     ∧ (∀ id now r, exec_or_keep (InsertReview None id now r) d = d)).
Proof.
  assert (select_bookings None d = ∅) as Hsel.
  { apply map_empty. intros k. apply map_lookup_filter_None. right.
    by intros b _. }
  assert (∀ id m, ∃ e, insert_mechanic None id m d = Err e
                     ∧ (from_option in_int4 true (Mechanic.years_experience m)
                        && from_option in_int4 true (Mechanic.service_radius m)
                        && from_option in_int4 true (Mechanic.total_jobs m)
                        = true →
                        e = RlsViolation "mechanics")) as Hmech.
  { intros id m. unfold insert_mechanic.
    destruct (int4_opt "years_experience" _) as [y|e] eqn:Ey; cbn;
      [apply int4_opt_Ok in Ey as [_ Ey]; rewrite Ey
      |eexists; split; [done|]; intros H;
       destruct (Mechanic.years_experience m) as [z|]; [|done];
       cbn in Ey, H; unfold int4 in Ey; by destruct (in_int4 z)].
    destruct (int4_opt "service_radius" _) as [y'|e] eqn:Er; cbn;
      [apply int4_opt_Ok in Er as [_ Er]; rewrite Er
      |eexists; split; [done|]; intros H;
       destruct (Mechanic.service_radius m) as [z|]; [|done];
       cbn in Er, H; unfold int4 in Er; by destruct (in_int4 z)].
    destruct (int4_opt "total_jobs" _) as [y''|e] eqn:Et; cbn;
      [eauto
      |eexists; split; [done|]; intros H;
       destruct (Mechanic.total_jobs m) as [z|]; [|done];
       cbn in Et, H; unfold int4 in Et; by destruct (in_int4 z)]. }
  assert (∀ id now p, ∃ e, insert_booking None id now p d = Err e
                         ∧ (∀ c, convert_booking p = Ok c →
                                 e = RlsViolation "bookings")) as Hbook.
  { intros id now p. unfold insert_booking.
    destruct (convert_booking p) as [[[[c m] s] year]|e]; cbn; [eauto|].
    eexists. split; [done|]. by intros c. }
  assert (∀ id now r, ∃ e, insert_review None id now r d = Err e
                         ∧ (in_int4 (Review.rating r) = true →
                            e = RlsViolation "reviews")) as Hrev.
  { intros id now r. unfold insert_review, int4.
    destruct (in_int4 (Review.rating r)); cbn; eauto.
    eexists. split; [done|]. done. }
  split; [|split].
  - split_and!; try done.
    + apply map_empty. intros k. apply map_lookup_filter_None. right.
      by intros p _.
    + intros [p|]; [|done]. unfold BookingsScreen.loadBookings.
      rewrite Hsel, map_filter_empty, map_to_list_empty. done.
    + intros [k|]; unfold CreateBookingScreen.loadData; cbn;
        [destruct (uuid_in k); cbn|];
        by rewrite ?lookup_empty, map_filter_empty.
  - split_and!; done.
  - split_and!.
    + intros id p. by apply (exec_or_keep_Err _ _ (RlsViolation "profiles")).
    + intros id set. unfold exec_or_keep, exec, update_profile.
      by destruct (profiles d !! id).
    + intros id m. destruct (Hmech id m) as (e & He & _).
      by apply (exec_or_keep_Err _ _ e).
    + intros id set. unfold exec_or_keep, exec, update_mechanic.
      by destruct (mechanics d !! id).
    + intros id now p. destruct (Hbook id now p) as (e & He & _).
      by apply (exec_or_keep_Err _ _ e).
    + intros id cond set. unfold exec_or_keep, exec, update_booking.
      by destruct (bookings d !! id).
    + intros id now r. destruct (Hrev id now r) as (e & He & _).
      by apply (exec_or_keep_Err _ _ e).
Qed.

(** ** The home tab *)

(** X20. For a signed-in user [loadServices] lists every service of the
    catalog, each once, ordered by category in the collation of the database
    (any total order); without a session the list is empty. *)
Theorem loadServices_lists_the_catalog (collate : relation string)
    `{∀ x y, Decision (collate x y)} (u : uuid) (d : db) :
  Total collate →
  (∀ k s, (k, s) ∈ HomeScreen.loadServices collate (Some u) d
          ↔ services d !! k = Some s)
  ∧ NoDup (HomeScreen.loadServices collate (Some u) d).*1
  ∧ Sorted (λ x y, collate (Service.category x.2) (Service.category y.2))
      (HomeScreen.loadServices collate (Some u) d)
  ∧ HomeScreen.loadServices collate None d = [].
Proof.
  intros Htotal. unfold HomeScreen.loadServices. split_and!.
  - intros k s. rewrite merge_sort_Permutation. cbn.
    apply elem_of_map_to_list.
  - rewrite merge_sort_Permutation. cbn. apply NoDup_fst_map_to_list.
  - assert (Total (HomeScreen.by_category collate)) as Hby
      by (intros x y; apply Htotal).
    apply (Sorted_merge_sort (HomeScreen.by_category collate)).
  - cbn. by rewrite map_to_list_empty.
Qed.

(** X21. A booking made from a card of the home tab references the service
    of the card, and its [total_price] is the [base_price] that the catalog
    held for that service when the booking screen was opened, read as a
    number and written back (0 if the service was gone by then): it is the
    price shown on the card when the catalog still held the row of the card
    at that moment and the price is a decimal that the number gives back,
    whatever the catalog holds when the form is submitted. *)
Theorem booking_from_a_card (collate : relation string)
    `{∀ x y, Decision (collate x y)} (u new_id : uuid)
    (clock now : timestamptz) (card : uuid * Service.row)
    (st : CreateBookingScreen.state) (d_list d_open d d' : db) :
  card ∈ HomeScreen.loadServices collate (Some u) d_list →
  CreateBookingScreen.serviceId st
  = CreateBookingScreen.serviceId
      (HomeScreen.open_booking_screen (Some u) (Some u) card d_open) →
  CreateBookingScreen.service st
  = CreateBookingScreen.service
      (HomeScreen.open_booking_screen (Some u) (Some u) card d_open) →
  CreateBookingScreen.handleSubmit (Some u) new_id clock now st d
  = CreateBookingScreen.Navigated d' →
  services d_list !! card.1 = Some card.2
  ∧ ∃ b, bookings d' !! new_id = Some b
         ∧ uuid_in card.1 = Some (Booking.service_id b)
         ∧ CreateBookingScreen.service st
           = services d_open !! Booking.service_id b
         ∧ (∀ s, services d_open !! Booking.service_id b = Some s →
                 read_back (Service.base_price s)
                 = Some (Booking.total_price b))
         ∧ (services d_open !! Booking.service_id b = None →
            Booking.total_price b = 0%Q)
         ∧ (services d_open !! Booking.service_id b = Some card.2 →
            (∃ p, read_back (Service.base_price card.2) = Some p
                  ∧ (p == Service.base_price card.2)%Q) →
            (Booking.total_price b == Service.base_price card.2)%Q).
Proof.
  destruct card as [k s]. intros Hcard Hid Hsvc Hsubmit.
  unfold HomeScreen.loadServices in Hcard.
  rewrite merge_sort_Permutation in Hcard. cbn in Hcard.
  apply elem_of_map_to_list in Hcard. split; [exact Hcard|].
  apply handleSubmit_stored in Hsubmit
    as (b & -> & _ & _ & _ & _ & Hsid & _ & _ & _ & _ & Hprice & _).
  rewrite Hid in Hsid. cbn in Hsid.
  assert (CreateBookingScreen.service st
          = services d_open !! Booking.service_id b) as Hloaded.
  { rewrite Hsvc. unfold HomeScreen.open_booking_screen,
      CreateBookingScreen.mounted, CreateBookingScreen.loadData. cbn.
    by rewrite Hsid. }
  rewrite Hloaded in Hprice.
  assert (∀ s0, services d_open !! Booking.service_id b = Some s0 →
                read_back (Service.base_price s0)
                = Some (Booking.total_price b)) as Hread.
  { intros s0 Hs0. rewrite Hs0 in Hprice.
    by rewrite price_or_zero_read_back in Hprice. }
  exists b. cbn [bookings with_bookings fst snd]. rewrite lookup_insert_eq.
  split; [done|]. split; [done|]. split; [done|]. split; [exact Hread|].
  split.
  - intros Hnone. rewrite Hnone in Hprice. cbn in Hprice.
    by injection Hprice as <-.
  - intros Hs0 (p & Hp & Heq). rewrite (Hread s Hs0) in Hp.
    by injection Hp as ->.
Qed.

(** ** What the store does not check on an insert *)

(** X22. The store takes the status and the price of a booking from the
    client: where an insert by [u] succeeds, the same insert with any of the
    five statuses, any [total_price] and any other make, model, address,
    coordinates and time succeeds as well and stores them. *)
Theorem insert_booking_trusts_the_client (u new_id : uuid) (now : timestamptz)
    (p p' : Booking.payload) (d d' : db) :
  insert_booking (Some u) new_id now p d = Ok d' →
  Booking.p_customer_id p' = Booking.p_customer_id p →
  Booking.p_mechanic_id p' = Booking.p_mechanic_id p →
  Booking.p_service_id p' = Booking.p_service_id p →
  Booking.p_vehicle_year p' = Booking.p_vehicle_year p →
  is_Value (Booking.p_vehicle_make p') → is_Value (Booking.p_vehicle_model p') →
  is_Value (Booking.p_location_address p') →
  is_Value (Booking.p_location_latitude p') →
  is_Value (Booking.p_location_longitude p') →
  is_Value (Booking.p_scheduled_time p') →
  ∀ status price,
    status ∈ status_domain →
    Booking.p_status p' = Value status →
    Booking.p_total_price p' = Value price →
    ∃ d'' b, insert_booking (Some u) new_id now p' d = Ok d''
             ∧ bookings d'' !! new_id = Some b
             ∧ Booking.status b = status ∧ Booking.total_price b = price.
Proof.
  intros E Hc Hm Hs Hy [make Hmake] [model Hmodel] [addr Haddr] [lat Hlat]
    [lon Hlon] [sched Hsched] status price Hst%valid_status_domain Hstatus Hprice.
  unfold insert_booking in E.
  apply bind_Ok in E as ([[[c m] s] year] & Hconv & E). peel E.
  assert (convert_booking p' = Ok (c, m, s, year)) as Hconv'.
  { unfold convert_booking in *. by rewrite Hc, Hm, Hs, Hy. }
  unfold insert_booking. rewrite Hconv'. cbn [mbind result_bind].
  rewrite Hmake, Hmodel, Haddr, Hlat, Hlon, Hsched, Hstatus, Hprice.
  rewrite Hg, Hg0, Hg1, Hg5.
  cbn [guard_or not_null mbind result_bind or_default].
  rewrite Hst, Hg12, Hg13, Hg14, Hg15. cbn.
  do 2 eexists. split; [reflexivity|]. cbn [bookings with_bookings].
  rewrite lookup_insert_eq. done.
Qed.

(** ** Instances on the example world *)

Lemma reachable_catalog_constraints_witness :
  (* Alice's profile after she has changed its type, and the oil change *)
  (∃ p, profiles Example.updated !! Example.alice = Some p
        ∧ (Profile.user_type p = "customer" ∨ Profile.user_type p = "mechanic"))
  ∧ ∃ s, services Example.updated !! Example.s1 = Some s
         ∧ Service.category s
           ∈ ["repair"; "maintenance"; "inspection"; "emergency"].
Proof.
  split.
  - destruct (profiles Example.updated !! Example.alice) as [p|] eqn:Hp.
    + exists p. split; [reflexivity|].
      exact (proj1 (reachable_catalog_constraints Example.updated
                      updated_reachable) Example.alice p Hp).
    + exfalso. revert Hp. vm_compute. intros Hp. discriminate Hp.
  - destruct (services Example.updated !! Example.s1) as [s|] eqn:Hs.
    + exists s. split; [reflexivity|].
      exact (proj2 (reachable_catalog_constraints Example.updated
                      updated_reachable) Example.s1 s Hs).
    + exfalso. revert Hs. vm_compute. intros Hs. discriminate Hs.
Defined.

Lemma created_booking_readers_witness :
  ∃ b, bookings Example.booked !! Example.b1 = Some b
       ∧ ∃ m r, Booking.mechanic_id b = Some m
                ∧ mechanics Example.booked !! m = Some r
                ∧ ∀ P, is_Some (select_bookings (Some P) Example.booked !! Example.b1)
                       ↔ P = Booking.customer_id b ∨ P = Mechanic.user_id r.
Proof.
  destruct (created_booking_readers (Some Example.alice) Example.b1 10 1
              (Example.alice_form (Some Example.m_carol)) Example.world Example.booked)
    as (b & m & r & Hb & _ & Hm & Hr & HP).
  - vm_compute. reflexivity.
  - exists b. split; [exact Hb|]. exists m, r.
    split; [exact Hm|]. split; [exact Hr | exact HP].
Defined.

Lemma loadBookings_embedded_rows_witness :
  ∃ it rest,
    BookingsScreen.loadBookings (Some Example.alice) (Some Example.alice) Example.booked
    = it :: rest
    ∧ is_Some (BookingsScreen.service it)
    ∧ (BookingsScreen.mechanic it = None
       ↔ Booking.mechanic_id (BookingsScreen.row it) = None).
Proof.
  destruct (BookingsScreen.loadBookings (Some Example.alice) (Some Example.alice)
              Example.booked) as [|it rest] eqn:Hl.
  - exfalso. revert Hl. vm_compute. intros Hl. discriminate Hl.
  - destruct (loadBookings_embedded_rows Example.alice Example.booked it)
      as ((s & _ & Hs) & Hm).
    + exact booked_reachable.
    + rewrite Hl. apply list_elem_of_here.
    + exists it, rest. split; [reflexivity|]. split; [|exact Hm].
      rewrite Hs. eexists. reflexivity.
Defined.

Lemma status_colors_of_stored_bookings_witness :
  ∃ b color background,
    bookings Example.booked !! Example.b1 = Some b
    ∧ BookingsScreen.getStatusColor (λ _, @None unit) (Booking.status b)
      = inl color
    ∧ BookingsScreen.getStatusBgColor (λ _, @None unit) (Booking.status b)
      = inl background
    ∧ color ≠ "#6b7280" ∧ background ≠ "#f3f4f6".
Proof.
  destruct (bookings Example.booked !! Example.b1) as [b|] eqn:Hb.
  - destruct (proj1 (status_colors_of_stored_bookings (λ _, @None unit)
                       Example.booked booked_reachable) Example.b1 b Hb)
      as (color & background & H).
    exists b, color, background. split; [reflexivity | exact H].
  - exfalso. revert Hb. vm_compute. intros Hb. discriminate Hb.
Defined.

Lemma category_colors_of_catalog_witness :
  ∃ s color background,
    services Example.booked !! Example.s1 = Some s
    ∧ HomeScreen.getCategoryColor (λ _, @None unit) (Service.category s)
      = inl color
    ∧ HomeScreen.getCategoryBgColor (λ _, @None unit) (Service.category s)
      = inl background
    ∧ color ≠ "#6b7280" ∧ background ≠ "#f3f4f6".
Proof.
  destruct (services Example.booked !! Example.s1) as [s|] eqn:Hs.
  - destruct (category_colors_of_catalog (λ _, @None unit)
                Example.booked booked_reachable Example.s1 s Hs)
      as (color & background & H).
    exists s, color, background. split; [reflexivity | exact H].
  - exfalso. revert Hs. vm_compute. intros Hs. discriminate Hs.
Defined.

Lemma delete_mechanic_reviews_cascade_witness :
  reviews (delete_mechanic Example.m_carol Example.reviewed) !! Example.r1 = None
  ∧ dom (bookings (delete_mechanic Example.m_carol Example.reviewed))
    = dom (bookings Example.reviewed).
Proof.
  destruct (delete_mechanic_reviews_cascade Example.m_carol Example.reviewed)
    as (Hr & _ & Hdom & _).
  - vm_compute. eexists. reflexivity.
  - split; [|exact Hdom].
    destruct (reviews (delete_mechanic Example.m_carol Example.reviewed) !! Example.r1)
      as [r|] eqn:E; [|reflexivity].
    apply Hr in E as [E Hne]. exfalso. apply Hne.
    revert E. vm_compute. intros [= <-]. reflexivity.
Defined.

Lemma loadServices_lists_the_catalog_witness :
  Sorted (λ x y, Example.collate_C (Service.category x.2) (Service.category y.2))
    (HomeScreen.loadServices Example.collate_C (Some Example.alice) Example.world)
  ∧ length (HomeScreen.loadServices Example.collate_C (Some Example.alice) Example.world)
    = 8%nat.
Proof.
  split.
  - apply (loadServices_lists_the_catalog Example.collate_C Example.alice Example.world).
    intros x y. apply String.leb_total.
  - vm_compute. reflexivity.
Defined.


Lemma booking_from_a_card_witness :
  (* the card shows 49.99, the price is raised to 59.99 after the screen has
     been opened, and the booking is stored at 49.99 *)
  (Service.base_price <$> services Example.repriced !! Example.s1)
  = Some (5999 # 100)
  ∧ ∃ b, bookings Example.booked_at_old_price !! Example.b1 = Some b
         ∧ Booking.service_id b = Example.s1
         ∧ (Booking.total_price b == 4999 # 100)%Q.
Proof.
  split; [vm_compute; reflexivity|].
  assert (services Example.world !! Example.s1
          = Some (seed_row 0 "Oil Change"
                    "Complete oil and filter change service"
                    "maintenance" (4999 # 100) 30)) as Hoil
    by (vm_compute; reflexivity).
  destruct (booking_from_a_card Example.collate_C Example.alice Example.b1 10 1
              (Example.s1, seed_row 0 "Oil Change"
                       "Complete oil and filter change service"
                       "maintenance" (4999 # 100) 30)
              (Example.alice_form (Some Example.m_carol)) Example.world
              Example.world Example.repriced Example.booked_at_old_price)
    as (_ & b & Hb & Hs & _ & _ & _ & Hp).
  - unfold HomeScreen.loadServices. rewrite merge_sort_Permutation.
    apply elem_of_map_to_list. vm_compute. reflexivity.
  - vm_compute. reflexivity.
  - vm_compute. reflexivity.
  - vm_compute. reflexivity.
  - exists b. split; [exact Hb|].
    assert (uuid_in Example.s1 = Some Example.s1) as Hs1
      by (vm_compute; reflexivity).
    cbn [fst snd] in Hs, Hp. rewrite Hs1 in Hs. injection Hs as Hs.
    split; [by symmetry|].
    apply Hp; [rewrite <- Hs; exact Hoil|].
    exists (4999 # 100). split; [vm_compute; reflexivity | reflexivity].
Defined.

Lemma insert_booking_trusts_the_client_witness :
  ∃ d'' b, insert_booking (Some Example.bob) Example.b2 2
             Example.bob_payload_completed Example.booked = Ok d''
           ∧ bookings d'' !! Example.b2 = Some b
           ∧ Booking.status b = "completed"
           ∧ Booking.total_price b = 1 # 100.
Proof.
  apply (insert_booking_trusts_the_client Example.bob Example.b2 2
           Example.bob_payload Example.bob_payload_completed Example.booked
           Example.booked2);
    try reflexivity; try (eexists; reflexivity);
    first [ apply valid_status_domain; vm_compute; reflexivity
          | vm_compute; reflexivity ].
Defined.
